(** * OBD2 analytics worker and research server: a shallow embedding

    The development follows two source files of the repository.

    - [analytics-worker/worker.py]: [to_long_form] (wide snapshots to
      long-form samples) and the three stages of [build_pack]: the pivot,
      the 1 Hz downsample and the KPI summary.
    - [robust_server.py]: the job registry [research_jobs], the connection
      registry ([active_connections], [websocket_tasks]), the progress
      ticker [send_progress_updates], the runners [run_research] and
      [run_analysis], the completed-results stores, the result lookup
      paths, the message loop of the WebSocket handlers and the watcher
      of the output directory of [run_analysis].

    Numbers.  Python integers are [Z].  A float64 is modelled by the
    rational it denotes, kept in lowest terms ([Qred]), so that equal
    values are equal terms; rounding, infinities and NaN are outside the
    model.  Comparisons on floats are exact and are modelled exactly. *)

From Stdlib Require Import ZArith QArith Lia List String Ascii Permutation Sorted.
From stdpp Require Import gmap strings list.
Import ListNotations.

Local Open Scope string_scope.
Local Open Scope list_scope.
Local Open Scope Z_scope.

(** ** Python values, exceptions and dictionaries *)

#[local] Set Warnings "-register-all".

(** The values a record of the sample store or an agent reply can hold.
    A dictionary keeps its items in insertion order; its keys are strings. *)
Inductive pyval : Type :=
| PNone
| PBool (b : bool)
| PInt (z : Z)
| PFloat (q : Q)
| PStr (s : string)
| PList (l : list pyval)
| PDict (d : list (string * pyval)).

Inductive exn : Type :=
| TypeError
| ValueError
| KeyError
| AttributeError
| RuntimeError.

Inductive result (A : Type) : Type :=
| Ok (a : A)
| Raise (e : exn).
Arguments Ok {A} a.
Arguments Raise {A} e.

Definition bind {A B} (r : result A) (k : A -> result B) : result B :=
  match r with
  | Ok a => k a
  | Raise e => Raise e
  end.

Notation "'try!' x ':=' r 'in' k" := (bind r (fun x => k))
  (at level 10, x name, r at level 100, k at level 200).

Section Dict.
Context {K V : Type} `{EqDecision K}.

(** [d.get(k)]: the value of the item whose key is [k]. *)
Fixpoint dict_get (d : list (K * V)) (k : K) : option V :=
  match d with
  | [] => None
  | (k', v) :: d' => if decide (k' = k) then Some v else dict_get d' k
  end.

(** [k in d] *)
Definition dict_mem (d : list (K * V)) (k : K) : bool :=
  match dict_get d k with Some _ => true | None => false end.

(** [d[k]], which raises [KeyError] on an absent key. *)
Definition dict_index (d : list (K * V)) (k : K) : result V :=
  match dict_get d k with Some v => Ok v | None => Raise KeyError end.

(** [d[k] = v]: an existing key keeps its position, a new key goes last. *)
Fixpoint dict_set (d : list (K * V)) (k : K) (v : V) : list (K * V) :=
  match d with
  | [] => [(k, v)]
  | (k', v') :: d' =>
      if decide (k' = k) then (k', v) :: d' else (k', v') :: dict_set d' k v
  end.

(** [del d[k]] for a key that is present. *)
Fixpoint dict_del (d : list (K * V)) (k : K) : list (K * V) :=
  match d with
  | [] => []
  | (k', v') :: d' =>
      if decide (k' = k) then d' else (k', v') :: dict_del d' k
  end.

Definition dict_keys (d : list (K * V)) : list K := map fst d.

End Dict.

(** ** Rational helpers *)

Definition qsum (l : list Q) : Q := fold_right Qplus (0#1)%Q l.

(** The arithmetic mean of a non-empty list, in lowest terms. *)
Definition qmean (l : list Q) : Q :=
  Qred (qsum l / inject_Z (Z.of_nat (length l)))%Q.

(** Polars' [mean] of a column: nulls are ignored, and the mean of no
    value is null. *)
Definition mean_opt (l : list Q) : option Q :=
  match l with
  | [] => None
  | _ => Some (qmean l)
  end.

Definition Qltb (x y : Q) : bool := negb (Qle_bool y x).

(** The non-null cells of a column. *)
Definition non_null (c : list (option Q)) : list Q := omap id c.

(** Insertion into a strictly increasing list of integers (a sorted set). *)
Fixpoint zinsert (x : Z) (l : list Z) : list Z :=
  match l with
  | [] => [x]
  | y :: l' =>
      if x <? y then x :: y :: l'
      else if x =? y then y :: l'
      else y :: zinsert x l'
  end.

(** The distinct elements of [l] in increasing order. *)
Definition zsort_uniq (l : list Z) : list Z := fold_right zinsert [] l.

(** The distinct strings of [l] in order of first appearance. *)
Fixpoint first_seen (seen : list string) (l : list string) : list string :=
  match l with
  | [] => []
  | x :: l' =>
      if existsb (String.eqb x) seen then first_seen seen l'
      else x :: first_seen (x :: seen) l'
  end.

(** * The analytics worker *)
Module Worker.

(** One long-form row [{"ts": ..., "pid": ..., "value": ...}]. *)
Record Sample : Type := mkSample {
  ts : Z;
  pid : string;
  value : Q
}.

Section ToLongForm.

(** [int(s)] and [float(s)] on a string follow Python's numeric
    grammar, which is taken as given; [None] stands for [ValueError]. *)
Variable parse_int : string -> option Z.
Variable parse_float : string -> option Q.

(** The DataFrame cast of the long-form fast path (lines 65-69) is a
    Polars operation on the whole frame and is taken as given. *)
Variable cast_long_rows : list (list (string * pyval)) -> result (list Sample).

(** [int(v)] *)
Definition py_int (v : pyval) : result Z :=
  match v with
  | PNone => Raise TypeError
  | PBool b => Ok (if b then 1 else 0)
  | PInt z => Ok z
  | PFloat q => Ok (Z.quot (Qnum q) (Zpos (Qden q)))
  | PStr s =>
      match parse_int s with Some z => Ok z | None => Raise ValueError end
  | PList _ => Raise TypeError
  | PDict _ => Raise TypeError
  end.

(** [float(v)] *)
Definition py_float (v : pyval) : result Q :=
  match v with
  | PNone => Raise TypeError
  | PBool b => Ok (if b then 1#1 else 0#1)%Q
  | PInt z => Ok (inject_Z z)
  | PFloat q => Ok (Qred q)
  | PStr s =>
      match parse_float s with Some q => Ok (Qred q) | None => Raise ValueError end
  | PList _ => Raise TypeError
  | PDict _ => Raise TypeError
  end.

(** Line 75: the timestamp of a wide record.  [record.get("timestamp")]
    is a dictionary for the [{"$date": ...}] wrapper; an absent key
    reads as the default [0]. *)
Definition record_ts (record : list (string * pyval)) : result Z :=
  match dict_get record "timestamp" with
  | Some (PDict d) =>
      match dict_get d "$date" with
      | Some v => py_int v
      | None => py_int (PInt 0)
      end
  | Some v => py_int v
  | None => py_int (PInt 0)
  end.

Definition reserved (key : string) : bool :=
  String.eqb key "timestamp" || String.eqb key "sessionId"
  || String.eqb key "_id".

(** Lines 80-92: what one item of a record appends to [long_rows].
    [float] raises [ValueError] or [TypeError] and nothing else, and the
    handler catches both. *)
Definition field_rows (t : Z) (key : string) (v : pyval) : list Sample :=
  if reserved key then []
  else
    match v with
    | PNone => []
    | _ =>
        match py_float v with
        | Ok float_val => [mkSample t key float_val]
        | Raise _ => []
        end
    end.

(** Lines 79-92: the inner loop over [record.items()]. *)
Fixpoint record_rows (t : Z) (items : list (string * pyval)) : list Sample :=
  match items with
  | [] => []
  | (key, v) :: items' => field_rows t key v ++ record_rows t items'
  end.

(** Lines 73-92: the outer loop.  The timestamp coercion is outside any
    [try], so an exception of [int] leaves the function. *)
Fixpoint wide_rows (records : list (list (string * pyval)))
  : result (list Sample) :=
  match records with
  | [] => Ok []
  | record :: records' =>
      try! t := record_ts record in
      if t =? 0 then wide_rows records'
      else
        try! rest := wide_rows records' in
        Ok (record_rows t record ++ rest)
  end.

(** Line 64: the first record decides the form of the whole input. *)
Definition is_long_form (sample : list (string * pyval)) : bool :=
  dict_mem sample "ts" && dict_mem sample "pid" && dict_mem sample "value".

(** [to_long_form]: the rows of the returned frame. *)
Definition to_long_form (records : list (list (string * pyval)))
  : result (list Sample) :=
  match records with
  | [] => Ok []
  | sample :: _ =>
      if is_long_form sample then cast_long_rows records
      else wide_rows records
  end.

End ToLongForm.

(** ** The wide table *)

(** A frame with an Int64 column [ts] and one Float64 column per signal;
    [columns] lists the signal columns in frame order, and every row holds
    its [ts] and one cell per signal column, [None] for a null. *)
Record Wide : Type := mkWide {
  columns : list string;
  rows : list (Z * list (option Q))
}.

Definition height (w : Wide) : nat := length (rows w).

Definition column_at (i : nat) (rs : list (Z * list (option Q)))
  : list (option Q) :=
  map (fun r => nth i (snd r) None) rs.

(** The position of a column name. *)
Fixpoint index_of (name : string) (cols : list string) : option nat :=
  match cols with
  | [] => None
  | c :: cols' =>
      if String.eqb c name then Some O
      else option_map S (index_of name cols')
  end.

(** [wide[name]] for a signal column that is present. *)
Definition get_column (w : Wide) (name : string) : list (option Q) :=
  match index_of name (columns w) with
  | Some i => column_at i (rows w)
  | None => []
  end.

(** The cell of row [t] in column [name], if that row and column exist. *)
Definition wide_get (w : Wide) (t : Z) (name : string) : option Q :=
  match find (fun r => fst r =? t) (rows w), index_of name (columns w) with
  | Some r, Some i => nth i (snd r) None
  | _, _ => None
  end.

(** ** Pivot (lines 126-131) *)

(** The samples that meet in the cell of index [t] and column [p]. *)
Definition cell_samples (df_long : list Sample) (t : Z) (p : string)
  : list Sample :=
  filter (fun s => ts s = t /\ pid s = p) df_long.

Definition pivot_cell (df_long : list Sample) (t : Z) (p : string)
  : option Q :=
  mean_opt (map value (cell_samples df_long t p)).

(** [df_long.pivot(index="ts", columns="pid", values="value",
    aggregate_function="mean").sort("ts")]: one column per distinct pid,
    in order of first appearance; one row per distinct ts, sorted. *)
Definition pivot (df_long : list Sample) : Wide :=
  let cols := first_seen [] (map pid df_long) in
  let index := zsort_uniq (map ts df_long) in
  mkWide cols (map (fun t => (t, map (pivot_cell df_long t) cols)) index).

(** ** Downsample to 1 Hz (lines 136-144) *)

(** A row of the frame grouped by [sec]: the key, and the means of the
    other columns, [ts] included. *)
Record SecRow : Type := mkSecRow {
  sec : Z;
  ts_mean : option Q;
  cell_means : list (option Q)
}.

(** [pl.col("ts") // 1000] *)
Definition sec_of (t : Z) : Z := t / 1000.

Definition bucket_rows (rs : list (Z * list (option Q))) (k : Z)
  : list (Z * list (option Q)) :=
  filter (fun r => sec_of (fst r) = k) rs.

(** The means of one group: of its [ts] column and of every signal
    column, nulls ignored. *)
Definition sec_group (w : Wide) (k : Z) : SecRow :=
  let g := bucket_rows (rows w) k in
  mkSecRow k
    (mean_opt (map (fun r => inject_Z (fst r)) g))
    (map (fun i => mean_opt (non_null (column_at i g)))
         (seq 0 (length (columns w)))).

(** [.with_columns((pl.col("ts") // 1000).alias("sec")).group_by("sec").mean()].
    Polars leaves the order of the groups open; they are listed here by
    increasing key, and the final sort fixes the order in any case. *)
Definition group_by_sec_mean (w : Wide) : list SecRow :=
  map (sec_group w) (zsort_uniq (map (fun r => sec_of (fst r)) (rows w))).

(** [.with_columns((pl.col("sec") * 1000).alias("ts")).drop("sec")]: the
    averaged [ts] column is replaced by the bucket start. *)
Definition ts_from_sec (g : SecRow) : Z * list (option Q) :=
  (sec g * 1000, cell_means g).

(** [.sort("ts")], a stable sort. *)
Fixpoint insert_row (r : Z * list (option Q)) (l : list (Z * list (option Q)))
  : list (Z * list (option Q)) :=
  match l with
  | [] => [r]
  | r' :: l' =>
      if fst r <? fst r' then r :: r' :: l' else r' :: insert_row r l'
  end.

Definition sort_rows (l : list (Z * list (option Q)))
  : list (Z * list (option Q)) :=
  fold_right insert_row [] l.

Definition downsample (w : Wide) : Wide :=
  if (0 <? height w)%nat then
    mkWide (columns w) (sort_rows (map ts_from_sec (group_by_sec_mean w)))
  else w.

(** ** KPI summary (lines 148-197) *)

Inductive kval : Type :=
| KNone
| KInt (z : Z)
| KFloat (q : Q)
| KStr (s : string)
| KStrs (l : list string).

Definition zmin_list (l : list Z) : option Z :=
  match l with
  | [] => None
  | x :: l' => Some (fold_left Z.min l' x)
  end.

Definition zmax_list (l : list Z) : option Z :=
  match l with
  | [] => None
  | x :: l' => Some (fold_left Z.max l' x)
  end.

Definition qmin2 (x y : Q) : Q := if Qle_bool x y then x else y.
Definition qmax2 (x y : Q) : Q := if Qle_bool x y then y else x.

(** [Series.min()], [Series.max()] and [Series.mean()]: nulls are ignored,
    and the result is null when no value is left. *)
Definition col_min (c : list (option Q)) : option Q :=
  match non_null c with
  | [] => None
  | x :: l' => Some (fold_left qmin2 l' x)
  end.

Definition col_max (c : list (option Q)) : option Q :=
  match non_null c with
  | [] => None
  | x :: l' => Some (fold_left qmax2 l' x)
  end.

Definition col_mean (c : list (option Q)) : option Q := mean_opt (non_null c).

(** [float(x)] on the result of a reduction: [float(None)] raises. *)
Definition float_of (x : option Q) : result Q :=
  match x with
  | Some q => Ok q
  | None => Raise TypeError
  end.

(** [float(x) if col.len() > 0 else None] *)
Definition guarded (c : list (option Q)) (x : option Q) : result kval :=
  if (0 <? length c)%nat then
    try! q := float_of x in Ok (KFloat q)
  else Ok KNone.

(** [rpm_col < 900]: a null cell gives a null mask entry. *)
Definition idle_mask (c : list (option Q)) : list (option bool) :=
  map (option_map (fun q => Qltb q (900#1))) c.

(** [mask.any()] *)
Definition mask_any (m : list (option bool)) : bool :=
  existsb (fun b => match b with Some true => true | _ => false end) m.

(** [col.filter(mask)]: the cells whose mask entry is true. *)
Fixpoint filter_mask (c : list (option Q)) (m : list (option bool)) : list (option Q) :=
  match c, m with
  | x :: c', Some true :: m' => x :: filter_mask c' m'
  | _ :: c', _ :: m' => filter_mask c' m'
  | _, _ => []
  end.

Definition has_col (w : Wide) (name : string) : bool :=
  existsb (String.eqb name) (columns w).

Section Kpis.

(** [Series.std()], the sample standard deviation of Polars, is taken as
    given; it is null when the column does not determine one. *)
Variable std : list Q -> option Q.

(** Lines 149-155.  The [ts] column of a frame holds no null. *)
Definition base_kpis (w : Wide) : result (list (string * kval)) :=
  let times := map fst (rows w) in
  let lo := default 0 (zmin_list times) in
  let hi := default 0 (zmax_list times) in
  let nonempty := (0 <? height w)%nat in
  Ok [ ("rows", KInt (Z.of_nat (height w)));
       ("start", KInt (if nonempty then lo else 0));
       ("end", KInt (if nonempty then hi else 0));
       ("signals", KStrs (columns w));
       ("duration_seconds", KInt (if nonempty then (hi - lo) / 1000 else 0)) ].

(** Lines 158-166. *)
Definition rpm_kpis (w : Wide) (kpis : list (string * kval))
  : result (list (string * kval)) :=
  if has_col w "rpm" then
    let rpm_col := get_column w "rpm" in
    try! m := guarded rpm_col (col_mean rpm_col) in
    let kpis := dict_set kpis "rpm_mean" m in
    try! m := guarded rpm_col (col_max rpm_col) in
    let kpis := dict_set kpis "rpm_max" m in
    try! m := guarded rpm_col (col_min rpm_col) in
    let kpis := dict_set kpis "rpm_min" m in
    let mask := idle_mask rpm_col in
    if mask_any mask then
      let idle := non_null (filter_mask rpm_col mask) in
      try! s := float_of (std idle) in
      let kpis := dict_set kpis "idleRPMStd" (KFloat s) in
      try! m := float_of (mean_opt idle) in
      Ok (dict_set kpis "idleRPMMean" (KFloat m))
    else Ok kpis
  else Ok kpis.

(** Lines 169-173.  [temp_col.max() - temp_col.min()] on two nulls
    raises as well. *)
Definition temp_kpis (w : Wide) (kpis : list (string * kval))
  : result (list (string * kval)) :=
  if has_col w "engineTemp" then
    let temp_col := get_column w "engineTemp" in
    try! rise :=
      (if (0 <? length temp_col)%nat then
         try! hi := float_of (col_max temp_col) in
         try! lo := float_of (col_min temp_col) in
         Ok (KFloat (Qred (hi - lo)))
       else Ok KNone) in
    let kpis := dict_set kpis "coolantRiseC" rise in
    try! m := guarded temp_col (col_max temp_col) in
    let kpis := dict_set kpis "coolantMax" m in
    try! m := guarded temp_col (col_min temp_col) in
    Ok (dict_set kpis "coolantMin" m)
  else Ok kpis.

(** Lines 176-179. *)
Definition speed_kpis (w : Wide) (kpis : list (string * kval))
  : result (list (string * kval)) :=
  if has_col w "speed" then
    let speed_col := get_column w "speed" in
    try! m := guarded speed_col (col_mean speed_col) in
    let kpis := dict_set kpis "speed_mean" m in
    try! m := guarded speed_col (col_max speed_col) in
    Ok (dict_set kpis "speed_max" m)
  else Ok kpis.

(** Lines 182-190. *)
Definition trim_kpis (w : Wide) (kpis : list (string * kval))
  : result (list (string * kval)) :=
  try! kpis :=
    (if has_col w "shortTermFuelTrim" then
       let stft := get_column w "shortTermFuelTrim" in
       try! m := guarded stft (col_mean stft) in
       let kpis := dict_set kpis "stft_mean" m in
       try! m := guarded stft (col_max stft) in
       Ok (dict_set kpis "stft_max" m)
     else Ok kpis) in
  if has_col w "longTermFuelTrim" then
    let ltft := get_column w "longTermFuelTrim" in
    try! m := guarded ltft (col_mean ltft) in
    let kpis := dict_set kpis "ltft_mean" m in
    try! m := guarded ltft (col_max ltft) in
    Ok (dict_set kpis "ltft_max" m)
  else Ok kpis.

(** Lines 193-197: the session document, empty when none was found. *)
Definition meta_kpis (session_meta : list (string * kval))
    (kpis : list (string * kval)) : list (string * kval) :=
  match session_meta with
  | [] => kpis
  | _ =>
      let kpis := dict_set kpis "sessionName"
                    (default (KStr "") (dict_get session_meta "sessionName")) in
      let kpis := dict_set kpis "dtcCodes"
                    (default (KStrs []) (dict_get session_meta "dtcCodes")) in
      dict_set kpis "vehicleId"
        (default (KStr "") (dict_get session_meta "vehicleId"))
  end.

(** The [kpis] dictionary of [build_pack]. *)
Definition kpi_summary (w : Wide) (session_meta : list (string * kval))
  : result (list (string * kval)) :=
  try! kpis := base_kpis w in
  try! kpis := rpm_kpis w kpis in
  try! kpis := temp_kpis w kpis in
  try! kpis := speed_kpis w kpis in
  try! kpis := trim_kpis w kpis in
  Ok (meta_kpis session_meta kpis).

End Kpis.

(** Lines 119-144 of [build_pack]: from the long-form frame to the wide,
    downsampled one; an empty long-form frame is a [RuntimeError]. *)
Definition build_wide (df_long : list Sample) : result Wide :=
  match df_long with
  | [] => Raise RuntimeError
  | _ => Ok (downsample (pivot df_long))
  end.

(** ** Predicates and sample data used in the statements *)

(** Rows in increasing order of [ts]. *)
Definition row_lt (a b : Z * list (option Q)) : Prop := fst a < fst b.

(** The keys that the [rpm] block of [build_pack] sets for frame [w]. *)
Definition rpm_keyed (w : Wide) (key : string) : Prop :=
  has_col w "rpm" = true
  /\ (key = "rpm_mean" \/ key = "rpm_max" \/ key = "rpm_min"
      \/ (mask_any (idle_mask (get_column w "rpm")) = true
          /\ (key = "idleRPMStd" \/ key = "idleRPMMean"))).

(** The keys that the other blocks of [build_pack] can set. *)
Definition other_names : list string :=
  ["rows"; "start"; "end"; "signals"; "duration_seconds";
   "coolantRiseC"; "coolantMax"; "coolantMin"; "speed_mean"; "speed_max";
   "stft_mean"; "stft_max"; "ltft_mean"; "ltft_max";
   "sessionName"; "dtcCodes"; "vehicleId"].

(** A column that is empty or holds a value that is not null, as every
    signal column of a pivoted frame does. *)
Definition populated (w : Wide) (name : string) : Prop :=
  (0 < length (get_column w name))%nat ->
  exists q, In (Some q) (get_column w name).

(** A reading of two numerals, enough for the sample records below. *)
Definition sample_parse_int (s : string) : option Z :=
  if String.eqb s "1000" then Some 1000 else None.

Definition sample_parse_float (s : string) : option Q :=
  if String.eqb s "12.5" then Some (25#2)%Q else None.

Definition sample_cast (records : list (list (string * pyval)))
  : result (list Sample) := Ok [].

(** A snapshot with a numeric field, a text field, a null field, a field
    under a reserved key and a numeric string. *)
Definition snapshot : list (string * pyval) :=
  [("timestamp", PInt 1000); ("rpm", PInt 800); ("note", PStr "n/a");
   ("load", PNone); ("sessionId", PInt 7); ("speed", PStr "12.5")].

Definition snapshot_without_time : list (string * pyval) :=
  [("rpm", PInt 3)].

Definition snapshot_at_epoch : list (string * pyval) :=
  [("timestamp", PInt 0); ("rpm", PInt 3)].

Definition snapshot_null_time : list (string * pyval) :=
  [("timestamp", PNone); ("rpm", PInt 800)].

(** The samples of the example scenario of the specification. *)
Definition scenario : list Sample :=
  [mkSample 1000 "rpm" (800#1); mkSample 1000 "rpm" (900#1);
   mkSample 1999 "rpm" (5000#1)].

Definition scenario_reordered : list Sample :=
  [mkSample 1999 "rpm" (5000#1); mkSample 1000 "rpm" (900#1);
   mkSample 1000 "rpm" (800#1)].

(** A standard deviation that is defined from two values on; only whether
    it is defined matters to the keys of the summary. *)
Definition sample_std (l : list Q) : option Q :=
  match l with
  | _ :: _ :: _ => Some (0#1)%Q
  | _ => None
  end.

End Worker.

(** * The research server *)
Module Server.

(** ** The job registry [research_jobs] *)

(** An entry of [research_jobs].  Job ids are drawn with [uuid4()]; they
    are modelled by a counter, which gives every job an id of its own.
    An analysis job has an [output_dir] where a research job has an
    [output_file]. *)
Record job : Type := mkJob {
  status : string;
  progress : Z;
  output_file : option string;
  output_dir : option string;
  start_time : Q;
  end_time : option Q;
  error : option string;
  client_id : string;
  streaming_enabled : bool
}.

Definition set_status (s : string) (j : job) : job :=
  mkJob s (progress j) (output_file j) (output_dir j) (start_time j)
        (end_time j) (error j) (client_id j) (streaming_enabled j).

Definition set_progress (p : Z) (j : job) : job :=
  mkJob (status j) p (output_file j) (output_dir j) (start_time j)
        (end_time j) (error j) (client_id j) (streaming_enabled j).

Definition set_end_time (t : Q) (j : job) : job :=
  mkJob (status j) (progress j) (output_file j) (output_dir j) (start_time j)
        (Some t) (error j) (client_id j) (streaming_enabled j).

Definition set_error (e : string) (j : job) : job :=
  mkJob (status j) (progress j) (output_file j) (output_dir j) (start_time j)
        (end_time j) (Some e) (client_id j) (streaming_enabled j).

Definition set_streaming_enabled (b : bool) (j : job) : job :=
  mkJob (status j) (progress j) (output_file j) (output_dir j) (start_time j)
        (end_time j) (error j) (client_id j) b.

(** [job["status"] == "processing"] *)
Definition is_processing (j : job) : bool := String.eqb (status j) "processing".

Definition terminal (j : job) : Prop :=
  status j = "completed" \/ status j = "failed".

(** ** The completed-results stores *)

(** An entry of [app.state.completed_research] (lines 528-535). *)
Record completed : Type := mkCompleted {
  c_output_file : string;
  c_output_path : string;
  c_prompt : string;
  c_client_id : string;
  completion_time : Q;
  content : string
}.

(** An entry of [app.state.completed_analysis] (lines 2105-2113). *)
Record completed_analysis : Type := mkCompletedAnalysis {
  a_output_dir : string;
  a_report_file : string;
  a_file_path : string;
  a_client_id : string;
  a_completion_time : Q;
  a_visualizations : list string;
  a_content : string
}.

(** [min(items, key=lambda x: x[1]["completion_time"])] from a first
    candidate on: a later item replaces the candidate only when its key is
    strictly smaller. *)
Fixpoint min_from (best : nat * completed) (items : list (nat * completed))
  : nat * completed :=
  match items with
  | [] => best
  | x :: items' =>
      if Qltb (completion_time (snd x)) (completion_time (snd best))
      then min_from x items'
      else min_from best items'
  end.

(** Lines 528-540: record a completed research job, then keep at most 100
    entries.  [min] of an empty store would raise, but the store is not
    empty when its length exceeds 100. *)
Definition store_completed_research (store : list (nat * completed))
    (job_id : nat) (c : completed) : list (nat * completed) :=
  let store := dict_set store job_id c in
  if (100 <? length store)%nat then
    match store with
    | [] => store
    | x :: items => dict_del store (fst (min_from x items))
    end
  else store.

(** Lines 2105-2113: record a completed analysis job. *)
Definition store_completed_analysis (store : list (nat * completed_analysis))
    (job_id : nat) (c : completed_analysis) : list (nat * completed_analysis) :=
  dict_set store job_id c.

(** ** Final-response extraction (lines 474-492 and 2073-2086) *)

Section Extraction.

(** [str(v)], taken as given. *)
Variable py_str : pyval -> string.

Definition blank_line : string :=
  String (ascii_of_nat 10) (String (ascii_of_nat 10) "").

(** The [else] branch: no chunk was streamed. *)
Definition extract_response (responses : pyval) : result pyval :=
  match responses with
  | PDict d =>
      if dict_mem d "response" then dict_index d "response"
      else if dict_mem d "text" then dict_index d "text"
      else if dict_mem d "content" then dict_index d "content"
      else Ok (PStr (py_str responses))
  | PList l => Ok (PStr (String.concat blank_line (map py_str l)))
  | _ => Ok (PStr (py_str responses))
  end.

Definition final_response (full_content : list string) (responses : pyval)
  : result pyval :=
  match full_content with
  | [] => extract_response responses
  | _ => Ok (PStr (String.concat "" full_content))
  end.

End Extraction.

(** ** Tasks *)

(** The progress ticker [send_progress_updates] of a runner. *)
Record ticker_cfg : Type := mkCfg {
  first_progress : Z;
  max_progress : Z;
  increment : Z
}.

(** Lines 285-286 and 294. *)
Definition research_ticker : ticker_cfg := mkCfg 40 65 3.
(** Lines 1788-1789 and 1797. *)
Definition analysis_ticker : ticker_cfg := mkCfg 10 90 5.

(** Where a suspended ticker resumes: at its start, after
    [asyncio.sleep], or after [send_text]. *)
Inductive ticker_pc : Type := TStart | TSleeping | TSending.

Record ticker : Type := mkTicker {
  t_pc : ticker_pc;
  t_job : nat;
  t_client : string;
  t_current : Z;
  t_cfg : ticker_cfg
}.

(** Where a suspended [run_research] resumes. *)
Inductive runner_pc : Type :=
| RNew | RStarted | REntered | RPrompting | RCollected | RFormatting | RNotifying.

Record runner : Type := mkRunner {
  r_pc : runner_pc;
  r_client : string;
  r_prompt : string;
  r_requested : option string;
  r_output_file : string;
  r_job : option nat;
  r_full_content : list string;
  r_responses : pyval;
  r_text : string
}.

Definition runner_at (pc : runner_pc) (r : runner) : runner :=
  mkRunner pc (r_client r) (r_prompt r) (r_requested r) (r_output_file r)
           (r_job r) (r_full_content r) (r_responses r) (r_text r).

Inductive coroutine : Type :=
| RunResearch (r : runner)
| ProgressUpdates (k : ticker)
| SendPing (client : string).

(** An [asyncio.Task]: [Cancelled] once [cancel()] was called on a task
    that was not done, [Finished] once its coroutine returned or raised. *)
Inductive task_state : Type := Pending | Cancelled | Finished.

Record task : Type := mkTask {
  co : coroutine;
  tstate : task_state
}.

(** The job a coroutine writes to. *)
Definition co_job (c : coroutine) : option nat :=
  match c with
  | RunResearch r => r_job r
  | ProgressUpdates k => Some (t_job k)
  | SendPing _ => None
  end.

#[global] Instance task_state_eq_dec : EqDecision task_state.
Proof. solve_decision. Defined.

(** A task that may still write to job [j]: it is not done and its
    coroutine belongs to [j]. *)
Definition task_writes (j : nat) (tk : task) : bool :=
  bool_decide (co_job (co tk) = Some j) && bool_decide (tstate tk = Pending).

(** Every task that may still write to [j] is in the task set [owned]. *)
Definition owns_writers (owned : list nat) (j : nat) (ts : list task) : bool :=
  forallb (fun p : nat * task =>
             negb (task_writes j (snd p)) || bool_decide (fst p ∈ owned))
          (imap pair ts).

(** What the environment decides when a task is resumed. *)
Record oracle : Type := mkOracle {
  raised : option string;
  now : Q;
  connected : bool;
  chunks : list string;
  responses : pyval
}.

(** ** The server state *)

Record server : Type := mkServer {
  active_connections : gmap string nat;
  websocket_tasks : gmap string (list nat);
  research_jobs : gmap nat job;
  completed_research : list (nat * completed);
  tasks : list task;
  files : gmap string string;
  next_job : nat
}.

Definition with_connections (m : gmap string nat) (st : server) : server :=
  mkServer m (websocket_tasks st) (research_jobs st) (completed_research st)
           (tasks st) (files st) (next_job st).

Definition with_websocket_tasks (m : gmap string (list nat)) (st : server) : server :=
  mkServer (active_connections st) m (research_jobs st) (completed_research st)
           (tasks st) (files st) (next_job st).

Definition with_jobs (m : gmap nat job) (st : server) : server :=
  mkServer (active_connections st) (websocket_tasks st) m (completed_research st)
           (tasks st) (files st) (next_job st).

Definition with_completed (l : list (nat * completed)) (st : server) : server :=
  mkServer (active_connections st) (websocket_tasks st) (research_jobs st) l
           (tasks st) (files st) (next_job st).

Definition with_tasks (l : list task) (st : server) : server :=
  mkServer (active_connections st) (websocket_tasks st) (research_jobs st)
           (completed_research st) l (files st) (next_job st).

Definition with_files (m : gmap string string) (st : server) : server :=
  mkServer (active_connections st) (websocket_tasks st) (research_jobs st)
           (completed_research st) (tasks st) m (next_job st).

Definition with_next_job (n : nat) (st : server) : server :=
  mkServer (active_connections st) (websocket_tasks st) (research_jobs st)
           (completed_research st) (tasks st) (files st) n.

(** The state after [lifespan] has started the application. *)
Definition init : server := mkServer ∅ ∅ ∅ [] [] ∅ 0.

(** [client_id in active_connections and
    websocket.client_state == WebSocketState.CONNECTED] *)
Definition live (st : server) (o : oracle) (c : string) : bool :=
  bool_decide (is_Some (active_connections st !! c)) && connected o.

(** [asyncio.create_task(...)]: the new task is the last one. *)
Definition create_task (c : coroutine) (st : server) : server :=
  with_tasks (tasks st ++ [mkTask c Pending]) st.

(** [websocket_tasks[client_id].add(task)] where the client has a task
    set; nothing is recorded where it has none. *)
Definition track (c : string) (t : nat) (st : server) : server :=
  match websocket_tasks st !! c with
  | Some owned =>
      with_websocket_tasks
        (<[c := if bool_decide (t ∈ owned) then owned else owned ++ [t]]>
           (websocket_tasks st)) st
  | None => st
  end.

(** ** The progress ticker (lines 283-313 and 1787-1818) *)

(** The loop condition.  [research_jobs[job_id]] on an absent id raises
    [KeyError], which the ticker's [except Exception] turns into a return. *)
Definition ticker_continues (jobs : gmap nat job) (k : ticker) : bool :=
  match jobs !! t_job k with
  | Some j => is_processing j && (t_current k <? max_progress (t_cfg k))
  | None => false
  end.

Definition ticker_at (pc : ticker_pc) (cur : Z) (k : ticker) : ticker :=
  mkTicker pc (t_job k) (t_client k) cur (t_cfg k).

(** Back at the loop head: sleep again, or leave the loop. *)
Definition ticker_loop (jobs : gmap nat job) (k : ticker) : option ticker :=
  if ticker_continues jobs k
  then Some (ticker_at TSleeping (t_current k) k)
  else None.

(** One resumption of the ticker, up to its next [await]; [None] when
    the coroutine has returned.  The check of the status and the write of
    the progress lie in the same resumption. *)
Definition ticker_resume (is_live : bool) (o : oracle) (k : ticker)
    (jobs : gmap nat job) : option ticker * gmap nat job :=
  match t_pc k with
  | TStart => (ticker_loop jobs k, jobs)
  | TSleeping =>
      match raised o with
      | Some _ => (None, jobs)
      | None =>
          match jobs !! t_job k with
          | Some j =>
              if is_processing j then
                let cur := t_current k + increment (t_cfg k) in
                let jobs' := <[t_job k := set_progress cur j]> jobs in
                if is_live
                then (Some (ticker_at TSending cur k), jobs')
                else (ticker_loop jobs' (ticker_at TSleeping cur k), jobs')
              else (None, jobs)
          | None => (None, jobs)
          end
      end
  | TSending =>
      match raised o with
      | Some _ => (None, jobs)
      | None => (ticker_loop jobs k, jobs)
      end
  end.

(** ** The research runner [run_research] (lines 246-615) *)

Section Runner.

Variable py_str : pyval -> string.
(** [not s.strip()] *)
Variable blank : string -> bool.
(** [os.path.abspath], under which the files are kept. *)
Variable abspath : string -> string.
(** [f"research_report_{int(time.time())}.md"] *)
Variable report_name : Q -> string.
(** [str(e)] for the exceptions of the runner's own code. *)
Variable exn_text : exn -> string.

Definition no_results : string :=
  "# Research Report" +:+ blank_line +:+
  "No results were returned from the research agent. Please try another query.".

(** Lines 494-499: [len(response_text)] is logged after an extraction,
    then [response_text.strip()] is tested. *)
Definition checked_text (extracted : bool) (v : pyval) : result string :=
  match v with
  | PStr s => Ok (if blank s then no_results else s)
  | PList _ | PDict _ => Raise AttributeError
  | _ => if extracted then Raise TypeError else Raise AttributeError
  end.

(** [research_jobs[job_id][...] = ...] *)
Definition update_job (f : job -> job) (r : runner) (st : server) : server :=
  match r_job r with
  | Some j => with_jobs (alter f j (research_jobs st)) st
  | None => st
  end.

(** Lines 570-615: both handlers mark the job failed; the exception
    then leaves the coroutine. *)
Definition runner_fails (msg : string) (o : oracle) (r : runner)
    (st : server) : option runner * server :=
  (None,
   update_job (fun j => set_end_time (now o)
                          (set_error msg (set_status "failed" j))) r st).

(** One resumption of [run_research], up to its next [await]. *)
Definition runner_resume (o : oracle) (r : runner) (st : server)
  : option runner * server :=
  match r_pc r with
  | RNew =>
      (* lines 248-276 *)
      let job_id := next_job st in
      let out :=
        match r_requested r with
        | Some f => if String.eqb f "" then report_name (now o) else f
        | None => report_name (now o)
        end in
      let j := mkJob "processing" 0 (Some out) None (now o) None None
                     (r_client r) false in
      (Some (mkRunner RStarted (r_client r) (r_prompt r) (r_requested r) out
                      (Some job_id) [] PNone ""),
       with_next_job (S job_id)
         (with_jobs (<[job_id := j]> (research_jobs st)) st))
  | pc =>
      match raised o, r_job r with
      | Some msg, _ => runner_fails msg o r st
      | None, None => (None, st)
      | None, Some job_id =>
          match pc with
          | RNew => (None, st)
          | RStarted =>
              (* lines 279-337: the ticker is created and recorded *)
              let k := mkTicker TStart job_id (r_client r)
                         (first_progress research_ticker) research_ticker in
              let t := length (tasks st) in
              (Some (runner_at REntered r),
               track (r_client r) t (create_task (ProgressUpdates k) st))
          | REntered =>
              (* lines 341-372 *)
              (Some (runner_at RPrompting r),
               update_job (set_progress 40) r st)
          | RPrompting =>
              (* lines 325-334 and 456-472 *)
              let st :=
                match chunks o with
                | [] => st
                | _ => if live st o (r_client r)
                       then update_job (set_streaming_enabled true) r st
                       else st
                end in
              (Some (mkRunner RCollected (r_client r) (r_prompt r)
                       (r_requested r) (r_output_file r) (r_job r)
                       (chunks o) (responses o) ""),
               update_job (set_progress 70) r st)
          | RCollected =>
              (* lines 474-514 *)
              let extracted :=
                match r_full_content r with [] => true | _ => false end in
              match
                (try! v := final_response py_str (r_full_content r)
                                          (r_responses r) in
                 checked_text extracted v)
              with
              | Raise e => runner_fails (exn_text e) o r st
              | Ok text =>
                  (Some (mkRunner RFormatting (r_client r) (r_prompt r)
                           (r_requested r) (r_output_file r) (r_job r)
                           (r_full_content r) (r_responses r) text),
                   update_job (set_progress 80) r st)
              end
          | RFormatting =>
              (* lines 516-564 *)
              let st := with_files
                          (<[abspath (r_output_file r) := r_text r]> (files st))
                          st in
              let st := update_job
                          (fun j => set_end_time (now o)
                                      (set_status "completed"
                                         (set_progress 100 j))) r st in
              let c := mkCompleted (r_output_file r)
                         (abspath (r_output_file r)) (r_prompt r)
                         (r_client r) (now o) (r_text r) in
              (Some (runner_at RNotifying r),
               with_completed
                 (store_completed_research (completed_research st) job_id c)
                 st)
          | RNotifying => (None, st)
          end
      end
  end.

(** ** The WebSocket handler (lines 617-1023) *)

(** Lines 624-629. *)
Definition ws_connect (c : string) (st : server) : server :=
  match websocket_tasks st !! c with
  | Some _ => st
  | None => with_websocket_tasks (<[c := []]> (websocket_tasks st)) st
  end.

(** Lines 635-670, once [accept] has returned. *)
Definition ws_accepted (c : string) (ws : nat) (st : server) : server :=
  let t := length (tasks st) in
  let st := track c t (create_task (SendPing c) st) in
  with_connections (<[c := ws]> (active_connections st)) st.

(** Lines 737-741 (and 876-880, 893-897, 932-936): the runner is
    created and put in the client's task set. *)
Definition ws_research_request (c : string) (prompt : string)
    (output_file : option string) (st : server) : server :=
  let t := length (tasks st) in
  track c t
    (create_task
       (RunResearch (mkRunner RNew c prompt output_file "" None [] PNone ""))
       st).

(** Lines 1482-1498: [POST /research] starts the runner under a client
    id that has no connection and no task set. *)
Definition create_research (c : string) (prompt : string)
    (output_file : option string) (st : server) : server :=
  create_task
    (RunResearch (mkRunner RNew c prompt output_file "" None [] PNone "")) st.

(** [if not task.done(): task.cancel()] *)
Definition cancel (tk : task) : task :=
  match tstate tk with
  | Finished => tk
  | _ => mkTask (co tk) Cancelled
  end.

(** Lines 1013-1023: the [finally] block of the handler. *)
Definition ws_close (c : string) (st : server) : server :=
  let st := with_connections (delete c (active_connections st)) st in
  match websocket_tasks st !! c with
  | Some owned =>
      with_websocket_tasks (delete c (websocket_tasks st))
        (with_tasks
           (imap (fun t tk => if bool_decide (t ∈ owned) then cancel tk else tk)
                 (tasks st))
           st)
  | None => st
  end.

(** The event loop resumes task [t].  A task that is done never runs
    again; in a cancelled one [CancelledError] is raised at the [await],
    and as it is no [Exception] no handler of [run_research] or of the
    ticker catches it: the coroutine ends without a further write. *)
Definition resume (t : nat) (o : oracle) (st : server) : server :=
  match tasks st !! t with
  | Some (mkTask c Pending) =>
      match c with
      | RunResearch r =>
          let '(r', st') := runner_resume o r st in
          with_tasks
            (<[t := match r' with
                    | Some r'' => mkTask (RunResearch r'') Pending
                    | None => mkTask c Finished
                    end]> (tasks st')) st'
      | ProgressUpdates k =>
          let '(k', jobs') :=
            ticker_resume (live st o (t_client k)) o k (research_jobs st) in
          with_tasks
            (<[t := match k' with
                    | Some k'' => mkTask (ProgressUpdates k'') Pending
                    | None => mkTask c Finished
                    end]> (tasks st)) (with_jobs jobs' st)
      | SendPing _ =>
          match raised o with
          | None => if connected o then st
                    else with_tasks (<[t := mkTask c Finished]> (tasks st)) st
          | Some _ => with_tasks (<[t := mkTask c Finished]> (tasks st)) st
          end
      end
  | _ => st
  end.

Inductive event : Type :=
| EConnect (c : string)
| EAccepted (c : string) (ws : nat)
| EResearchRequest (c : string) (prompt : string) (output_file : option string)
| ECreateResearch (c : string) (prompt : string) (output_file : option string)
| EClose (c : string)
| EResume (t : nat) (o : oracle)
| EUnlink (path : string).

Definition step (st : server) (ev : event) : server :=
  match ev with
  | EConnect c => ws_connect c st
  | EAccepted c ws => ws_accepted c ws st
  | EResearchRequest c prompt out => ws_research_request c prompt out st
  | ECreateResearch c prompt out => create_research c prompt out st
  | EClose c => ws_close c st
  | EResume t o => resume t o st
  | EUnlink path => with_files (delete path (files st)) st
  end.

Definition run (evs : list event) (st : server) : server :=
  fold_left step evs st.

End Runner.

(** Job [j] exists and no task may write to it any more. *)
Definition quiet (st : server) (j : nat) : Prop :=
  (j < next_job st)%nat /\ Forall (fun tk => task_writes j tk = false) (tasks st).

(** ** Result lookup *)

Inductive reply : Type :=
| ReplyResult (output_file content prompt : string) (completion_time : Q)
| ReplyError (message : string)
| ReplyStatus (status : string) (progress : Z)
| ReplyNotFound.

(** Lines 1633-1681, [GET /research/results/{job_id}]: the content is
    read from the output file. *)
Definition get_research_results (st : server) (job_id : nat) : reply :=
  match dict_get (completed_research st) job_id with
  | Some completed_job =>
      match files st !! c_output_path completed_job with
      | Some text =>
          ReplyResult (c_output_file completed_job) text
                      (c_prompt completed_job) (completion_time completed_job)
      | None => ReplyError "Research output file not found"
      end
  | None =>
      match research_jobs st !! job_id with
      | Some j => ReplyStatus (status j) (progress j)
      | None => ReplyNotFound
      end
  end.

(** Lines 753-810, the [get_result] message; a message without a job id
    is answered with an error. *)
Definition ws_get_result (st : server) (job_id : option nat) : reply :=
  match job_id with
  | None => ReplyError "Job ID is required to retrieve results"
  | Some job_id =>
      match dict_get (completed_research st) job_id with
      | Some completed_job =>
          match files st !! c_output_path completed_job with
          | Some text =>
              ReplyResult (c_output_file completed_job) text
                          (c_prompt completed_job)
                          (completion_time completed_job)
          | None => ReplyError "Research output file not found"
          end
      | None =>
          match research_jobs st !! job_id with
          | Some j => ReplyStatus (status j) (progress j)
          | None => ReplyNotFound
          end
      end
  end.

(** ** Predicates and sample data used in the statements *)

(** What a step from [st] to [st'] leaves of job [j] when the resumed
    coroutine [c] (if it goes on) does not belong to [j]: the entry of [j],
    the counter of job ids, the old tasks, and the absence of [j] from the
    completed store. *)
Definition frame (j : nat) (st st' : server) (c : option coroutine) : Prop :=
  research_jobs st' !! j = research_jobs st !! j
  /\ (next_job st <= next_job st')%nat
  /\ (match c with Some c => co_job c <> Some j | None => True end)
  /\ (exists extra, tasks st' = tasks st ++ extra
                    /\ Forall (fun tk => task_writes j tk = false) extra)
  /\ (dict_get (completed_research st) j = None ->
      dict_get (completed_research st') j = None).

Definition kept (j : nat) (st st' : server) : Prop :=
  quiet st' j
  /\ research_jobs st' !! j = research_jobs st !! j
  /\ (dict_get (completed_research st) j = None ->
      dict_get (completed_research st') j = None).

Definition sample_str (v : pyval) : string :=
  match v with
  | PStr s => s
  | _ => "?"
  end.

Definition sample_blank (s : string) : bool := String.eqb s "".

Definition sample_report_name (t : Q) : string := "research_report.md".

Definition sample_exn_text (e : exn) : string := "error".

Definition sample_run : list event -> server -> server :=
  run sample_str sample_blank (fun p => p) sample_report_name sample_exn_text.

(** The awaited operation returned; the agent replied with a text. *)
Definition calm : oracle := mkOracle None (10#1)%Q true [] (PStr "report").

(** Client [A] has connected and asked for a research; the runner (task 1)
    has registered job 0, created the ticker (task 2) and waits for the
    agent. *)
Definition busy_state : server :=
  sample_run
    [EConnect "A"; EAccepted "A" 1%nat; EResearchRequest "A" "why" None;
     EResume 1%nat calm; EResume 1%nat calm; EResume 1%nat calm] init.

(** From [busy_state] the agent replies and the runner completes job 0. *)
Definition done_state : server :=
  sample_run
    [EResume 1%nat calm; EResume 1%nat calm; EResume 1%nat calm] busy_state.

(** The runner of [busy_state] two resumptions later, about to write its
    report, and the state it is in. *)
Definition formatting_runner : runner :=
  mkRunner RFormatting "A" "why" None "research_report.md" (Some 0%nat) []
           (PStr "report") "report".

Definition formatting_state : server :=
  sample_run [EResume 1%nat calm; EResume 1%nat calm] busy_state.

(** The ticker of job 0 and the entry of job 0 in [done_state]. *)
Definition idle_ticker : ticker :=
  mkTicker TStart 0 "A" 40 research_ticker.

Definition done_job : job :=
  mkJob "completed" 100 (Some "research_report.md") None (10#1)%Q
        (Some (10#1)%Q) None "A" false.

(** A completed-analysis store with 100 entries, and one more entry. *)
Definition analysis_entry (n : nat) : completed_analysis :=
  mkCompletedAnalysis "/tmp/output" "analysis_report.md" "/tmp/data" "A"
                      (inject_Z (Z.of_nat n)) [] "".

Definition full_analysis_store : list (nat * completed_analysis) :=
  map (fun n => (n, analysis_entry n)) (seq 0 100).

Definition research_entry (n : nat) : completed :=
  mkCompleted "report.md" "/report.md" "why" "A" (inject_Z (Z.of_nat n)) "".

Definition full_research_store : list (nat * completed) :=
  map (fun n => (n, research_entry n)) (seq 0 100).

End Server.

(** * More of the analytics worker *)
Module WorkerMore.
Import Worker.

Section BuildPack.

Variable parse_int : string -> option Z.
Variable parse_float : string -> option Q.
Variable cast_long_rows : list (list (string * pyval)) -> result (list Sample).

(** Lines 111-144 of [build_pack]: from the records that
    [fetch_session_samples] returned to the downsampled frame.  No record
    and no long-form row are each a [RuntimeError]; an exception of
    [to_long_form] passes through. *)
Definition build_frame (raw : list (list (string * pyval))) : result Wide :=
  match raw with
  | [] => Raise RuntimeError
  | _ =>
      try! df_long := to_long_form parse_int parse_float cast_long_rows raw in
      build_wide df_long
  end.

End BuildPack.

(** The names under which the blocks of [build_pack] file their values. *)
Definition base_names : list string :=
  ["rows"; "start"; "end"; "signals"; "duration_seconds"].
Definition rpm_names : list string :=
  ["rpm_mean"; "rpm_max"; "rpm_min"; "idleRPMStd"; "idleRPMMean"].
Definition temp_names : list string :=
  ["coolantRiseC"; "coolantMax"; "coolantMin"].
Definition speed_names : list string := ["speed_mean"; "speed_max"].
Definition stft_names : list string := ["stft_mean"; "stft_max"].
Definition ltft_names : list string := ["ltft_mean"; "ltft_max"].
Definition session_names : list string :=
  ["sessionName"; "dtcCodes"; "vehicleId"].

(** A session with one idle reading. *)
Definition idle_session : list Sample := [mkSample 1000 "rpm" (800#1)].

(** A frame with a null cell: [speed] is known at 1500 only. *)
Definition gappy_frame : Wide :=
  mkWide ["rpm"; "speed"]
         [(1000, [Some (800#1)%Q; None]); (1500, [Some (900#1)%Q; Some (3#1)%Q]);
          (2000, [Some (1000#1)%Q; None])].

End WorkerMore.

(** * More of the research server *)
Module ServerMore.
Import Server.

(** ** The progress ticker, resumed until it returns *)

(** At the [await asyncio.sleep] the loop condition has just held. *)
Definition ticker_wf (k : ticker) : Prop :=
  t_pc k = TSleeping -> t_current k < max_progress (t_cfg k).

(** A bound on the resumptions a ticker has left. *)
Definition ticker_rank (k : ticker) : Z :=
  let togo := Z.max 0 (max_progress (t_cfg k) - t_current k) in
  match t_pc k with
  | TSleeping => 2 * togo + 1
  | _ => 2 * togo + 2
  end.

(** The ticker resumed once per entry of [env]; between two resumptions
    the other tasks of the server change the registry as they like. *)
Fixpoint ticker_runs (env : list (bool * oracle * (gmap nat job -> gmap nat job)))
    (k : ticker) (jobs : gmap nat job) : option ticker * gmap nat job :=
  match env with
  | [] => (Some k, jobs)
  | (is_live, o, others) :: env' =>
      match ticker_resume is_live o k jobs with
      | (Some k', jobs') => ticker_runs env' k' (others jobs')
      | (None, jobs') => (None, jobs')
      end
  end.

(** ** What holds of every entry of the registry *)

Definition job_ok (j : job) : Prop :=
  (status j = "processing" \/ status j = "completed" \/ status j = "failed")
  /\ 0 <= progress j <= 100
  /\ (status j = "processing" -> end_time j = None /\ error j = None)
  /\ (status j = "completed" -> is_Some (end_time j))
  /\ (status j = "failed" -> is_Some (error j) /\ is_Some (end_time j))
  /\ is_Some (output_file j) /\ output_dir j = None.

(** The tickers of the research runner. *)
Definition ticker_ok (k : ticker) : Prop :=
  t_cfg k = research_ticker /\ 40 <= t_current k <= 67 /\ ticker_wf k.

(** A ticker is one of the research runner; a runner that has a job has
    it in the registry. *)
Definition task_ok (jobs : gmap nat job) (tk : task) : Prop :=
  match co tk with
  | ProgressUpdates k => ticker_ok k
  | RunResearch r => forall j, r_job r = Some j -> is_Some (jobs !! j)
  | SendPing _ => True
  end.

(** The invariant of the reachable states. *)
Definition server_ok (st : server) : Prop :=
  (forall j jb, research_jobs st !! j = Some jb ->
     (j < next_job st)%nat /\ job_ok jb)
  /\ Forall (task_ok (research_jobs st)) (tasks st)
  /\ (length (completed_research st) <= 100)%nat
  /\ List.NoDup (dict_keys (completed_research st))
  /\ (forall j, In j (dict_keys (completed_research st)) ->
        exists jb, research_jobs st !! j = Some jb /\ status jb <> "processing").

(** The fields of an entry that are written once, when the job is made. *)
Definition same_origin (a b : job) : Prop :=
  client_id b = client_id a /\ start_time b = start_time a
  /\ output_file b = output_file a /\ output_dir b = output_dir a.

(** An update of an entry that keeps it well formed, keeps the fields
    written at creation, and never takes a job back to [processing]. *)
Definition good_update (f : job -> job) : Prop :=
  forall jb, (job_ok jb -> job_ok (f jb)) /\ same_origin jb (f jb)
             /\ (status jb <> "processing" -> status (f jb) <> "processing").

(** What a step may do to the entry of job [j]: nothing, create it under
    the next job id, or update it. *)
Definition job_change (st st' : server) (j : nat) : Prop :=
  research_jobs st' !! j = research_jobs st !! j
  \/ (j = next_job st /\ (next_job st < next_job st')%nat
      /\ exists jb, research_jobs st' !! j = Some jb /\ job_ok jb)
  \/ (exists jb jb', research_jobs st !! j = Some jb
        /\ research_jobs st' !! j = Some jb'
        /\ (job_ok jb -> job_ok jb') /\ same_origin jb jb'
        /\ (status jb <> "processing" -> status jb' <> "processing")).

(** What one resumption of the runner does to the state. *)
Definition runner_effect (r : runner) (st : server) (r' : option runner)
    (st' : server) : Prop :=
  (exists extra, tasks st' = tasks st ++ extra
     /\ Forall (fun tk => exists k, tk = mkTask (ProgressUpdates k) Pending
                                    /\ ticker_ok k) extra)
  /\ ((exists jb, research_jobs st' = <[next_job st := jb]> (research_jobs st)
         /\ job_ok jb /\ next_job st' = S (next_job st)
         /\ (forall r'', r' = Some r'' -> r_job r'' = Some (next_job st))
         /\ completed_research st' = completed_research st)
      \/ (next_job st' = next_job st
          /\ (forall r'', r' = Some r'' -> r_job r'' = r_job r)
          /\ ((research_jobs st' = research_jobs st
               /\ completed_research st' = completed_research st)
              \/ exists jr f,
                   r_job r = Some jr
                   /\ research_jobs st' = alter f jr (research_jobs st)
                   /\ good_update f
                   /\ (completed_research st' = completed_research st
                       \/ exists c,
                            completed_research st'
                            = store_completed_research (completed_research st) jr c
                            /\ forall jb, status (f jb) = "completed")))).

(** The program points of [run_research] between the registration of
    the job and the write of the report. *)
Definition active (pc : runner_pc) : bool :=
  match pc with
  | RStarted | REntered | RPrompting | RCollected | RFormatting => true
  | _ => false
  end.

(** What one resumption of the runner does to the registry, by cases: it
    registers its job; or it leaves the registry alone; or it updates the
    entry of its job, marking it failed and returning, or keeping its
    status while at work, or completing it. *)
Definition track_effect (r : runner) (st : server) (r' : option runner)
    (st' : server) : Prop :=
  (exists jb r'', research_jobs st' = <[next_job st := jb]> (research_jobs st)
       /\ status jb = "processing" /\ r' = Some r''
       /\ r_job r'' = Some (next_job st))
  \/ (research_jobs st' = research_jobs st
      /\ forall r'', r' = Some r'' -> active (r_pc r'') = true ->
           active (r_pc r) = true /\ r_job r'' = r_job r)
  \/ (exists jr f, r_job r = Some jr
        /\ research_jobs st' = alter f jr (research_jobs st)
        /\ (forall r'', r' = Some r'' -> r_job r'' = r_job r)
        /\ ((r' = None /\ forall jb, status (f jb) = "failed")
            \/ (active (r_pc r) = true /\ forall jb, status (f jb) = status jb)
            \/ ((forall jb, status (f jb) = "completed" /\ progress (f jb) = 100)
                /\ forall r'', r' = Some r'' -> active (r_pc r'') = false))).

(** Runners and their jobs in the reachable states: no two tasks run one
    job; the job of a runner at work is processing; a completed job is at
    100. *)
Definition track_ok (st : server) : Prop :=
  (forall t1 t2 r1 r2 s1 s2 j,
     tasks st !! t1 = Some (mkTask (RunResearch r1) s1) ->
     tasks st !! t2 = Some (mkTask (RunResearch r2) s2) ->
     r_job r1 = Some j -> r_job r2 = Some j -> t1 = t2)
  /\ (forall t r j,
        tasks st !! t = Some (mkTask (RunResearch r) Pending) ->
        active (r_pc r) = true -> r_job r = Some j ->
        exists jb, research_jobs st !! j = Some jb /\ status jb = "processing")
  /\ (forall j jb, research_jobs st !! j = Some jb ->
        status jb = "completed" -> progress jb = 100).

(** The entry of a failed job (lines 575-577 and 599-601). *)
Definition failed_job (msg : string) (t : Q) (j : job) : job :=
  set_end_time t (set_error msg (set_status "failed" j)).

(** A runner that has extracted a reply and is about to check it. *)
Definition collected_runner (reply : pyval) : runner :=
  mkRunner RCollected "A" "why" None "research_report.md" (Some 0%nat) []
           reply "".

(** A runner of job 1 about to write the report file of job 0. *)
Definition second_runner : runner :=
  mkRunner RFormatting "B" "how" (Some "research_report.md")
           "research_report.md" (Some 1%nat) [] (PStr "other") "other".

(** The runner of [done_state], about to notify its client. *)
Definition notifying_runner : runner :=
  mkRunner RNotifying "A" "why" None "research_report.md" (Some 0%nat) []
           (PStr "report") "report".

(** The send to the client raised. *)
Definition broken : oracle :=
  mkOracle (Some "connection lost") (11#1)%Q false [] PNone.

(** ** The message loop of the WebSocket handlers (lines 708-989, and
    the same chain at lines 1126-1407) *)

(** [bool(v)], as in [if not prompt]. *)
Definition py_truthy (v : pyval) : bool :=
  match v with
  | PNone => false
  | PBool b => b
  | PInt z => negb (z =? 0)
  | PFloat q => negb (Qeq_bool q (0#1))
  | PStr s => negb (String.eqb s "")
  | PList l => match l with [] => false | _ => true end
  | PDict d => match d with [] => false | _ => true end
  end.

(** [v == s] for the result [v] of [message.get(key)]. *)
Definition is_str (v : option pyval) (s : string) : bool :=
  match v with
  | Some (PStr x) => String.eqb x s
  | _ => false
  end.

(** [message.get(key)], which is [None] for an absent key. *)
Definition get_or_none (d : list (string * pyval)) (key : string) : pyval :=
  default PNone (dict_get d key).

(** [isinstance(v, str) and len(v) > 5]; the length counts the
    characters of the string. *)
Definition long_text (v : pyval) : bool :=
  match v with
  | PStr s => (5 <? String.length s)%nat
  | _ => false
  end.

(** Lines 913-916: the first [message[key]], in the order of the keys,
    that is a string of more than 5 characters. *)
Definition first_long (d : list (string * pyval)) : option pyval :=
  head (List.filter long_text (omap (fun kv => dict_get d (fst kv)) d)).

(** What the handler does with one decoded message.  The two answers to
    a heartbeat are told apart by the branch that gives them. *)
Inductive action : Type :=
| HeartbeatResponse
| HeartbeatResponseLate
| SendError (message : string)
| StartResearch (prompt output_file : pyval)
| GetResult (job_id : pyval)
| ListJobs
| TerminalView (job_id : pyval)
| Pong
| StartAnalysis (file_path : string) (analysis_type options : pyval).

Section Dispatch.

(** [s.strip()] and [str(v)], taken as given. *)
Variable strip : string -> string.
Variable py_str : pyval -> string.
(** [app.state.data_analysis_available], [os.path.exists] and the two
    error texts that are formatted at run time. *)
Variable data_analysis_available : bool.
Variable path_exists : string -> bool.
Variable unavailable_message : string.
Variable not_found_message : pyval -> string.

(** Lines 710 and 744: [message.get("type") == "heartbeat"]. *)
Definition typed (d : list (string * pyval)) (t : string) : bool :=
  is_str (dict_get d "type") t.

(** Lines 900-937: the branch for any other dictionary. *)
Definition generic_request (d : list (string * pyval)) : action :=
  if dict_mem d "ping" || dict_mem d "heartbeat"
     || typed d "ping" || typed d "heartbeat"
  then Pong
  else
    let prompt := default (PStr "") (dict_get d "prompt") in
    let prompt :=
      if py_truthy prompt then prompt
      else default prompt (first_long d) in
    if py_truthy prompt then StartResearch prompt PNone
    else SendError "Could not find a valid research prompt in the message".

(** Lines 939-982: the branch for an [analysis_request]. *)
Definition analysis_request (d : list (string * pyval)) : action :=
  if negb data_analysis_available then SendError unavailable_message
  else
    let analysis_type := default (PStr "general") (dict_get d "analysis_type") in
    let options := default (PDict []) (dict_get d "options") in
    if negb (py_truthy (get_or_none d "file_id")) then
      SendError "No file ID provided. Upload a file first using the /upload endpoint."
    else
      let file_id := get_or_none d "file_id" in
      let file_path := "/tmp/data/" +:+ py_str file_id in
      if negb (path_exists file_path) then SendError (not_found_message file_id)
      else StartAnalysis file_path analysis_type options.

(** [isinstance(message, dict)], and the items of a dictionary. *)
Definition is_dict (message : pyval) : bool :=
  match message with PDict _ => true | _ => false end.

Definition items (message : pyval) : list (string * pyval) :=
  match message with PDict d => d | _ => [] end.

(** [isinstance(message, str) and message.strip()] *)
Definition stripped (message : pyval) : option string :=
  match message with
  | PStr s => if py_truthy (PStr (strip s)) then Some (strip s) else None
  | _ => None
  end.

Definition unsupported : string :=
  "Unsupported message format. Please send a research_request, message or string prompt.".

(** Lines 708-989: the chain of tests on a decoded message, in the order
    of the source.  Every test on a dictionary starts with
    [isinstance(message, dict)]. *)
Definition dispatch (message : pyval) : action :=
  let d := items message in
  if is_dict message && (typed d "heartbeat" || typed d "ping") then
    HeartbeatResponse
  else if is_dict message && typed d "research_request" then
    let prompt := default (PStr "") (dict_get d "prompt") in
    let output_file := get_or_none d "output_file" in
    if negb (py_truthy prompt) then
      SendError "Research prompt cannot be empty"
    else StartResearch prompt output_file
  else if is_dict message && typed d "heartbeat" then HeartbeatResponseLate
  else if is_dict message && typed d "get_result" then
    let job_id := get_or_none d "job_id" in
    if negb (py_truthy job_id) then
      SendError "Job ID is required to retrieve results"
    else GetResult job_id
  else if is_dict message && typed d "list_jobs" then ListJobs
  else if is_dict message && typed d "enable_terminal_view" then
    TerminalView (get_or_none d "job_id")
  else if is_dict message && (typed d "message" || dict_mem d "content") then
    let prompt :=
      default (default (PStr "") (dict_get d "text")) (dict_get d "content") in
    if negb (py_truthy prompt) then
      SendError "Message content cannot be empty"
    else StartResearch prompt PNone
  else
    match stripped message with
    | Some prompt => StartResearch (PStr prompt) PNone
    | None =>
        if is_dict message then generic_request d
        else if is_dict message && typed d "analysis_request" then
          analysis_request d
        else SendError unsupported
    end.

End Dispatch.

(** ** The watcher of the output directory (lines 1842-1867) *)

(** [s.endswith(suffix)] *)
Definition ends_with (suffix s : string) : bool :=
  let n := String.length s in
  let m := String.length suffix in
  (m <=? n)%nat && String.eqb (String.substring (n - m) m s) suffix.

Section Watcher.

(** [os.path.join(output_dir, file)] for the directory of the job. *)
Variable path_join : string -> string.

(** Lines 1848-1852: [current_files], in the order of the listing. *)
Definition png_paths (listing : list string) : list string :=
  map path_join (List.filter (ends_with ".png") listing).

(** Lines 1849-1864, one pass over a listing: the files that are sent
    to the client and appended to [visualizations], given the
    [known_files] of the pass before. *)
Definition scan (known : list string) (listing : list string) : list string :=
  List.filter (fun p => negb (bool_decide (p ∈ known))) (png_paths listing).

(** The passes of the watcher that run to their end, one per listing
    that [os.listdir] returns; after each pass [known_files] is the
    [current_files] of that pass.  [send_visualization] catches what its
    send raises, so a file is appended whether or not it was sent. *)
Fixpoint watch (known : list string) (listings : list (list string))
  : list string :=
  match listings with
  | [] => []
  | listing :: listings' =>
      scan known listing ++ watch (png_paths listing) listings'
  end.

End Watcher.

(** Files are only added to the directory: every listing holds the files
    of the one before. *)
Fixpoint grows (prev : list string) (listings : list (list string)) : Prop :=
  match listings with
  | [] => True
  | listing :: listings' => incl prev listing /\ grows listing listings'
  end.

(** Sample parameters of the message loop and of the watcher. *)
Definition sample_strip (s : string) : string :=
  if String.eqb s " " then "" else s.

Definition sample_dispatch : pyval -> action :=
  dispatch sample_strip sample_str true (fun _ => true) "unavailable"
           (fun _ => "not found").

Definition sample_join (file : string) : string := "/tmp/output/job/" +:+ file.

(** A research ticker asleep one step below its ceiling, and a registry
    with one processing job. *)
Definition sleeping_ticker : ticker :=
  mkTicker TSleeping 0 "A" 64 research_ticker.

Definition one_job : gmap nat job :=
  {[ 0%nat := mkJob "processing" 40 (Some "research_report.md") None (10#1)%Q
                    None None "A" false ]}.

(** The events that lead to [busy_state], and on to [done_state]. *)
Definition busy_events : list event :=
  [EConnect "A"; EAccepted "A" 1%nat; EResearchRequest "A" "why" None;
   EResume 1%nat calm; EResume 1%nat calm; EResume 1%nat calm].

Definition done_events : list event :=
  [EResume 1%nat calm; EResume 1%nat calm; EResume 1%nat calm].

(** An analysis request as a client would send it. *)
Definition analysis_message : list (string * pyval) :=
  [("type", PStr "analysis_request"); ("file_id", PStr "f1")].

End ServerMore.

(** * Properties of the analytics worker *)
Module WorkerFacts.
Import Worker.


Lemma bind_ok {A B} (r : result A) (k : A -> result B) b :
  bind r k = Ok b -> exists a, r = Ok a /\ k a = Ok b.
Proof. destruct r as [a|e]; simpl; [eauto | discriminate]. Qed.

Section ToLongFormFacts.
Variable parse_int : string -> option Z.
Variable parse_float : string -> option Q.
Variable cast_long_rows : list (list (string * pyval)) -> result (list Sample).

Local Abbreviation record_ts := (record_ts parse_int).
Local Abbreviation wide_rows := (wide_rows parse_int parse_float).
Local Abbreviation record_rows := (record_rows parse_float).
Local Abbreviation field_rows := (field_rows parse_float).
Local Abbreviation py_float := (py_float parse_float).
Local Abbreviation to_long_form := (to_long_form parse_int parse_float cast_long_rows).

Lemma record_ts_absent r :
  dict_get r "timestamp" = None -> record_ts r = Ok 0.
Proof. unfold Worker.record_ts. intros ->. reflexivity. Qed.

Lemma wide_rows_skip pre r post :
  record_ts r = Ok 0 -> wide_rows (pre ++ r :: post) = wide_rows (pre ++ post).
Proof.
  intros Hr. induction pre as [|x pre IH]; simpl.
  - rewrite Hr. reflexivity.
  - rewrite IH. reflexivity.
Qed.

Lemma wide_rows_app pre post :
  wide_rows (pre ++ post) =
  try! a := wide_rows pre in try! b := wide_rows post in Ok (a ++ b).
Proof.
  induction pre as [|x pre IH]; simpl.
  - destruct (wide_rows post); reflexivity.
  - destruct (record_ts x) as [t|e]; simpl; [|reflexivity].
    destruct (t =? 0); [exact IH|].
    rewrite IH. destruct (wide_rows pre) as [a|e]; simpl; [|reflexivity].
    destruct (wide_rows post) as [b|e]; simpl; [|reflexivity].
    rewrite app_assoc. reflexivity.
Qed.

Lemma record_rows_concat t r :
  record_rows t r = concat (map (fun kv => field_rows t (fst kv) (snd kv)) r).
Proof.
  induction r as [|[k v] r IH]; simpl; [reflexivity|]. rewrite IH. reflexivity.
Qed.

Lemma to_long_form_wide pre r post :
  is_long_form (hd r pre) = false ->
  to_long_form (pre ++ r :: post) = wide_rows (pre ++ r :: post).
Proof.
  intros H. unfold Worker.to_long_form.
  destruct pre as [|x pre]; simpl in *; rewrite H; reflexivity.
Qed.

Lemma py_float_raises v e :
  py_float v = Raise e -> e = TypeError \/ e = ValueError.
Proof.
  destruct v as [|b|z|q|s|l|d]; simpl; try discriminate;
    try (intros [= <-]; auto).
  destruct (parse_float s); [discriminate|]. intros [= <-]. auto.
Qed.

Lemma field_rows_dropped t key v :
  v = PNone \/ reserved key = true \/ (exists e, py_float v = Raise e) ->
  field_rows t key v = [].
Proof.
  unfold Worker.field_rows. intros [->|[->|[e He]]].
  - destruct (reserved key); reflexivity.
  - reflexivity.
  - destruct (reserved key); [reflexivity|]. rewrite He.
    destruct v; reflexivity.
Qed.

Lemma field_rows_kept t key v q :
  reserved key = false -> py_float v = Ok q ->
  field_rows t key v = [mkSample t key q].
Proof.
  unfold Worker.field_rows. intros -> Hq. rewrite Hq.
  destruct v; try reflexivity. discriminate.
Qed.


(** Claim C10.  A record whose timestamp is the integer 0 reads as
    timestamp 0, just as a record without a timestamp does, and either is
    skipped entirely: the result is that of the input without it. *)
Theorem epoch_zero_record_skipped pre r r0 post :
  is_long_form (hd r pre) = false ->
  is_long_form (hd r0 pre) = false ->
  dict_get r "timestamp" = Some (PInt 0) ->
  dict_get r0 "timestamp" = None ->
  record_ts r = Ok 0
  /\ record_ts r0 = Ok 0
  /\ to_long_form (pre ++ r :: post) = wide_rows (pre ++ post)
  /\ to_long_form (pre ++ r0 :: post) = wide_rows (pre ++ post).
Proof.
  intros Hw Hw0 Hr Hr0.
  assert (H1 : record_ts r = Ok 0) by (unfold Worker.record_ts; rewrite Hr; reflexivity).
  assert (H2 : record_ts r0 = Ok 0) by (apply record_ts_absent, Hr0).
  repeat split; try assumption.
  - rewrite to_long_form_wide by exact Hw. apply wide_rows_skip, H1.
  - rewrite to_long_form_wide by exact Hw0. apply wide_rows_skip, H2.
Qed.
End ToLongFormFacts.

(** ** Sorted sets, first appearances and the pivot *)
Lemma zinsert_In x y l : In y (zinsert x l) <-> y = x \/ In y l.
Proof.
  induction l as [|z l IH]; simpl; [intuition congruence|].
  destruct (Z.ltb_spec x z); simpl; [intuition congruence|].
  destruct (Z.eqb_spec x z); simpl; [subst; intuition congruence|].
  rewrite IH. intuition congruence.
Qed.

Lemma zsort_uniq_In y l : In y (zsort_uniq l) <-> In y l.
Proof.
  induction l as [|x l IH]; simpl; [tauto|].
  rewrite zinsert_In, IH. intuition congruence.
Qed.

Lemma zinsert_sorted x l :
  StronglySorted Z.lt l -> StronglySorted Z.lt (zinsert x l).
Proof.
  induction 1 as [|z l Hs IH Hall]; simpl.
  - repeat constructor.
  - destruct (Z.ltb_spec x z).
    + constructor; [constructor; assumption|].
      constructor; [assumption|].
      apply List.Forall_forall. intros y Hy.
      rewrite List.Forall_forall in Hall. specialize (Hall _ Hy). lia.
    + destruct (Z.eqb_spec x z); [constructor; assumption|].
      constructor; [assumption|].
      apply List.Forall_forall. intros y Hy. apply zinsert_In in Hy.
      destruct Hy as [->|Hy]; [lia|].
      rewrite List.Forall_forall in Hall. apply Hall, Hy.
Qed.

Lemma zsort_uniq_sorted l : StronglySorted Z.lt (zsort_uniq l).
Proof.
  induction l; simpl; [constructor | apply zinsert_sorted; assumption].
Qed.

Lemma sorted_lt_NoDup l : StronglySorted Z.lt l -> List.NoDup l.
Proof.
  induction 1 as [|z l Hs IH Hall]; constructor; [|assumption].
  intros Hin. rewrite List.Forall_forall in Hall. specialize (Hall _ Hin). lia.
Qed.

Lemma first_seen_In p seen l :
  In p (first_seen seen l) <-> In p l /\ ~ In p seen.
Proof.
  revert seen. induction l as [|x l IH]; intros seen; simpl; [tauto|].
  destruct (existsb (String.eqb x) seen) eqn:E.
  - rewrite IH. apply existsb_exists in E. destruct E as [y [Hy Exy]].
    apply String.eqb_eq in Exy. subst y. intuition congruence.
  - simpl. rewrite IH. simpl.
    assert (~ In x seen).
    { intros Hx. apply not_true_iff_false in E. apply E.
      apply existsb_exists. exists x. split; [assumption|apply String.eqb_refl]. }
    destruct (string_dec x p); intuition congruence.
Qed.

Lemma first_seen_NoDup seen l : List.NoDup (first_seen seen l).
Proof.
  revert seen. induction l as [|x l IH]; intros seen; simpl; [constructor|].
  destruct (existsb (String.eqb x) seen); [apply IH|].
  constructor; [|apply IH].
  rewrite first_seen_In. simpl. tauto.
Qed.

Lemma index_of_nth name cols i :
  index_of name cols = Some i -> nth_error cols i = Some name.
Proof.
  revert i. induction cols as [|c cols IH]; intros i; simpl; [discriminate|].
  destruct (String.eqb_spec c name).
  - intros [= <-]. simpl. congruence.
  - destruct (index_of name cols); simpl; [|discriminate].
    intros [= <-]. simpl. apply IH. reflexivity.
Qed.

Lemma index_of_None name cols :
  index_of name cols = None <-> ~ In name cols.
Proof.
  induction cols as [|c cols IH]; simpl; [tauto|].
  destruct (String.eqb_spec c name).
  - split; [discriminate|]. tauto.
  - destruct (index_of name cols); simpl.
    + split; [discriminate|]. intros H. exfalso. apply H. right.
      destruct IH as [_ IH]. 
      destruct (in_dec string_dec name cols); [assumption|].
      specialize (IH n1). discriminate.
    + split; [|reflexivity]. intros _ [H|H]; [congruence|]. apply IH; auto.
Qed.

Lemma nth_map_opt {A} (g : A -> option Q) l i a :
  nth_error l i = Some a -> nth i (map g l) None = g a.
Proof.
  revert i. induction l as [|x l IH]; intros [|i]; simpl; try discriminate.
  - congruence.
  - apply IH.
Qed.

Lemma find_keyed {B} (g : Z -> B) idx t :
  find (fun r => fst r =? t) (map (fun k => (k, g k)) idx) =
  if in_dec Z.eq_dec t idx then Some (t, g t) else None.
Proof.
  induction idx as [|k idx IH]; simpl; [reflexivity|].
  destruct (Z.eqb_spec k t).
  - subst. destruct (Z.eq_dec t t); [reflexivity|congruence].
  - rewrite IH. destruct (Z.eq_dec k t); [congruence|].
    destruct (in_dec Z.eq_dec t idx); reflexivity.
Qed.

Lemma cell_samples_nil_t df t p : ~ In t (map ts df) -> cell_samples df t p = [].
Proof.
  intros H. unfold cell_samples. induction df as [|s df IH]; [reflexivity|].
  rewrite filter_cons. simpl in H. destruct (decide _) as [[E _]|_].
  - tauto.
  - apply IH. tauto.
Qed.

Lemma cell_samples_nil_p df t p : ~ In p (map pid df) -> cell_samples df t p = [].
Proof.
  intros H. unfold cell_samples. induction df as [|s df IH]; [reflexivity|].
  rewrite filter_cons. simpl in H. destruct (decide _) as [[_ E]|_].
  - tauto.
  - apply IH. tauto.
Qed.

Lemma wide_get_pivot df t p : wide_get (pivot df) t p = pivot_cell df t p.
Proof.
  unfold wide_get, pivot. simpl. rewrite find_keyed.
  destruct (in_dec Z.eq_dec t (zsort_uniq (map ts df))) as [Ht|Ht].
  - destruct (index_of p (first_seen [] (map pid df))) as [i|] eqn:E.
    + simpl. apply nth_map_opt, index_of_nth, E.
    + apply index_of_None in E. rewrite first_seen_In in E.
      unfold pivot_cell. rewrite cell_samples_nil_p; [reflexivity|].
      simpl in E. tauto.
  - rewrite zsort_uniq_In in Ht. unfold pivot_cell.
    rewrite cell_samples_nil_t by assumption. reflexivity.
Qed.

Lemma qsum_perm l l' : Permutation l l' -> (qsum l == qsum l')%Q.
Proof.
  induction 1; simpl.
  - reflexivity.
  - rewrite IHPermutation. reflexivity.
  - ring.
  - etransitivity; eassumption.
Qed.

Lemma qmean_perm l l' : Permutation l l' -> qmean l = qmean l'.
Proof.
  intros H. unfold qmean. apply Qred_complete.
  rewrite (qsum_perm _ _ H), (Permutation_length H). reflexivity.
Qed.

Lemma mean_opt_perm l l' : Permutation l l' -> mean_opt l = mean_opt l'.
Proof.
  intros H. unfold mean_opt. destruct l as [|x l], l' as [|y l'].
  - reflexivity.
  - apply Permutation_nil in H. discriminate.
  - symmetry in H. apply Permutation_nil in H. discriminate.
  - f_equal. apply qmean_perm, H.
Qed.


(** ** The downsample *)

Lemma sort_rows_sorted l : StronglySorted row_lt l -> sort_rows l = l.
Proof.
  induction 1 as [|a l Hs IH Hall]; [reflexivity|].
  unfold sort_rows in *. simpl. rewrite IH.
  destruct l as [|b l']; [reflexivity|]. simpl.
  apply Forall_inv in Hall. unfold row_lt in Hall.
  apply Z.ltb_lt in Hall. rewrite Hall. reflexivity.
Qed.

Lemma keyed_rows_sorted (f : Z -> list (option Q)) keys :
  StronglySorted Z.lt keys ->
  StronglySorted row_lt (map (fun k => (k * 1000, f k)) keys).
Proof.
  induction 1 as [|k keys Hs IH Hall]; simpl; constructor; [assumption|].
  apply List.Forall_forall. intros o Ho. apply in_map_iff in Ho.
  destruct Ho as [k' [<- Hk']]. rewrite List.Forall_forall in Hall.
  specialize (Hall _ Hk'). unfold row_lt. simpl. lia.
Qed.

Lemma downsample_rows w :
  rows w <> [] ->
  rows (downsample w) =
  map (fun k => (k * 1000, cell_means (sec_group w k)))
      (zsort_uniq (map (fun r => sec_of (fst r)) (rows w))).
Proof.
  intros Hne. unfold downsample, height.
  destruct (rows w) as [|r rs] eqn:E; [congruence|]. simpl Nat.ltb. cbv iota.
  unfold rows at 1. unfold group_by_sec_mean. rewrite map_map. unfold ts_from_sec.
  simpl sec. rewrite E.
  apply (sort_rows_sorted _ (keyed_rows_sorted (fun k => cell_means (sec_group w k)) _ (zsort_uniq_sorted _))).
Qed.

Lemma filter_keyed (f : Z -> list (option Q)) keys k :
  List.NoDup keys -> In k keys ->
  filter (fun o : Z * list (option Q) => fst o = k * 1000)
         (map (fun k' => (k' * 1000, f k')) keys) = [(k * 1000, f k)].
Proof.
  induction 1 as [|k' keys Hnin Hnd IH]; simpl; [tauto|].
  intros [->|Hin].
  - rewrite filter_cons_True by reflexivity. f_equal.
    clear IH Hnd. induction keys as [|k2 keys IH2]; [reflexivity|].
    simpl. rewrite filter_cons_False.
    + apply IH2. simpl in Hnin. tauto.
    + simpl. simpl in Hnin. intros E. apply Hnin. left. lia.
  - rewrite filter_cons_False.
    + apply IH, Hin.
    + simpl. intros E. assert (k' = k) by lia. subst. tauto.
Qed.

Lemma sec_of_bounds t k : sec_of t = k <-> k * 1000 <= t <= k * 1000 + 999.
Proof.
  unfold sec_of. split.
  - intros <-. pose proof (Z.div_mod t 1000 ltac:(lia)).
    pose proof (Z.mod_pos_bound t 1000 ltac:(lia)). lia.
  - intros H. symmetry. apply (Z.div_unique t 1000 k (t - k * 1000)); lia.
Qed.

(** Claim C1, as the code has it.  Every row of a non-empty wide frame
    lies in the 1-second bucket [k*1000 .. k*1000+999] of its own time; the
    downsampled frame holds exactly one row for that bucket; the rows of the
    input that fall in the bucket are the ones averaged into it; and the
    time of that output row is the bucket start [k*1000] (the mean of the
    input times is computed and then replaced).  Every output row arises
    from the bucket of some input row. *)
Theorem downsample_bucket_start w r :
  In r (rows w) ->
  let k := sec_of (fst r) in
  k * 1000 <= fst r <= k * 1000 + 999
  /\ filter (fun o : Z * list (option Q) => fst o = k * 1000) (rows (downsample w))
     = [(k * 1000, cell_means (sec_group w k))]
  /\ (forall r', In r' (rows w) ->
        (k * 1000 <= fst r' <= k * 1000 + 999 <-> In r' (bucket_rows (rows w) k)))
  /\ (forall o, In o (rows (downsample w)) ->
        exists r', In r' (rows w) /\ fst o = sec_of (fst r') * 1000).
Proof.
  intros Hr k.
  assert (Hne : rows w <> []) by (intros E; rewrite E in Hr; exact Hr).
  split; [|split; [|split]].
  - apply sec_of_bounds. reflexivity.
  - rewrite (downsample_rows w Hne). apply filter_keyed.
    + apply sorted_lt_NoDup, zsort_uniq_sorted.
    + apply zsort_uniq_In. apply in_map_iff. exists r. split; [reflexivity|assumption].
  - intros r' Hr'. unfold bucket_rows.
    rewrite <- list_elem_of_In, list_elem_of_filter, list_elem_of_In.
    rewrite sec_of_bounds. tauto.
  - intros o Ho. rewrite (downsample_rows w Hne) in Ho.
    apply in_map_iff in Ho. destruct Ho as [k' [<- Hk']].
    rewrite zsort_uniq_In in Hk'. apply in_map_iff in Hk'.
    destruct Hk' as [r' [<- Hr']]. exists r'. split; [assumption|reflexivity].
Qed.

(** ** The keys of the KPI summary *)
Lemma dict_keys_set {V} (d : list (string * V)) k v key :
  In key (dict_keys (dict_set d k v)) <-> key = k \/ In key (dict_keys d).
Proof.
  unfold dict_keys. induction d as [|[k' v'] d IH]; simpl.
  - intuition congruence.
  - destruct (decide (k' = k)) as [->|Hne]; simpl.
    + intuition congruence.
    + rewrite IH. tauto.
Qed.

Lemma has_col_In w name : has_col w name = true <-> In name (columns w).
Proof.
  unfold has_col. rewrite existsb_exists. split.
  - intros [x [Hx E]]. apply String.eqb_eq in E. subst. assumption.
  - intros H. exists name. split; [assumption|apply String.eqb_refl].
Qed.

Lemma Qltb_lt x y : Qltb x y = true <-> (x < y)%Q.
Proof.
  unfold Qltb. rewrite negb_true_iff, <- not_true_iff_false, Qle_bool_iff.
  split; [apply Qnot_le_lt | apply Qlt_not_le].
Qed.

Lemma mask_any_idle c :
  mask_any (idle_mask c) = true <-> exists q, In (Some q) c /\ (q < 900#1)%Q.
Proof.
  unfold mask_any, idle_mask. rewrite existsb_exists. split.
  - intros [b [Hb E]]. apply in_map_iff in Hb. destruct Hb as [[q|] [<- Hq]]; simpl in E.
    + exists q. split; [assumption|]. apply Qltb_lt.
      destruct (Qltb q (900#1)); [reflexivity|discriminate].
    + discriminate.
  - intros [q [Hq Hlt]]. exists (Some true). split; [|reflexivity].
    apply in_map_iff. exists (Some q). split; [|assumption].
    simpl. apply Qltb_lt in Hlt. rewrite Hlt. reflexivity.
Qed.

Ltac ok_inv H :=
  repeat match type of H with
  | bind ?r ?k = Ok _ =>
      let a := fresh "a" in let Ha := fresh "Ha" in
      apply bind_ok in H; destruct H as [a [Ha H]]
  | Ok _ = Ok _ => injection H as H
  end.

Section KpiFacts.
Variable std : list Q -> option Q.

Lemma rpm_kpis_keys w kpis k' :
  rpm_kpis std w kpis = Ok k' ->
  forall key, In key (dict_keys k') <->
    In key (dict_keys kpis)
    \/ (has_col w "rpm" = true
        /\ (key = "rpm_mean" \/ key = "rpm_max" \/ key = "rpm_min"
            \/ (mask_any (idle_mask (get_column w "rpm")) = true
                /\ (key = "idleRPMStd" \/ key = "idleRPMMean")))).
Proof.
  unfold rpm_kpis. intros H key.
  destruct (has_col w "rpm"); [|injection H as <-; intuition discriminate].
  ok_inv H.
  destruct (mask_any (idle_mask (get_column w "rpm"))).
  - ok_inv H. subst k'. rewrite !dict_keys_set. intuition.
  - ok_inv H. subst k'. rewrite !dict_keys_set. intuition discriminate.
Qed.

Lemma temp_kpis_keys w kpis k' :
  temp_kpis w kpis = Ok k' ->
  forall key, In key (dict_keys k') <->
    In key (dict_keys kpis)
    \/ (has_col w "engineTemp" = true
        /\ In key ["coolantRiseC"; "coolantMax"; "coolantMin"]).
Proof.
  unfold temp_kpis. intros H key.
  destruct (has_col w "engineTemp"); [|injection H as <-; intuition discriminate].
  ok_inv H. subst k'. rewrite !dict_keys_set. simpl. intuition.
Qed.

Lemma speed_kpis_keys w kpis k' :
  speed_kpis w kpis = Ok k' ->
  forall key, In key (dict_keys k') <->
    In key (dict_keys kpis)
    \/ (has_col w "speed" = true /\ In key ["speed_mean"; "speed_max"]).
Proof.
  unfold speed_kpis. intros H key.
  destruct (has_col w "speed"); [|injection H as <-; intuition discriminate].
  ok_inv H. subst k'. rewrite !dict_keys_set. simpl. intuition.
Qed.

Lemma trim_kpis_keys w kpis k' :
  trim_kpis w kpis = Ok k' ->
  forall key, In key (dict_keys k') ->
    In key (dict_keys kpis)
    \/ In key ["stft_mean"; "stft_max"; "ltft_mean"; "ltft_max"].
Proof.
  unfold trim_kpis. intros H key.
  apply bind_ok in H. destruct H as [k1 [H1 H]].
  assert (In key (dict_keys k1) -> In key (dict_keys kpis) \/ In key ["stft_mean"; "stft_max"]) as Hk1.
  { destruct (has_col w "shortTermFuelTrim"); [|injection H1 as <-; tauto].
    ok_inv H1. subst k1. rewrite !dict_keys_set. simpl. intuition. }
  destruct (has_col w "longTermFuelTrim").
  - ok_inv H. subst k'. rewrite !dict_keys_set. simpl in *. intuition.
  - injection H as <-. simpl in *. intuition.
Qed.

Lemma trim_kpis_mono w kpis k' :
  trim_kpis w kpis = Ok k' ->
  forall key, In key (dict_keys kpis) -> In key (dict_keys k').
Proof.
  unfold trim_kpis. intros H key Hin.
  apply bind_ok in H. destruct H as [k1 [H1 H]].
  assert (In key (dict_keys k1)) as Hk1.
  { destruct (has_col w "shortTermFuelTrim"); [|injection H1 as <-; tauto].
    ok_inv H1. subst k1. rewrite !dict_keys_set. tauto. }
  destruct (has_col w "longTermFuelTrim").
  - ok_inv H. subst k'. rewrite !dict_keys_set. tauto.
  - injection H as <-. assumption.
Qed.

Lemma meta_kpis_keys meta kpis key :
  In key (dict_keys (meta_kpis meta kpis)) <->
    In key (dict_keys kpis)
    \/ (meta <> [] /\ In key ["sessionName"; "dtcCodes"; "vehicleId"]).
Proof.
  unfold meta_kpis. destruct meta as [|m meta].
  - intuition congruence.
  - rewrite !dict_keys_set. simpl. intuition congruence.
Qed.
End KpiFacts.



Ltac in_names :=
  unfold other_names; simpl; repeat (first [left; reflexivity | right]).

Lemma named_other key l :
  In key l -> (forall x, In x l -> In x other_names) -> In key other_names.
Proof. intros H Hl. apply Hl, H. Qed.

Ltac sub_names :=
  let x := fresh "x" in let Hx := fresh "Hx" in
  intros x Hx; simpl in Hx;
  repeat (destruct Hx as [<-|Hx]; [in_names|]); destruct Hx.

Lemma kpi_summary_keys std w meta k :
  kpi_summary std w meta = Ok k ->
  forall key,
    (In key (dict_keys k) -> rpm_keyed w key \/ In key other_names)
    /\ (rpm_keyed w key -> In key (dict_keys k)).
Proof.
  unfold kpi_summary. intros H key.
  apply bind_ok in H. destruct H as [k1 [H1 H]].
  apply bind_ok in H. destruct H as [k2 [H2 H]].
  apply bind_ok in H. destruct H as [k3 [H3 H]].
  apply bind_ok in H. destruct H as [k4 [H4 H]].
  apply bind_ok in H. destruct H as [k5 [H5 H]].
  injection H as <-. injection H1 as <-.
  pose proof (rpm_kpis_keys std w _ _ H2 key) as R2.
  pose proof (temp_kpis_keys w _ _ H3 key) as R3.
  pose proof (speed_kpis_keys w _ _ H4 key) as R4.
  pose proof (trim_kpis_keys w _ _ H5 key) as R5.
  pose proof (trim_kpis_mono w _ _ H5 key) as M5.
  fold (rpm_keyed w key) in R2. split.
  - intros Hk. apply meta_kpis_keys in Hk.
    destruct Hk as [Hk|[_ Hk]]; [|right; apply (named_other _ _ Hk); sub_names].
    apply R5 in Hk.
    destruct Hk as [Hk|Hk]; [|right; apply (named_other _ _ Hk); sub_names].
    apply R4 in Hk.
    destruct Hk as [Hk|[_ Hk]]; [|right; apply (named_other _ _ Hk); sub_names].
    apply R3 in Hk.
    destruct Hk as [Hk|[_ Hk]]; [|right; apply (named_other _ _ Hk); sub_names].
    apply R2 in Hk.
    destruct Hk as [Hk|Hk]; [|left; exact Hk].
    right. apply (named_other _ _ Hk). sub_names.
  - intros Hk. apply meta_kpis_keys. left. apply M5, R4. left.
    apply R3. left. apply R2. right. exact Hk.
Qed.

(** Claim C7.  In a summary that [build_pack] produces, a key starting
    with [rpm_] is present exactly when the frame has an [rpm] column; with
    an [rpm] column and no value below 900 the keys [rpm_mean], [rpm_max]
    and [rpm_min] are present and [idleRPMStd], [idleRPMMean] are absent;
    and an idle key is present only when a row has [rpm < 900]. *)
Theorem kpi_rpm_conditional std w meta k :
  kpi_summary std w meta = Ok k ->
  let keys := dict_keys k in
  let rpm := get_column w "rpm" in
  ((exists key, In key keys /\ String.prefix "rpm_" key = true)
     <-> In "rpm" (columns w))
  /\ (In "rpm" (columns w) ->
      (forall q, In (Some q) rpm -> ~ (q < 900#1)%Q) ->
      In "rpm_mean" keys /\ In "rpm_max" keys /\ In "rpm_min" keys
      /\ ~ In "idleRPMStd" keys /\ ~ In "idleRPMMean" keys)
  /\ (In "idleRPMStd" keys \/ In "idleRPMMean" keys ->
      In "rpm" (columns w) /\ exists q, In (Some q) rpm /\ (q < 900#1)%Q).
Proof.
  intros H keys rpm. pose proof (kpi_summary_keys std w meta k H) as K.
  assert (Hidle : forall key, key = "idleRPMStd" \/ key = "idleRPMMean" ->
            In key keys ->
            In "rpm" (columns w) /\ exists q, In (Some q) rpm /\ (q < 900#1)%Q).
  { intros key Hkey Hin. apply K in Hin. destruct Hin as [[Hc Hin]|Hin].
    - split; [apply has_col_In, Hc|].
      destruct Hin as [E|[E|[E|[Hm _]]]];
        try (destruct Hkey; subst; discriminate).
      apply mask_any_idle, Hm.
    - exfalso. unfold other_names in Hin. simpl in Hin.
      destruct Hkey; subst;
        repeat (destruct Hin as [Hin|Hin]; [discriminate Hin|]); exact Hin. }
  split; [|split].
  - split.
    + intros [key [Hin Hp]]. apply K in Hin. destruct Hin as [[Hc _]|Hin].
      * apply has_col_In, Hc.
      * exfalso. unfold other_names in Hin. simpl in Hin.
        repeat (destruct Hin as [<-|Hin]; [discriminate Hp|]). exact Hin.
    + intros Hc. exists "rpm_mean". split; [|reflexivity].
      apply K. split; [apply has_col_In, Hc|tauto].
  - intros Hc Hno. apply has_col_In in Hc.
    repeat split; try (apply K; split; [exact Hc|tauto]).
    + intros Hin. destruct (Hidle "idleRPMStd" (or_introl eq_refl) Hin) as [_ [q [Hq Hlt]]].
      exact (Hno q Hq Hlt).
    + intros Hin. destruct (Hidle "idleRPMMean" (or_intror eq_refl) Hin) as [_ [q [Hq Hlt]]].
      exact (Hno q Hq Hlt).
  - intros [Hin|Hin]; [apply (Hidle "idleRPMStd")|apply (Hidle "idleRPMMean")]; tauto.
Qed.

(** ** When the summary is produced *)
Lemma non_null_In c q : In (Some q) c -> In q (non_null c).
Proof.
  unfold non_null. induction c as [|[x|] c IH]; simpl; [tauto| |].
  - intros [[= ->]|H]; [left; reflexivity|right; apply IH, H].
  - intros [H|H]; [discriminate|apply IH, H].
Qed.

Lemma col_reductions_defined c q :
  In (Some q) c ->
  (exists m, col_mean c = Some m) /\ (exists m, col_max c = Some m)
  /\ (exists m, col_min c = Some m).
Proof.
  intros H. apply non_null_In in H. unfold col_mean, col_max, col_min, mean_opt.
  destruct (non_null c); [destruct H|]. repeat split; eexists; reflexivity.
Qed.

Lemma guarded_defined c x :
  ((0 < length c)%nat -> exists q, x = Some q) -> exists v, guarded c x = Ok v.
Proof.
  unfold guarded. intros H. destruct (Nat.ltb_spec 0 (length c)); [|eauto].
  destruct (H ltac:(assumption)) as [q ->]. simpl. eauto.
Qed.

Lemma filter_mask_idle_nonempty c :
  mask_any (idle_mask c) = true -> non_null (filter_mask c (idle_mask c)) <> [].
Proof.
  unfold mask_any, idle_mask, non_null.
  induction c as [|[q|] c IH]; simpl; [discriminate| |exact IH].
  destruct (Qltb q (900#1)); simpl; [discriminate|exact IH].
Qed.


Lemma kpi_summary_defined std w meta :
  Forall (populated w)
    ["rpm"; "engineTemp"; "speed"; "shortTermFuelTrim"; "longTermFuelTrim"] ->
  (mask_any (idle_mask (get_column w "rpm")) = true ->
   exists s, std (non_null (filter_mask (get_column w "rpm")
                                        (idle_mask (get_column w "rpm")))) = Some s) ->
  exists k, kpi_summary std w meta = Ok k.
Proof.
  intros Hpop Hstd.
  repeat (apply Forall_cons_1 in Hpop; destruct Hpop as [? Hpop]).
  assert (G : forall name, populated w name ->
     (exists v, guarded (get_column w name) (col_mean (get_column w name)) = Ok v)
     /\ (exists v, guarded (get_column w name) (col_max (get_column w name)) = Ok v)
     /\ (exists v, guarded (get_column w name) (col_min (get_column w name)) = Ok v)).
  { intros name Hn. repeat split; apply guarded_defined; intros Hl;
      destruct (Hn Hl) as [q Hq];
      destruct (col_reductions_defined _ _ Hq) as [? [? ?]]; assumption. }
  unfold kpi_summary, base_kpis. simpl bind.
  match goal with |- exists k, bind (rpm_kpis std w ?b) _ = _ => generalize b end.
  intros k0.
  assert (exists k1, rpm_kpis std w k0 = Ok k1) as [k1 ->].
  { unfold rpm_kpis. destruct (has_col w "rpm"); [|eauto].
    destruct (G "rpm" ltac:(assumption)) as [[v1 ->] [[v2 ->] [v3 ->]]]. simpl.
    destruct (mask_any (idle_mask (get_column w "rpm"))) eqn:E; [|eauto].
    destruct (Hstd eq_refl) as [s ->]. simpl.
    pose proof (filter_mask_idle_nonempty _ E) as Hne. unfold mean_opt.
    destruct (non_null _); [congruence|]. simpl. eauto. }
  simpl bind.
  assert (exists k2, temp_kpis w k1 = Ok k2) as [k2 ->].
  { unfold temp_kpis. destruct (has_col w "engineTemp"); [|eauto].
    destruct (G "engineTemp" ltac:(assumption)) as [_ [[v2 E2] [v3 E3]]].
    rewrite E2, E3. unfold guarded in E2, E3.
    destruct (0 <? length (get_column w "engineTemp"))%nat; simpl; [|eauto].
    destruct (col_max _); [|discriminate]. destruct (col_min _); [|discriminate].
    simpl. eauto. }
  simpl bind.
  assert (exists k3, speed_kpis w k2 = Ok k3) as [k3 ->].
  { unfold speed_kpis. destruct (has_col w "speed"); [|eauto].
    destruct (G "speed" ltac:(assumption)) as [[v1 ->] [[v2 ->] _]]. simpl. eauto. }
  simpl bind.
  assert (exists k4, trim_kpis w k3 = Ok k4) as [k4 ->].
  { unfold trim_kpis.
    destruct (G "shortTermFuelTrim" ltac:(assumption)) as [[v1 E1] [[v2 E2] _]].
    destruct (G "longTermFuelTrim" ltac:(assumption)) as [[v3 E3] [[v4 E4] _]].
    rewrite E1, E2, E3, E4.
    destruct (has_col w "shortTermFuelTrim"), (has_col w "longTermFuelTrim");
      simpl; eauto. }
  simpl. eauto.
Qed.

(** ** The frames of the pipeline have populated columns *)
Lemma index_of_lt name cols i : index_of name cols = Some i -> (i < length cols)%nat.
Proof.
  intros H. apply index_of_nth in H.
  apply nth_error_Some. rewrite H. discriminate.
Qed.

Lemma column_at_In i rs r :
  In r rs -> In (nth i (snd r) None) (column_at i rs).
Proof. intros H. unfold column_at. apply (in_map (fun r => nth i (snd r) None)), H. Qed.

Lemma nth_seq_map (f : nat -> option Q) n i :
  (i < n)%nat -> nth i (map f (seq 0 n)) None = f i.
Proof.
  intros H. rewrite (nth_indep _ None (f 0%nat)) by (rewrite length_map, length_seq; exact H).
  rewrite (map_nth f). rewrite seq_nth by exact H. reflexivity.
Qed.

Lemma mean_opt_some l q : In q l -> exists m, mean_opt l = Some m.
Proof. destruct l; [intros []|]. intros _. eexists. reflexivity. Qed.

Lemma pivot_populated df name : populated (pivot df) name.
Proof.
  unfold populated, get_column. intros Hlen.
  destruct (index_of name (columns (pivot df))) as [i|] eqn:E;
    [|simpl in Hlen; lia].
  pose proof (index_of_nth _ _ _ E) as Hnth.
  assert (Hin : In name (columns (pivot df))) by (eapply nth_error_In; eassumption).
  unfold pivot in Hin. simpl in Hin. rewrite first_seen_In in Hin.
  destruct Hin as [Hin _]. apply in_map_iff in Hin. destruct Hin as [s [Hs Hsin]].
  assert (Hrow : In (ts s, map (pivot_cell df (ts s)) (columns (pivot df)))
                    (rows (pivot df))).
  { unfold pivot. simpl. apply in_map_iff. exists (ts s). split; [reflexivity|].
    apply zsort_uniq_In, in_map, Hsin. }
  apply (column_at_In i) in Hrow. simpl in Hrow.
  rewrite (nth_map_opt _ _ _ _ Hnth) in Hrow.
  assert (Hc : In (value s) (map value (cell_samples df (ts s) name))).
  { apply in_map. unfold cell_samples.
    apply list_elem_of_In, list_elem_of_filter. split; [auto|].
    apply list_elem_of_In, Hsin. }
  unfold pivot_cell in Hrow.
  destruct (mean_opt_some _ _ Hc) as [m Hm]. rewrite Hm in Hrow. eauto.
Qed.

Lemma downsample_populated w name :
  populated w name -> populated (downsample w) name.
Proof.
  intros Hw. destruct (rows w) as [|r0 rs] eqn:Erows.
  { unfold downsample, height. rewrite Erows. exact Hw. }
  assert (Hne : rows w <> []) by congruence.
  unfold populated, get_column in *.
  assert (Hcols : columns (downsample w) = columns w).
  { unfold downsample, height. rewrite Erows. reflexivity. }
  rewrite Hcols. rewrite (downsample_rows w Hne).
  destruct (index_of name (columns w)) as [i|] eqn:E; [|simpl; lia].
  intros _. destruct Hw as [q Hq].
  { unfold column_at. rewrite length_map, Erows. simpl. lia. }
  unfold column_at in Hq. apply in_map_iff in Hq. destruct Hq as [r [Hr Hrin]].
  set (k := sec_of (fst r)).
  assert (Hk : In k (zsort_uniq (map (fun r => sec_of (fst r)) (rows w)))).
  { apply zsort_uniq_In. apply in_map_iff. exists r. split; [reflexivity|exact Hrin]. }
  assert (Hb : In (Some q) (column_at i (bucket_rows (rows w) k))).
  { rewrite <- Hr. apply column_at_In. unfold bucket_rows.
    apply list_elem_of_In, list_elem_of_filter. split; [reflexivity|].
    apply list_elem_of_In, Hrin. }
  apply non_null_In in Hb. destruct (mean_opt_some _ _ Hb) as [m Hm].
  exists m. unfold column_at at 1. apply in_map_iff. exists (k * 1000, cell_means (sec_group w k)).
  split.
  - simpl. rewrite nth_seq_map by (eapply index_of_lt; eassumption). exact Hm.
  - apply in_map_iff. exists k. split; [reflexivity|exact Hk].
Qed.

(** The summary is produced for every frame that [build_pack] builds,
    provided the standard deviation of its idle rows is defined. *)
Lemma pipeline_summary_defined std df meta :
  let w := downsample (pivot df) in
  (mask_any (idle_mask (get_column w "rpm")) = true ->
   exists s, std (non_null (filter_mask (get_column w "rpm")
                                        (idle_mask (get_column w "rpm")))) = Some s) ->
  exists k, kpi_summary std w meta = Ok k.
Proof.
  intros w Hstd. apply kpi_summary_defined; [|exact Hstd].
  repeat constructor; apply downsample_populated, pivot_populated.
Qed.

(** ** Worked instances *)

Lemma downsample_bucket_start_witness :
  In (1999, [Some (5000#1)%Q]) (rows (pivot scenario))
  /\ filter (fun o : Z * list (option Q) => fst o = 1 * 1000)
            (rows (downsample (pivot scenario)))
     = [(1 * 1000, cell_means (sec_group (pivot scenario) 1))].
Proof.
  assert (H : In (1999, [Some (5000#1)%Q]) (rows (pivot scenario))).
  { vm_compute. right. left. reflexivity. }
  split; [exact H|].
  exact (proj1 (proj2 (downsample_bucket_start (pivot scenario) _ H))).
Defined.



Lemma epoch_zero_record_skipped_witness :
  is_long_form (hd snapshot_at_epoch []) = false
  /\ is_long_form (hd snapshot_without_time []) = false
  /\ dict_get snapshot_at_epoch "timestamp" = Some (PInt 0)
  /\ dict_get snapshot_without_time "timestamp" = None
  /\ to_long_form sample_parse_int sample_parse_float sample_cast
       ([] ++ snapshot_at_epoch :: [snapshot])
     = wide_rows sample_parse_int sample_parse_float ([] ++ [snapshot]).
Proof.
  assert (H1 : is_long_form (hd snapshot_at_epoch []) = false) by reflexivity.
  assert (H2 : is_long_form (hd snapshot_without_time []) = false) by reflexivity.
  assert (H3 : dict_get snapshot_at_epoch "timestamp" = Some (PInt 0)) by reflexivity.
  assert (H4 : dict_get snapshot_without_time "timestamp" = None) by reflexivity.
  repeat (split; [assumption|]).
  exact (proj1 (proj2 (proj2 (epoch_zero_record_skipped sample_parse_int
           sample_parse_float sample_cast [] snapshot_at_epoch
           snapshot_without_time [snapshot] H1 H2 H3 H4)))).
Defined.

Lemma kpi_rpm_conditional_witness :
  let k := [("rows", KInt 1); ("start", KInt 1000); ("end", KInt 1000);
            ("signals", KStrs ["rpm"]); ("duration_seconds", KInt 0);
            ("rpm_mean", KFloat (2925#1)); ("rpm_max", KFloat (2925#1));
            ("rpm_min", KFloat (2925#1))] in
  kpi_summary sample_std (downsample (pivot scenario)) [] = Ok k
  /\ ((exists key, In key (dict_keys k) /\ String.prefix "rpm_" key = true)
      <-> In "rpm" (columns (downsample (pivot scenario)))).
Proof.
  intros k.
  assert (H : kpi_summary sample_std (downsample (pivot scenario)) [] = Ok k)
    by (vm_compute; reflexivity).
  split; [exact H|].
  exact (proj1 (kpi_rpm_conditional sample_std _ [] k H)).
Defined.

(** ** Inputs on which the code departs from the specification *)

(** The example scenario: the two rows of bucket 1 (times 1000 and 1999)
    collapse into one row whose time is the bucket start 1000; the mean of
    the two times, 1499.5, is computed by the grouping and then
    overwritten. *)
Lemma downsample_time_is_bucket_start :
  rows (pivot scenario) = [(1000, [Some (850#1)%Q]); (1999, [Some (5000#1)%Q])]
  /\ rows (downsample (pivot scenario)) = [(1000, [Some (2925#1)%Q])]
  /\ ts_mean (sec_group (pivot scenario) 1) = Some (2999#2)%Q
  /\ ~ (inject_Z 1000 == 2999#2)%Q.
Proof.
  split; [vm_compute; reflexivity|].
  split; [vm_compute; reflexivity|].
  split; [vm_compute; reflexivity|].
  unfold Qeq. simpl. lia.
Qed.


End WorkerFacts.

(** * Properties of the research server *)
Module ServerFacts.
Import Server.


(** ** Final-response extraction *)
Lemma dict_index_mem {V} (d : list (string * V)) k :
  dict_mem d k = true -> exists v, dict_get d k = Some v /\ dict_index d k = Ok v.
Proof.
  unfold dict_mem, dict_index. destruct (dict_get d k); [eauto|discriminate].
Qed.

Lemma dict_mem_false {V} (d : list (string * V)) k :
  dict_mem d k = false -> dict_get d k = None.
Proof. unfold dict_mem. destruct (dict_get d k); [discriminate|reflexivity]. Qed.

(** Claim C8.  The extraction of the final response returns for every
    reply and never raises: a dictionary with the key [response], else
    [text], else [content] gives the value under that key, a list gives its
    stringified elements joined by blank lines, and every other value (a
    dictionary without those keys included) gives its stringified form. *)
Theorem extract_response_total py_str full_content responses :
  (exists v, final_response py_str full_content responses = Ok v)
  /\ exists v, extract_response py_str responses = Ok v /\
     match responses with
     | PDict d =>
         match dict_get d "response", dict_get d "text", dict_get d "content" with
         | Some x, _, _ => v = x
         | None, Some x, _ => v = x
         | None, None, Some x => v = x
         | None, None, None => v = PStr (py_str responses)
         end
     | PList l => v = PStr (String.concat blank_line (map py_str l))
     | _ => v = PStr (py_str responses)
     end.
Proof.
  assert (E : exists v, extract_response py_str responses = Ok v /\
     match responses with
     | PDict d =>
         match dict_get d "response", dict_get d "text", dict_get d "content" with
         | Some x, _, _ => v = x
         | None, Some x, _ => v = x
         | None, None, Some x => v = x
         | None, None, None => v = PStr (py_str responses)
         end
     | PList l => v = PStr (String.concat blank_line (map py_str l))
     | _ => v = PStr (py_str responses)
     end).
  { destruct responses as [| | | | |l|d]; simpl; try (eexists; split; reflexivity).
    unfold dict_mem, dict_index.
    destruct (dict_get d "response"); [eexists; split; reflexivity|].
    destruct (dict_get d "text"); [eexists; split; reflexivity|].
    destruct (dict_get d "content"); eexists; split; reflexivity. }
  split; [|exact E].
  unfold final_response. destruct full_content; [|eauto].
  destruct E as [v [Hv _]]. eauto.
Qed.

(** ** The completed-results store *)
Section DictFacts.
Context {V : Type}.
Implicit Types (d : list (nat * V)) (k : nat).

Lemma dict_set_length d k v :
  (length (dict_set d k v) <= S (length d))%nat.
Proof.
  induction d as [|[k' v'] d IH]; simpl; [lia|].
  destruct (decide (k' = k)); simpl; lia.
Qed.

Lemma dict_del_length d k :
  In k (dict_keys d) -> S (length (dict_del d k)) = length d.
Proof.
  unfold dict_keys. induction d as [|[k' v'] d IH]; simpl; [tauto|].
  destruct (decide (k' = k)); simpl; [reflexivity|].
  intros [E|Hin]; [congruence|]. rewrite IH by assumption. reflexivity.
Qed.

Lemma dict_get_set_ne d k v j : k <> j -> dict_get (dict_set d k v) j = dict_get d j.
Proof.
  intros Hne. induction d as [|[k' v'] d IH]; simpl.
  - destruct (decide (k = j)); [congruence|reflexivity].
  - destruct (decide (k' = k)) as [->|Hk]; simpl.
    + destruct (decide (k = j)); [congruence|reflexivity].
    + destruct (decide (k' = j)); [reflexivity|exact IH].
Qed.

Lemma dict_get_set_eq d k v : dict_get (dict_set d k v) k = Some v.
Proof.
  induction d as [|[k' v'] d IH]; simpl.
  - destruct (decide (k = k)); [reflexivity|congruence].
  - destruct (decide (k' = k)) as [->|Hk]; simpl.
    + destruct (decide (k = k)); [reflexivity|congruence].
    + destruct (decide (k' = k)); [congruence|exact IH].
Qed.

Lemma dict_get_del_None d k j : dict_get d j = None -> dict_get (dict_del d k) j = None.
Proof.
  induction d as [|[k' v'] d IH]; simpl; [reflexivity|].
  destruct (decide (k' = j)); [discriminate|]. intros H.
  destruct (decide (k' = k)); simpl; [assumption|].
  destruct (decide (k' = j)); [congruence|]. apply IH, H.
Qed.
End DictFacts.

Lemma min_from_In best items : In (min_from best items) (best :: items).
Proof.
  revert best. induction items as [|x items IH]; intros best; simpl; [tauto|].
  destruct (Qltb _ _); specialize (IH x) as IHx; specialize (IH best); simpl in *; tauto.
Qed.

Lemma Qltb_false x y : Qltb x y = false -> (y <= x)%Q.
Proof.
  unfold Qltb. rewrite negb_false_iff. apply Qle_bool_iff.
Qed.

Lemma Qltb_true x y : Qltb x y = true -> (x < y)%Q.
Proof.
  unfold Qltb. rewrite negb_true_iff, <- not_true_iff_false, Qle_bool_iff.
  apply Qnot_le_lt.
Qed.

Lemma min_from_le_best best items :
  (completion_time (snd (min_from best items)) <= completion_time (snd best))%Q.
Proof.
  revert best. induction items as [|x items IH]; intros best; simpl; [apply Qle_refl|].
  destruct (Qltb _ _) eqn:E; [|apply IH].
  apply Qltb_true in E. eapply Qle_trans; [apply IH|]. apply Qlt_le_weak, E.
Qed.

Lemma min_from_least best items e :
  In e (best :: items) ->
  (completion_time (snd (min_from best items)) <= completion_time (snd e))%Q.
Proof.
  revert best. induction items as [|x items IH]; intros best; simpl.
  - intros [<-|[]]. apply Qle_refl.
  - intros Hin. destruct (Qltb _ _) eqn:E.
    + destruct Hin as [<-|[<-|Hin]].
      * eapply Qle_trans; [apply min_from_le_best|]. apply Qlt_le_weak, Qltb_true, E.
      * apply min_from_le_best.
      * apply IH. right. assumption.
    + destruct Hin as [<-|[<-|Hin]].
      * apply min_from_le_best.
      * eapply Qle_trans; [apply min_from_le_best|]. apply Qltb_false, E.
      * apply IH. right. assumption.
Qed.

Lemma completed_research_cap store job_id c :
  (length store <= 100)%nat ->
  let recorded := dict_set store job_id c in
  let store' := store_completed_research store job_id c in
  (length store' <= 100)%nat
  /\ ((length recorded <= 100)%nat -> store' = recorded)
  /\ ((100 < length recorded)%nat ->
      exists victim,
        In victim recorded
        /\ store' = dict_del recorded (fst victim)
        /\ S (length store') = length recorded
        /\ forall e, In e recorded ->
             (completion_time (snd victim) <= completion_time (snd e))%Q).
Proof.
  intros Hlen recorded store'. unfold store', store_completed_research.
  fold recorded. pose proof (dict_set_length store job_id c) as Hs. fold recorded in Hs.
  destruct (Nat.ltb_spec 100 (length recorded)) as [Hgt|Hle].
  - destruct recorded as [|x items] eqn:E; [simpl in Hgt; lia|].
    pose proof (min_from_In x items) as Hin.
    assert (Hd : S (length (dict_del (x :: items) (fst (min_from x items)))) = length (x :: items)).
    { apply dict_del_length. unfold dict_keys. apply in_map, Hin. }
    split; [lia|]. split; [lia|]. intros _.
    exists (min_from x items). repeat split; try assumption.
    intros e He. apply min_from_least, He.
  - split; [lia|]. split; [reflexivity|lia].
Qed.

(** ** The progress ticker *)
Lemma terminal_not_processing j : terminal j -> is_processing j = false.
Proof. unfold terminal, is_processing. intros [->| ->]; reflexivity. Qed.

Lemma is_processing_status j : is_processing j = true <-> status j = "processing".
Proof. unfold is_processing. apply String.eqb_eq. Qed.

Lemma ticker_resume_stops is_live o k jobs j :
  jobs !! t_job k = Some j -> is_processing j = false ->
  ticker_resume is_live o k jobs = (None, jobs).
Proof.
  intros Hj Hp. unfold ticker_resume, ticker_loop, ticker_continues.
  destruct (t_pc k); simpl; rewrite ?Hj, ?Hp; simpl.
  - reflexivity.
  - destruct (raised o); reflexivity.
  - destruct (raised o); reflexivity.
Qed.

Lemma ticker_resume_guarded is_live o k jobs k' jobs' :
  ticker_resume is_live o k jobs = (k', jobs') ->
  jobs' = jobs
  \/ exists j, jobs !! t_job k = Some j /\ status j = "processing"
       /\ jobs' = <[t_job k := set_progress (t_current k + increment (t_cfg k)) j]> jobs.
Proof.
  unfold ticker_resume. destruct (t_pc k).
  - intros [= _ <-]. left; reflexivity.
  - destruct (raised o); [intros [= _ <-]; left; reflexivity|].
    destruct (jobs !! t_job k) as [j|] eqn:Hj; [|intros [= _ <-]; left; reflexivity].
    destruct (is_processing j) eqn:Hp; [|intros [= _ <-]; left; reflexivity].
    apply is_processing_status in Hp.
    destruct is_live; intros [= _ <-]; right; exists j; auto.
  - destruct (raised o); intros [= _ <-]; left; reflexivity.
Qed.

Lemma ticker_resume_job is_live o k jobs k' jobs' :
  ticker_resume is_live o k jobs = (Some k', jobs') -> t_job k' = t_job k.
Proof.
  unfold ticker_resume, ticker_loop.
  repeat match goal with
  | |- context [match ?x with _ => _ end] => destruct x
  end; intros [= <- _]; reflexivity.
Qed.

Section Dynamics.
Variable py_str : pyval -> string.
Variable blank : string -> bool.
Variable abspath : string -> string.
Variable report_name : Q -> string.
Variable exn_text : exn -> string.

Local Abbreviation resume := (resume py_str blank abspath report_name exn_text).
Local Abbreviation runner_resume := (runner_resume py_str blank abspath report_name exn_text).
Local Abbreviation step := (step py_str blank abspath report_name exn_text).
Local Abbreviation run := (run py_str blank abspath report_name exn_text).

(** Claim C4.  When the job of a ticker has reached a terminal status,
    resuming the ticker writes nothing to the registry and ends the
    ticker, however often it is resumed; and in general a resumption of a
    ticker changes the registry only by setting the progress of its own
    job, whose status it has found to be [processing] in that same
    resumption. *)
Theorem ticker_writes_guarded st t k j o :
  tasks st !! t = Some (mkTask (ProgressUpdates k) Pending) ->
  research_jobs st !! t_job k = Some j ->
  terminal j ->
  research_jobs (resume t o st) = research_jobs st
  /\ tasks (resume t o st) !! t = Some (mkTask (ProgressUpdates k) Finished)
  /\ (forall os, research_jobs (run (map (EResume t) os) st) = research_jobs st)
  /\ (forall is_live o' k0 jobs k' jobs',
        ticker_resume is_live o' k0 jobs = (k', jobs') ->
        jobs' = jobs
        \/ exists j0, jobs !! t_job k0 = Some j0 /\ status j0 = "processing"
             /\ jobs' = <[t_job k0 :=
                  set_progress (t_current k0 + increment (t_cfg k0)) j0]> jobs).
Proof.
  intros Ht Hj Hterm.
  assert (R : forall o, resume t o st =
            with_tasks (<[t := mkTask (ProgressUpdates k) Finished]> (tasks st))
                       (with_jobs (research_jobs st) st)).
  { intros o0. unfold Server.resume. rewrite Ht.
    rewrite (ticker_resume_stops _ _ _ _ _ Hj (terminal_not_processing _ Hterm)).
    reflexivity. }
  assert (Hlt : (t < length (tasks st))%nat) by (eapply lookup_lt_Some; eassumption).
  split; [rewrite R; reflexivity|].
  split; [rewrite R; simpl; apply list_lookup_insert_eq; assumption|].
  split; [|intros; eapply ticker_resume_guarded; eassumption].
  intros os. destruct os as [|o1 os]; [reflexivity|].
  change (research_jobs (run (map (EResume t) os) (resume t o1 st)) = research_jobs st).
  rewrite R.
  set (st1 := with_tasks _ _).
  assert (H1 : research_jobs st1 = research_jobs st) by reflexivity.
  assert (H2 : tasks st1 !! t = Some (mkTask (ProgressUpdates k) Finished))
    by (simpl; apply list_lookup_insert_eq; assumption).
  rewrite <- H1. clearbody st1. clear -H2.
  induction os as [|o2 os IH]; [reflexivity|].
  change (research_jobs (run (map (EResume t) os) (resume t o2 st1)) = research_jobs st1).
  replace (resume t o2 st1) with st1; [exact IH|].
  unfold Server.resume. rewrite H2. reflexivity.
Qed.

(** ** A job that no task writes to keeps its entry *)
Local Abbreviation silent j := (Forall (fun tk => task_writes j tk = false)).

Lemma task_writes_no_job j c s : co_job c <> Some j -> task_writes j (mkTask c s) = false.
Proof.
  intros H. unfold task_writes. simpl. rewrite bool_decide_eq_false_2 by assumption.
  reflexivity.
Qed.

Lemma task_writes_done j c s : s <> Pending -> task_writes j (mkTask c s) = false.
Proof.
  intros H. unfold task_writes. simpl. rewrite (bool_decide_eq_false_2 (s = Pending)) by assumption.
  apply andb_false_r.
Qed.

Lemma task_writes_pending j c :
  task_writes j (mkTask c Pending) = false -> co_job c <> Some j.
Proof.
  unfold task_writes. simpl. rewrite andb_true_r. apply bool_decide_eq_false_1.
Qed.

Lemma cancel_silent j tk : task_writes j tk = false -> task_writes j (cancel tk) = false.
Proof.
  unfold cancel. destruct tk as [c s]. simpl. destruct s; intros H; try assumption.
  apply task_writes_done. discriminate.
Qed.

Lemma track_tasks c t st :
  tasks (track c t st) = tasks st /\ research_jobs (track c t st) = research_jobs st
  /\ completed_research (track c t st) = completed_research st
  /\ next_job (track c t st) = next_job st
  /\ files (track c t st) = files st
  /\ active_connections (track c t st) = active_connections st.
Proof. unfold track. destruct (websocket_tasks st !! c); repeat split. Qed.

Lemma update_job_frame f r st j :
  r_job r <> Some j ->
  research_jobs (update_job f r st) !! j = research_jobs st !! j.
Proof.
  unfold update_job. intros H. destruct (r_job r) as [jr|]; [|reflexivity].
  simpl. apply lookup_alter_ne. congruence.
Qed.

Lemma update_job_fields f r st :
  tasks (update_job f r st) = tasks st
  /\ completed_research (update_job f r st) = completed_research st
  /\ next_job (update_job f r st) = next_job st
  /\ files (update_job f r st) = files st
  /\ active_connections (update_job f r st) = active_connections st
  /\ websocket_tasks (update_job f r st) = websocket_tasks st.
Proof. unfold update_job. destruct (r_job r); repeat split. Qed.

Lemma store_completed_absent store jr c j :
  jr <> j -> dict_get store j = None ->
  dict_get (store_completed_research store jr c) j = None.
Proof.
  intros Hne Hj. unfold store_completed_research.
  assert (H : dict_get (dict_set store jr c) j = None)
    by (rewrite dict_get_set_ne; assumption).
  destruct (_ <? _)%nat; [|assumption].
  destruct (dict_set store jr c) eqn:E; [assumption|].
  apply dict_get_del_None, H.
Qed.

Lemma frame_refl j st r' :
  (match r' with Some c => co_job c <> Some j | None => True end) ->
  frame j st st r'.
Proof.
  intros H. unfold frame. repeat split; try assumption; try lia; try tauto.
  exists []. rewrite app_nil_r. split; [reflexivity|constructor].
Qed.

Lemma frame_update f r st j r' :
  r_job r <> Some j ->
  (match r' with Some c => co_job c <> Some j | None => True end) ->
  frame j st (update_job f r st) r'.
Proof.
  intros Hr H. destruct (update_job_fields f r st) as (Ht & Hc & Hn & _).
  unfold frame. rewrite Ht, Hc, Hn.
  split; [apply update_job_frame, Hr|].
  split; [lia|]. split; [assumption|]. split; [|tauto].
  exists []. rewrite app_nil_r. split; [reflexivity|constructor].
Qed.

Lemma runner_resume_frame o r st j :
  (j < next_job st)%nat -> r_job r <> Some j ->
  frame j st (snd (runner_resume o r st))
        (RunResearch <$> fst (runner_resume o r st)).
Proof.
  intros Hlt Hr. unfold Server.runner_resume.
  destruct (r_pc r) eqn:Hpc.
  - (* RNew *)
    simpl. unfold frame; simpl. repeat split; try lia.
    + apply lookup_insert_ne. lia.
    + intros [= E]. lia.
    + exists []. rewrite app_nil_r. split; [reflexivity|constructor].
    + tauto.
  - destruct (raised o) as [msg|]; [apply frame_update; simpl; auto|].
    destruct (r_job r) as [jr|] eqn:Hjr; [|apply frame_refl; exact I].
    cbn [fst snd]. unfold frame.
    destruct (track_tasks (r_client r) (length (tasks st))
                (create_task (ProgressUpdates
                   (mkTicker TStart jr (r_client r) (first_progress research_ticker)
                             research_ticker)) st)) as (Ht & Hj & Hc & Hn & _).
    rewrite Ht, Hj, Hc, Hn. simpl. repeat split; try lia; try tauto.
    + congruence.
    + eexists. split; [reflexivity|]. constructor; [|constructor].
      apply task_writes_no_job. simpl. exact Hr.
  - destruct (raised o) as [msg|]; [apply frame_update; simpl; auto|].
    destruct (r_job r) as [jr|] eqn:Hjr; [|apply frame_refl; exact I].
    simpl. apply frame_update; simpl; congruence.
  - destruct (raised o) as [msg|]; [apply frame_update; simpl; auto|].
    destruct (r_job r) as [jr|] eqn:Hjr; [|apply frame_refl; exact I].
    simpl.
    assert (F : forall st0, frame j st st0 None ->
                frame j st (update_job (set_progress 70) r st0)
                      (Some (RunResearch (mkRunner RCollected (r_client r) (r_prompt r)
                         (r_requested r) (r_output_file r) (Some jr) (chunks o)
                         (responses o) "")))).
    { intros st0 (F1 & F2 & _ & F4 & F5).
      destruct (update_job_fields (set_progress 70) r st0) as (Ht & Hc & Hn & _).
      unfold frame. rewrite Ht, Hc, Hn. repeat split; try assumption.
      rewrite update_job_frame by congruence. exact F1. }
    destruct (chunks o); [apply F, frame_refl; exact I|].
    destruct (live st o (r_client r)); [|apply F, frame_refl; exact I].
    apply F, frame_update; [congruence|exact I].
  - destruct (raised o) as [msg|]; [apply frame_update; simpl; auto|].
    destruct (r_job r) as [jr|] eqn:Hjr; [|apply frame_refl; exact I].
    simpl. destruct (bind _ _) as [text|e]; simpl.
    + apply frame_update; simpl; congruence.
    + apply frame_update; simpl; [congruence|exact I].
  - destruct (raised o) as [msg|]; [apply frame_update; simpl; auto|].
    destruct (r_job r) as [jr|] eqn:Hjr; [|apply frame_refl; exact I].
    simpl. unfold frame, update_job. rewrite Hjr. simpl. repeat split; try lia.
    + apply lookup_alter_ne. congruence.
    + congruence.
    + exists []. rewrite app_nil_r. split; [reflexivity|constructor].
    + apply store_completed_absent. congruence.
  - destruct (raised o) as [msg|]; [apply frame_update; simpl; auto|].
    destruct (r_job r) as [jr|] eqn:Hjr; apply frame_refl; exact I.
Qed.

Lemma silent_imap_cancel j (owned : list nat) ts :
  silent j ts ->
  silent j (imap (fun t tk => if bool_decide (t ∈ owned) then cancel tk else tk) ts).
Proof.
  intros H. apply Forall_lookup. intros i tk Hi.
  rewrite list_lookup_imap in Hi.
  destruct (ts !! i) as [tk0|] eqn:E; [|discriminate].
  injection Hi as <-. pose proof (proj1 (Forall_lookup _ _) H i tk0 E) as H0.
  simpl in H0. destruct (bool_decide _); [apply cancel_silent|]; assumption.
Qed.

Lemma frame_kept j st st' t c' :
  quiet st j -> (t < length (tasks st))%nat ->
  frame j st st' (Some c') \/ frame j st st' None ->
  forall s', (s' = Pending -> frame j st st' (Some c')) ->
  kept j st (with_tasks (<[t := mkTask c' s']> (tasks st')) st').
Proof.
  intros [Hlt Hs] Ht Hf s' Hs'.
  assert (F : frame j st st' None).
  { destruct Hf as [(F1 & F2 & _ & F4 & F5)|F]; [|exact F].
    repeat split; assumption. }
  destruct F as (F1 & F2 & _ & (extra & Hx & Hsx) & F5).
  split; [|split; assumption].
  split; [simpl; lia|]. simpl. rewrite Hx.
  apply Forall_insert; [apply Forall_app; split; assumption|].
  destruct s'; [|apply task_writes_done; discriminate..].
  destruct (Hs' eq_refl) as (_ & _ & Hc & _).
  apply task_writes_no_job, Hc.
Qed.

Lemma step_kept j st ev : quiet st j -> kept j st (step st ev).
Proof.
  intros Hq. pose proof Hq as [Hlt Hs].
  assert (Hrefl : forall st', tasks st' = tasks st -> next_job st' = next_job st ->
            research_jobs st' = research_jobs st ->
            completed_research st' = completed_research st -> kept j st st').
  { intros st' H1 H2 H3 H4. unfold kept, quiet. rewrite H1, H2, H3, H4. tauto. }
  assert (Hadd : forall st' c, tasks st' = tasks st ++ [mkTask c Pending] ->
            co_job c <> Some j -> next_job st' = next_job st ->
            research_jobs st' = research_jobs st ->
            completed_research st' = completed_research st -> kept j st st').
  { intros st' c H1 Hc H2 H3 H4. unfold kept, quiet. rewrite H1, H2, H3, H4.
    repeat split; try tauto.
    apply Forall_app. split; [assumption|]. constructor; [|constructor].
    apply task_writes_no_job, Hc. }
  destruct ev as [c|c ws|c prompt out|c prompt out|c|t o|path]; simpl.
  - unfold ws_connect. destruct (websocket_tasks st !! c); apply Hrefl; reflexivity.
  - unfold ws_accepted.
    destruct (track_tasks c (length (tasks st)) (create_task (SendPing c) st))
      as (H1 & H2 & H3 & H4 & _).
    eapply (Hadd _ (SendPing c)); simpl; try assumption; discriminate.
  - unfold ws_research_request.
    match goal with |- kept _ _ (track _ _ (create_task ?co _)) =>
      destruct (track_tasks c (length (tasks st)) (create_task co st))
        as (H1 & H2 & H3 & H4 & _);
      eapply (Hadd _ co); simpl; try assumption; discriminate
    end.
  - unfold create_research.
    match goal with |- kept _ _ (create_task ?co _) =>
      eapply (Hadd _ co); simpl; try reflexivity; discriminate
    end.
  - unfold ws_close. simpl.
    destruct (websocket_tasks st !! c) as [owned|]; [|apply Hrefl; reflexivity].
    unfold kept, quiet. simpl. repeat split; try tauto.
    apply silent_imap_cancel, Hs.
  - unfold Server.resume.
    destruct (tasks st !! t) as [[c s]|] eqn:Ht; [|apply Hrefl; reflexivity].
    destruct s; try (apply Hrefl; reflexivity).
    assert (Hc : co_job c <> Some j).
    { apply task_writes_pending.
      exact (proj1 (Forall_lookup _ _) Hs t _ Ht). }
    assert (Htl : (t < length (tasks st))%nat) by (eapply lookup_lt_Some; eassumption).
    destruct c as [r|k|c].
    + pose proof (runner_resume_frame o r st j Hlt Hc) as F.
      destruct (runner_resume o r st) as [[r'|] st']; simpl in F.
      * apply frame_kept; auto.
      * apply frame_kept; auto; discriminate.
    + destruct (ticker_resume (live st o (t_client k)) o k (research_jobs st))
        as [k' jobs'] eqn:E.
      assert (F : forall c', co_job c' = Some (t_job k) ->
                frame j st (with_jobs jobs' st) (Some c')).
      { intros c' Hc'. unfold frame. simpl. repeat split; try lia; try tauto.
        - destruct (ticker_resume_guarded _ _ _ _ _ _ E) as [->|(j0 & _ & _ & ->)];
            [reflexivity|]. apply lookup_insert_ne. simpl in Hc. congruence.
        - simpl in Hc. congruence.
        - exists []. rewrite app_nil_r. split; [reflexivity|constructor]. }
      destruct k' as [k'|].
      * apply (frame_kept j st (with_jobs jobs' st) t (ProgressUpdates k')); auto.
        -- left. apply F. simpl. f_equal. eapply ticker_resume_job, E.
        -- intros _. apply F. simpl. f_equal. eapply ticker_resume_job, E.
      * apply (frame_kept j st (with_jobs jobs' st) t (ProgressUpdates k)); auto;
          try discriminate.
    + assert (K : forall s', s' <> Pending ->
                kept j st (with_tasks (<[t := mkTask (SendPing c) s']> (tasks st)) st)).
      { intros s' Hs'. apply (frame_kept j st st t (SendPing c)); auto.
        - right. apply frame_refl. exact I.
        - intros ->. congruence. }
      destruct (raised o); [apply K; discriminate|].
      destruct (connected o); [apply Hrefl; reflexivity|apply K; discriminate].
  - apply Hrefl; reflexivity.
Qed.

Lemma run_kept j evs st : quiet st j -> kept j st (run evs st).
Proof.
  revert st. induction evs as [|ev evs IH]; intros st Hq.
  - unfold kept. simpl. tauto.
  - change (kept j st (run evs (step st ev))).
    destruct (step_kept j st ev Hq) as (Hq1 & Hj1 & Hc1).
    destruct (IH _ Hq1) as (Hq2 & Hj2 & Hc2).
    unfold kept. rewrite Hj2, Hj1. auto.
Qed.

Lemma cancel_not_writing j tk : task_writes j (cancel tk) = false.
Proof.
  unfold cancel. destruct tk as [c s]. destruct s; simpl;
    apply task_writes_done; discriminate.
Qed.

Lemma owns_writers_lookup (owned : list nat) j ts t tk :
  owns_writers owned j ts = true -> ts !! t = Some tk ->
  task_writes j tk = false \/ t ∈ owned.
Proof.
  unfold owns_writers. rewrite forallb_forall. intros H Ht.
  specialize (H (t, tk)). simpl in H.
  assert (Hin : In (t, tk) (imap pair ts)).
  { apply list_elem_of_In, elem_of_lookup_imap. eauto. }
  specialize (H Hin). apply orb_true_iff in H. destruct H as [H|H].
  - left. apply negb_true_iff, H.
  - right. apply bool_decide_eq_true_1 in H. exact H.
Qed.

Lemma ws_close_quiet st c owned j :
  websocket_tasks st !! c = Some owned ->
  (j < next_job st)%nat ->
  owns_writers owned j (tasks st) = true ->
  quiet (ws_close c st) j.
Proof.
  intros Hc Hlt Ho. unfold ws_close. simpl. rewrite Hc. split; [exact Hlt|].
  simpl. apply Forall_lookup. intros t tk Ht.
  rewrite list_lookup_imap in Ht.
  destruct (tasks st !! t) as [tk0|] eqn:E; [|discriminate].
  injection Ht as <-.
  destruct (bool_decide (t ∈ owned)) eqn:B; [apply cancel_not_writing|].
  destruct (owns_writers_lookup _ _ _ _ _ Ho E) as [H|H]; [exact H|].
  apply bool_decide_eq_false_1 in B. contradiction.
Qed.


End Dynamics.

(** ** Worked instances *)



Lemma ticker_writes_guarded_witness :
  tasks done_state !! 2%nat = Some (mkTask (ProgressUpdates idle_ticker) Pending)
  /\ research_jobs done_state !! t_job idle_ticker = Some done_job
  /\ terminal done_job
  /\ research_jobs
       (resume sample_str sample_blank (fun p => p) sample_report_name
               sample_exn_text 2%nat calm done_state)
     = research_jobs done_state.
Proof.
  assert (H1 : tasks done_state !! 2%nat
               = Some (mkTask (ProgressUpdates idle_ticker) Pending))
    by (vm_compute; reflexivity).
  assert (H2 : research_jobs done_state !! t_job idle_ticker = Some done_job)
    by (vm_compute; reflexivity).
  assert (H3 : terminal done_job) by (left; reflexivity).
  split; [exact H1|]. split; [exact H2|]. split; [exact H3|].
  exact (proj1 (ticker_writes_guarded sample_str sample_blank (fun p => p)
                  sample_report_name sample_exn_text done_state 2%nat
                  idle_ticker done_job calm H1 H2 H3)).
Defined.

(** ** Inputs on which the code departs from the specification *)




End ServerFacts.

(** * Further properties of the analytics worker *)
Module WorkerExtra.
Import Worker WorkerFacts WorkerMore.

Section LongFormMore.
Variable parse_int : string -> option Z.
Variable parse_float : string -> option Q.
Variable cast_long_rows : list (list (string * pyval)) -> result (list Sample).

Local Abbreviation record_ts := (record_ts parse_int).
Local Abbreviation wide_rows := (wide_rows parse_int parse_float).
Local Abbreviation record_rows := (record_rows parse_float).
Local Abbreviation field_rows := (field_rows parse_float).
Local Abbreviation py_float := (py_float parse_float).
Local Abbreviation to_long_form := (to_long_form parse_int parse_float cast_long_rows).
Local Abbreviation build_frame := (build_frame parse_int parse_float cast_long_rows).

Lemma field_rows_In t key v s :
  In s (field_rows t key v) ->
  s = mkSample t key (value s) /\ reserved key = false /\ v <> PNone
  /\ py_float v = Ok (value s).
Proof.
  unfold Worker.field_rows. destruct (reserved key); [intros []|].
  destruct (Worker.py_float parse_float v) as [fv|e] eqn:E; destruct v;
    try solve [intros []];
    intros [<-|[]]; simpl;
    (split; [reflexivity|split; [reflexivity|split; [discriminate|first [exact E|reflexivity]]]]).
Qed.

Lemma record_rows_In t r s :
  In s (record_rows t r) ->
  ts s = t /\ reserved (pid s) = false
  /\ exists v, In (pid s, v) r /\ v <> PNone /\ py_float v = Ok (value s).
Proof.
  induction r as [|[key v] r IH]; simpl; [intros []|].
  intros H. apply in_app_or in H. destruct H as [H|H].
  - apply field_rows_In in H. destruct H as (E & Hres & Hv & Hf).
    rewrite E. simpl. split; [reflexivity|]. split; [exact Hres|].
    exists v. split; [left; reflexivity|]. split; [exact Hv|exact Hf].
  - destruct (IH H) as (Ht & Hres & v' & Hin & Hv & Hf).
    split; [exact Ht|]. split; [exact Hres|].
    exists v'. split; [right; exact Hin|]. split; [exact Hv|exact Hf].
Qed.

(** X1.  Every sample that the wide path of [to_long_form] emits comes
    from one field of one record: it carries that record's timestamp,
    which is not 0, the field's key, which is not reserved, and the
    [float] of the field's value, which is not null. *)
Theorem wide_rows_sound records long_rows :
  wide_rows records = Ok long_rows ->
  forall s, In s long_rows ->
    ts s <> 0 /\ reserved (pid s) = false
    /\ exists r v, In r records /\ record_ts r = Ok (ts s)
         /\ In (pid s, v) r /\ v <> PNone /\ py_float v = Ok (value s).
Proof.
  revert long_rows. induction records as [|r records IH]; intros long_rows; simpl.
  - intros [= <-] s [].
  - destruct (record_ts r) as [t|e] eqn:Et; simpl; [|discriminate].
    destruct (Z.eqb_spec t 0) as [->|Hne].
    + intros H s Hs. destruct (IH _ H s Hs) as (H1 & H2 & r' & v & Hr & Hrest).
      split; [exact H1|]. split; [exact H2|].
      exists r', v. split; [right; exact Hr|exact Hrest].
    + destruct (wide_rows records) as [rest|e] eqn:Er; simpl; [|discriminate].
      intros [= <-] s Hs. apply in_app_or in Hs. destruct Hs as [Hs|Hs].
      * apply record_rows_In in Hs. destruct Hs as (Ht & Hres & v & Hin & Hv & Hf).
        subst t. split; [exact Hne|]. split; [exact Hres|].
        exists r, v. split; [left; reflexivity|]. split; [exact Et|].
        split; [exact Hin|]. split; [exact Hv|exact Hf].
      * destruct (IH _ eq_refl s Hs) as (H1 & H2 & r' & v & Hr & Hrest).
        split; [exact H1|]. split; [exact H2|].
        exists r', v. split; [right; exact Hr|exact Hrest].
Qed.


Lemma wide_rows_all_skipped records :
  Forall (fun r => record_ts r = Ok 0) records -> wide_rows records = Ok [].
Proof.
  induction 1 as [|r records Hr _ IH]; simpl; [reflexivity|].
  rewrite Hr. simpl. exact IH.
Qed.

(** X3.  When no record of the input has a timestamp other than 0 (or
    there is no record at all), [build_pack] raises [RuntimeError] and
    builds no frame. *)
Theorem build_frame_no_timestamp raw :
  is_long_form (hd [] raw) = false ->
  Forall (fun r => record_ts r = Ok 0) raw ->
  build_frame raw = Raise RuntimeError.
Proof.
  intros Hw Hall. unfold WorkerMore.build_frame.
  destruct raw as [|r raw]; [reflexivity|].
  unfold Worker.to_long_form. simpl in Hw. rewrite Hw.
  rewrite (wide_rows_all_skipped _ Hall). reflexivity.
Qed.

End LongFormMore.

(** ** The shape of the frames *)

Lemma zsort_uniq_length l : (length (zsort_uniq l) <= length l)%nat.
Proof.
  assert (Hi : forall x l, (length (zinsert x l) <= S (length l))%nat).
  { intros x l0. induction l0 as [|y l0 IH]; simpl; [lia|].
    destruct (x <? y); [simpl; lia|]. destruct (x =? y); simpl; lia. }
  induction l as [|x l IH]; simpl; [lia|].
  pose proof (Hi x (zsort_uniq l)). lia.
Qed.

Lemma first_seen_length seen l : (length (first_seen seen l) <= length l)%nat.
Proof.
  revert seen. induction l as [|x l IH]; intros seen; simpl; [lia|].
  destruct (existsb (String.eqb x) seen); [pose proof (IH seen); lia|].
  simpl. pose proof (IH (x :: seen)). lia.
Qed.

Lemma mean_opt_None l : mean_opt l = None <-> l = [].
Proof. destruct l; simpl; split; (discriminate || reflexivity). Qed.


Lemma downsample_columns w : columns (downsample w) = columns w.
Proof. unfold downsample. destruct (0 <? height w)%nat; reflexivity. Qed.

Lemma keys_sorted_id l : StronglySorted Z.lt l -> zsort_uniq l = l.
Proof.
  induction 1 as [|x l Hs IH Hall]; [reflexivity|].
  simpl. rewrite IH. destruct l as [|y l']; [reflexivity|].
  apply Forall_inv in Hall. simpl. apply Z.ltb_lt in Hall. rewrite Hall. reflexivity.
Qed.

Lemma sec_of_start k : sec_of (k * 1000) = k.
Proof. unfold sec_of. apply Z.div_mul. lia. Qed.

Lemma bucket_keyed (f : Z -> list (option Q)) keys k :
  List.NoDup keys -> In k keys ->
  bucket_rows (map (fun k' => (k' * 1000, f k')) keys) k = [(k * 1000, f k)].
Proof.
  unfold bucket_rows.
  induction 1 as [|k' keys Hnin Hnd IH]; simpl; [tauto|].
  intros [->|Hin].
  - rewrite filter_cons_True by (simpl; apply sec_of_start). f_equal.
    clear IH Hnd. induction keys as [|k2 keys IH2]; [reflexivity|].
    simpl. rewrite filter_cons_False.
    + apply IH2. simpl in Hnin. tauto.
    + simpl. rewrite sec_of_start. simpl in Hnin. intros E. apply Hnin. left. exact E.
  - rewrite filter_cons_False.
    + apply IH, Hin.
    + simpl. rewrite sec_of_start. intros E. subst. tauto.
Qed.

Lemma mean_of_mean l : mean_opt (non_null [mean_opt l]) = mean_opt l.
Proof.
  destruct l as [|x l]; [reflexivity|].
  change (mean_opt (non_null [mean_opt (x :: l)]))
    with (Some (qmean [qmean (x :: l)])).
  change (mean_opt (x :: l)) with (Some (qmean (x :: l))). f_equal.
  set (y := (qsum (x :: l) / inject_Z (Z.of_nat (length (x :: l))))%Q).
  change (qmean (x :: l)) with (Qred y).
  unfold qmean. apply Qred_complete.
  change (qsum [Qred y]) with (Qred y + 0)%Q.
  change (inject_Z (Z.of_nat (length [Qred y]))) with 1%Q.
  rewrite Qplus_0_r. unfold Qdiv. change (/ 1)%Q with 1%Q.
  rewrite Qmult_1_r. apply Qred_correct.
Qed.

(** X5.  Downsampling a frame that is already downsampled changes
    nothing: a second pass over the 1 Hz frame returns the same frame. *)
Theorem downsample_idempotent w : downsample (downsample w) = downsample w.
Proof.
  destruct (rows w) as [|r0 rs] eqn:Erows.
  { assert (E : downsample w = w)
      by (unfold downsample, height; rewrite Erows; reflexivity).
    rewrite E. exact E. }
  assert (Hne : rows w <> []) by congruence.
  set (keys := zsort_uniq (map (fun r => sec_of (fst r)) (rows w))).
  set (f := fun k => cell_means (sec_group w k)).
  assert (Hrows : rows (downsample w) = map (fun k => (k * 1000, f k)) keys)
    by (apply downsample_rows, Hne).
  assert (Hsorted : StronglySorted Z.lt keys) by apply zsort_uniq_sorted.
  assert (Hkeys : keys <> []).
  { intros E. assert (Hin : In (sec_of (fst r0)) keys).
    { apply zsort_uniq_In. rewrite Erows. left. reflexivity. }
    rewrite E in Hin. exact Hin. }
  assert (Hne' : rows (downsample w) <> []).
  { rewrite Hrows. destruct keys; [congruence|discriminate]. }
  assert (Heta : forall a b : Wide,
            columns a = columns b -> rows a = rows b -> a = b)
    by (intros [] []; simpl; congruence).
  apply Heta; [rewrite !downsample_columns; reflexivity|].
  rewrite (downsample_rows _ Hne').
  assert (Hk2 : zsort_uniq (map (fun r => sec_of (fst r)) (rows (downsample w))) = keys).
  { rewrite Hrows, map_map. simpl.
    rewrite (map_ext _ (fun k => k) (fun k => sec_of_start k)), map_id.
    apply keys_sorted_id, Hsorted. }
  rewrite Hk2, Hrows. apply map_ext_in. intros k Hk. f_equal.
  unfold sec_group at 1. cbn [cell_means]. rewrite downsample_columns.
  rewrite Hrows, (bucket_keyed f keys k (sorted_lt_NoDup _ Hsorted) Hk).
  unfold f at 2. unfold sec_group. cbn [cell_means].
  apply map_ext_in. intros i Hi. apply in_seq in Hi.
  unfold column_at at 1. cbn [map snd]. unfold f, sec_group. cbn [cell_means].
  rewrite nth_seq_map by lia. apply mean_of_mean.
Qed.

Lemma starts_sorted keys :
  StronglySorted Z.lt keys -> StronglySorted Z.lt (map (fun k => k * 1000) keys).
Proof.
  induction 1 as [|k l Hs IH Hall]; simpl; constructor; [exact IH|].
  apply List.Forall_forall. intros x Hx. apply in_map_iff in Hx.
  destruct Hx as [k' [<- Hk']]. rewrite List.Forall_forall in Hall.
  specialize (Hall _ Hk'). lia.
Qed.

Lemma downsample_times w :
  rows w <> [] ->
  StronglySorted Z.lt (map fst (rows (downsample w)))
  /\ Forall (fun o => fst o mod 1000 = 0) (rows (downsample w))
  /\ (0 < height (downsample w))%nat.
Proof.
  intros Hne.
  set (keys := zsort_uniq (map (fun r => sec_of (fst r)) (rows w))).
  assert (Hrows : rows (downsample w)
                  = map (fun k => (k * 1000, cell_means (sec_group w k))) keys)
    by (apply downsample_rows, Hne).
  split.
  { rewrite Hrows, map_map. simpl. apply starts_sorted, zsort_uniq_sorted. }
  split.
  { rewrite Hrows. apply List.Forall_forall. intros o Ho.
    apply in_map_iff in Ho. destruct Ho as [k [<- _]]. simpl.
    apply Z.mod_mul. lia. }
  unfold height. rewrite Hrows, length_map.
  destruct keys as [|k keys'] eqn:E; [|simpl; lia].
  destruct (rows w) as [|r0 rs] eqn:Erows; [congruence|].
  assert (Hin : In (sec_of (fst r0)) keys).
  { apply zsort_uniq_In. left. reflexivity. }
  rewrite E in Hin. destruct Hin.
Qed.


Lemma non_null_nil c : non_null c = [] <-> forall x, In x c -> x = None.
Proof.
  induction c as [|[q|] c IH]; simpl.
  - split; [intros _ x []|reflexivity].
  - split; [discriminate|]. intros H. specialize (H (Some q) (or_introl eq_refl)).
    discriminate.
  - rewrite IH. split.
    + intros H x [<-|Hx]; [reflexivity|apply H, Hx].
    + intros H x Hx. apply H. right. exact Hx.
Qed.

(** X7.  A cell of the downsampled frame is null exactly when every row
    of its 1-second bucket is null in that column: the mean ignores
    nulls, so one reading in the bucket is enough for a value. *)
Theorem downsample_null_cell w o i :
  In o (rows (downsample w)) ->
  (i < length (columns w))%nat ->
  (nth i (snd o) None = None <->
   forall r, In r (rows w) -> sec_of (fst r) * 1000 = fst o ->
             nth i (snd r) None = None).
Proof.
  intros Ho Hi.
  assert (Hne : rows w <> []).
  { intros E. unfold downsample, height in Ho. rewrite E in Ho. simpl in Ho.
    rewrite E in Ho. exact Ho. }
  rewrite (downsample_rows w Hne) in Ho.
  apply in_map_iff in Ho. destruct Ho as [k [<- Hk]]. simpl.
  rewrite nth_seq_map by exact Hi. rewrite mean_opt_None, non_null_nil.
  split.
  - intros H r Hr Hsec. apply H. apply column_at_In.
    unfold bucket_rows. apply list_elem_of_In, list_elem_of_filter.
    split; [lia|apply list_elem_of_In, Hr].
  - intros H x Hx. unfold column_at in Hx. apply in_map_iff in Hx.
    destruct Hx as [r [<- Hr]]. unfold bucket_rows in Hr.
    apply list_elem_of_In, list_elem_of_filter in Hr. destruct Hr as [Hs Hr].
    apply H; [apply list_elem_of_In, Hr|]. rewrite Hs. reflexivity.
Qed.

(** ** The values and the keys of the summary *)

Lemma dict_get_set_other {V} (d : list (string * V)) k v key :
  key <> k -> dict_get (dict_set d k v) key = dict_get d key.
Proof.
  intros Hne. induction d as [|[k' v'] d IH]; simpl.
  - destruct (decide (k = key)); [congruence|reflexivity].
  - destruct (decide (k' = k)) as [->|Hk]; simpl.
    + destruct (decide (k = key)); [congruence|reflexivity].
    + destruct (decide (k' = key)); [reflexivity|exact IH].
Qed.

Lemma dict_get_set_same {V} (d : list (string * V)) k v :
  dict_get (dict_set d k v) k = Some v.
Proof.
  induction d as [|[k' v'] d IH]; simpl.
  - destruct (decide (k = k)); [reflexivity|congruence].
  - destruct (decide (k' = k)) as [->|Hk]; simpl.
    + destruct (decide (k = k)); [reflexivity|congruence].
    + destruct (decide (k' = k)); [congruence|exact IH].
Qed.

Lemma fold_min_spec l x :
  In (fold_left Z.min l x) (x :: l)
  /\ forall y, In y (x :: l) -> fold_left Z.min l x <= y.
Proof.
  revert x. induction l as [|a l IH]; intros x; simpl.
  - split; [left; reflexivity|]. intros y [<-|[]]. lia.
  - destruct (IH (Z.min x a)) as [Hin Hle]. split.
    + destruct Hin as [E|Hin]; [|right; right; exact Hin].
      rewrite <- E. destruct (Z.min_spec x a) as [[_ ->]|[_ ->]]; [left|right; left]; reflexivity.
    + intros y [<-|[<-|Hy]].
      * specialize (Hle (Z.min x a) (or_introl eq_refl)). lia.
      * specialize (Hle (Z.min x a) (or_introl eq_refl)). lia.
      * apply Hle. right. exact Hy.
Qed.

Lemma fold_max_spec l x :
  In (fold_left Z.max l x) (x :: l)
  /\ forall y, In y (x :: l) -> y <= fold_left Z.max l x.
Proof.
  revert x. induction l as [|a l IH]; intros x; simpl.
  - split; [left; reflexivity|]. intros y [<-|[]]. lia.
  - destruct (IH (Z.max x a)) as [Hin Hle]. split.
    + destruct Hin as [E|Hin]; [|right; right; exact Hin].
      rewrite <- E. destruct (Z.max_spec x a) as [[_ ->]|[_ ->]]; [right; left|left]; reflexivity.
    + intros y [<-|[<-|Hy]].
      * specialize (Hle (Z.max x a) (or_introl eq_refl)). lia.
      * specialize (Hle (Z.max x a) (or_introl eq_refl)). lia.
      * apply Hle. right. exact Hy.
Qed.

Ltac keep_key Hkey :=
  rewrite ?dict_get_set_other
    by (intros ->; apply Hkey; simpl;
        repeat (first [left; reflexivity | right])); reflexivity.

Section KpiMore.
Variable std : list Q -> option Q.

Lemma rpm_kpis_keeps w kpis k' key :
  rpm_kpis std w kpis = Ok k' -> ~ In key rpm_names ->
  dict_get k' key = dict_get kpis key.
Proof.
  unfold rpm_kpis. intros H Hkey.
  destruct (has_col w "rpm"); [|injection H as <-; reflexivity].
  ok_inv H. destruct (mask_any (idle_mask (get_column w "rpm"))).
  - ok_inv H. subst k'. keep_key Hkey.
  - ok_inv H. subst k'. keep_key Hkey.
Qed.

Lemma temp_kpis_keeps w kpis k' key :
  temp_kpis w kpis = Ok k' -> ~ In key temp_names ->
  dict_get k' key = dict_get kpis key.
Proof.
  unfold temp_kpis. intros H Hkey.
  destruct (has_col w "engineTemp"); [|injection H as <-; reflexivity].
  ok_inv H. subst k'. keep_key Hkey.
Qed.

Lemma speed_kpis_keeps w kpis k' key :
  speed_kpis w kpis = Ok k' -> ~ In key speed_names ->
  dict_get k' key = dict_get kpis key.
Proof.
  unfold speed_kpis. intros H Hkey.
  destruct (has_col w "speed"); [|injection H as <-; reflexivity].
  ok_inv H. subst k'. keep_key Hkey.
Qed.

Lemma trim_kpis_keeps w kpis k' key :
  trim_kpis w kpis = Ok k' -> ~ In key (stft_names ++ ltft_names) ->
  dict_get k' key = dict_get kpis key.
Proof.
  unfold trim_kpis. intros H Hkey.
  apply bind_ok in H. destruct H as [k1 [H1 H]].
  assert (E1 : dict_get k1 key = dict_get kpis key).
  { destruct (has_col w "shortTermFuelTrim"); [|injection H1 as <-; reflexivity].
    ok_inv H1. subst k1. keep_key Hkey. }
  rewrite <- E1.
  destruct (has_col w "longTermFuelTrim"); [|injection H as <-; reflexivity].
  ok_inv H. subst k'. keep_key Hkey.
Qed.

Lemma meta_kpis_keeps meta kpis key :
  ~ In key session_names ->
  dict_get (meta_kpis meta kpis) key = dict_get kpis key.
Proof.
  intros Hkey. unfold meta_kpis. destruct meta; [reflexivity|]. keep_key Hkey.
Qed.

(** A key that only the base block or only the [rpm] block files keeps
    the value filed there through the later blocks. *)
Lemma later_blocks_keep w meta k2 k key :
  (try! kpis := temp_kpis w k2 in
   try! kpis := speed_kpis w kpis in
   try! kpis := trim_kpis w kpis in
   Ok (meta_kpis meta kpis)) = Ok k ->
  In key (base_names ++ rpm_names) ->
  dict_get k key = dict_get k2 key.
Proof.
  intros H Hkey.
  apply bind_ok in H. destruct H as [k3 [H3 H]].
  apply bind_ok in H. destruct H as [k4 [H4 H]].
  apply bind_ok in H. destruct H as [k5 [H5 H]].
  injection H as <-.
  assert (Hfresh : ~ In key temp_names /\ ~ In key speed_names
                   /\ ~ In key (stft_names ++ ltft_names) /\ ~ In key session_names).
  { simpl in Hkey.
    repeat (destruct Hkey as [<-|Hkey];
            [repeat split; simpl; intros F;
             repeat (destruct F as [F|F]; [discriminate F|]); exact F|]).
    destruct Hkey. }
  destruct Hfresh as (F3 & F4 & F5 & F6).
  rewrite (meta_kpis_keeps _ _ _ F6), (trim_kpis_keeps _ _ _ _ H5 F5),
    (speed_kpis_keeps _ _ _ _ H4 F4), (temp_kpis_keeps _ _ _ _ H3 F3).
  reflexivity.
Qed.


Lemma trim_kpis_key_iff w kpis k' :
  trim_kpis w kpis = Ok k' ->
  forall key, In key (dict_keys k') <->
    In key (dict_keys kpis)
    \/ (has_col w "shortTermFuelTrim" = true /\ In key stft_names)
    \/ (has_col w "longTermFuelTrim" = true /\ In key ltft_names).
Proof.
  unfold trim_kpis. intros H key.
  apply bind_ok in H. destruct H as [k1 [H1 H]].
  assert (Hk1 : In key (dict_keys k1) <->
                In key (dict_keys kpis)
                \/ (has_col w "shortTermFuelTrim" = true /\ In key stft_names)).
  { destruct (has_col w "shortTermFuelTrim");
      [|injection H1 as <-; intuition discriminate].
    ok_inv H1. subst k1. rewrite !dict_keys_set. simpl. intuition. }
  destruct (has_col w "longTermFuelTrim").
  - ok_inv H. subst k'. rewrite !dict_keys_set, Hk1. simpl. intuition.
  - injection H as <-. rewrite Hk1. intuition discriminate.
Qed.

(** The keys of the summary, block by block. *)
Lemma kpi_summary_key_iff w meta k :
  kpi_summary std w meta = Ok k ->
  forall key, In key (dict_keys k) <->
    In key base_names
    \/ rpm_keyed w key
    \/ (has_col w "engineTemp" = true /\ In key temp_names)
    \/ (has_col w "speed" = true /\ In key speed_names)
    \/ (has_col w "shortTermFuelTrim" = true /\ In key stft_names)
    \/ (has_col w "longTermFuelTrim" = true /\ In key ltft_names)
    \/ (meta <> [] /\ In key session_names).
Proof.
  unfold kpi_summary. intros H key.
  apply bind_ok in H. destruct H as [k1 [H1 H]].
  apply bind_ok in H. destruct H as [k2 [H2 H]].
  apply bind_ok in H. destruct H as [k3 [H3 H]].
  apply bind_ok in H. destruct H as [k4 [H4 H]].
  apply bind_ok in H. destruct H as [k5 [H5 H]].
  injection H as <-. injection H1 as <-.
  pose proof (rpm_kpis_keys std w _ _ H2 key) as R2.
  pose proof (temp_kpis_keys w _ _ H3 key) as R3.
  pose proof (speed_kpis_keys w _ _ H4 key) as R4.
  pose proof (trim_kpis_key_iff w _ _ H5 key) as R5.
  pose proof (meta_kpis_keys meta k5 key) as R6.
  fold (rpm_keyed w key) in R2.
  change (dict_keys _) with base_names in R2 at 2.
  fold temp_names in R3. fold speed_names in R4. fold session_names in R6.
  rewrite R6, R5, R4, R3, R2. clear.
  split; intros H; decompose [or] H; clear H; auto 10.
Qed.

Lemma disjoint_names l l' key :
  forallb (fun k => negb (existsb (String.eqb k) l')) l = true ->
  In key l -> ~ In key l'.
Proof.
  intros E H H'. rewrite forallb_forall in E. specialize (E key H).
  apply negb_true_iff in E.
  assert (T : existsb (String.eqb key) l' = true).
  { apply existsb_exists. exists key. split; [exact H'|apply String.eqb_refl]. }
  congruence.
Qed.

Lemma rpm_keyed_named w key : rpm_keyed w key -> In key rpm_names.
Proof.
  intros [_ [-> | [-> | [-> | [_ [-> | ->]]]]]]; simpl;
    repeat (first [left; exact eq_refl | right]).
Qed.

Ltac same_family F :=
  match type of F with
  | ?P /\ _ => match goal with |- ?G => constr_eq P G; exact (proj1 F) end
  end.

Ltac pick_family F Hk :=
  match type of F with
  | ?P =>
      match goal with
      | |- _ \/ _ \/ (?A /\ _) \/ _ => constr_eq P A; right; right; left
      | |- _ \/ _ \/ _ \/ (?A /\ _) \/ _ =>
          constr_eq P A; right; right; right; left
      | |- _ \/ _ \/ _ \/ _ \/ (?A /\ _) \/ _ =>
          constr_eq P A; right; right; right; right; left
      | |- _ \/ _ \/ _ \/ _ \/ _ \/ (?A /\ _) \/ _ =>
          constr_eq P A; right; right; right; right; right; left
      | |- _ \/ _ \/ _ \/ _ \/ _ \/ _ \/ (?A /\ _) =>
          constr_eq P A; right; right; right; right; right; right
      end
  end; split; [exact F|exact Hk].

Ltac other_family Hk F :=
  exfalso;
  match type of F with
  | _ /\ _ => destruct F as [_ F]
  | _ => idtac
  end;
  match type of Hk with
  | In ?k ?l =>
      match type of F with
      | In k ?l' => exact (disjoint_names l l' k eq_refl Hk F)
      end
  end.

(** X9.  Which keys the summary holds.  The five base keys are always
    there; the coolant keys exactly when the frame has an [engineTemp]
    column, the speed keys exactly with a [speed] column, the [stft_] and
    the [ltft_] keys each exactly with their own fuel-trim column, and the
    three session keys exactly when a session document was found. *)
Theorem kpi_summary_families w meta k :
  kpi_summary std w meta = Ok k ->
  let keys := dict_keys k in
  (forall key, In key base_names -> In key keys)
  /\ (forall key, In key temp_names ->
        (In key keys <-> In "engineTemp" (columns w)))
  /\ (forall key, In key speed_names ->
        (In key keys <-> In "speed" (columns w)))
  /\ (forall key, In key stft_names ->
        (In key keys <-> In "shortTermFuelTrim" (columns w)))
  /\ (forall key, In key ltft_names ->
        (In key keys <-> In "longTermFuelTrim" (columns w)))
  /\ (forall key, In key session_names -> (In key keys <-> meta <> [])).
Proof.
  intros H keys. pose proof (kpi_summary_key_iff w meta k H) as K. unfold keys.
  split; [intros key Hk; apply K; left; exact Hk|].
  split; [|split; [|split; [|split]]]; intros key Hk; rewrite K, <- ?has_col_In;
    (split; [intros [F|[F|[F|[F|[F|[F|F]]]]]]|intros F]);
    try (match type of F with rpm_keyed _ _ => apply rpm_keyed_named in F end);
    first [ same_family F | other_family Hk F | pick_family F Hk ].
Qed.


End KpiMore.

Section BuildMore.
Variable parse_int : string -> option Z.
Variable parse_float : string -> option Q.
Variable cast_long_rows : list (list (string * pyval)) -> result (list Sample).


End BuildMore.

(** ** Worked instances *)

Lemma wide_rows_sound_witness :
  wide_rows sample_parse_int sample_parse_float [snapshot_at_epoch; snapshot]
  = Ok [mkSample 1000 "rpm" (800#1); mkSample 1000 "speed" (25#2)]
  /\ exists r v, In r [snapshot_at_epoch; snapshot]
       /\ record_ts sample_parse_int r = Ok 1000
       /\ In ("speed", v) r /\ v <> PNone
       /\ py_float sample_parse_float v = Ok (25#2)%Q.
Proof.
  assert (H : wide_rows sample_parse_int sample_parse_float
                [snapshot_at_epoch; snapshot]
              = Ok [mkSample 1000 "rpm" (800#1); mkSample 1000 "speed" (25#2)])
    by reflexivity.
  split; [exact H|].
  exact (proj2 (proj2 (wide_rows_sound sample_parse_int sample_parse_float _ _ H
                         (mkSample 1000 "speed" (25#2))
                         (or_intror (or_introl eq_refl))))).
Defined.

Lemma build_frame_no_timestamp_witness :
  Forall (fun r => record_ts sample_parse_int r = Ok 0)
         [snapshot_without_time; snapshot_at_epoch]
  /\ build_frame sample_parse_int sample_parse_float sample_cast
       [snapshot_without_time; snapshot_at_epoch] = Raise RuntimeError.
Proof.
  assert (H1 : is_long_form (hd [] [snapshot_without_time; snapshot_at_epoch]) = false)
    by reflexivity.
  assert (H2 : Forall (fun r => record_ts sample_parse_int r = Ok 0)
                      [snapshot_without_time; snapshot_at_epoch]).
  { constructor; [reflexivity|]. constructor; [reflexivity|]. constructor. }
  split; [exact H2|].
  exact (build_frame_no_timestamp sample_parse_int sample_parse_float sample_cast
           _ H1 H2).
Defined.


Lemma downsample_null_cell_witness :
  In (2000, [Some (1000#1)%Q; None]) (rows (downsample gappy_frame))
  /\ (nth 1 (snd (2000, [Some (1000#1)%Q; None])) None = None <->
      forall r, In r (rows gappy_frame) ->
        sec_of (fst r) * 1000 = fst (2000, [Some (1000#1)%Q; None]) ->
        nth 1 (snd r) None = None).
Proof.
  assert (H1 : In (2000, [Some (1000#1)%Q; None]) (rows (downsample gappy_frame))).
  { vm_compute. right. left. reflexivity. }
  assert (H3 : (1 < length (columns gappy_frame))%nat) by (simpl; lia).
  split; [exact H1|].
  exact (downsample_null_cell gappy_frame _ 1%nat H1 H3).
Defined.


Lemma kpi_summary_families_witness :
  kpi_summary sample_std (downsample (pivot scenario)) [("vehicleId", KStr "v1")]
  = Ok [("rows", KInt 1); ("start", KInt 1000); ("end", KInt 1000);
        ("signals", KStrs ["rpm"]); ("duration_seconds", KInt 0);
        ("rpm_mean", KFloat (2925#1)); ("rpm_max", KFloat (2925#1));
        ("rpm_min", KFloat (2925#1)); ("sessionName", KStr "");
        ("dtcCodes", KStrs []); ("vehicleId", KStr "v1")]
  /\ forall key, In key speed_names ->
       (In key ["rows"; "start"; "end"; "signals"; "duration_seconds";
                "rpm_mean"; "rpm_max"; "rpm_min"; "sessionName"; "dtcCodes";
                "vehicleId"]
        <-> In "speed" (columns (downsample (pivot scenario)))).
Proof.
  assert (H : kpi_summary sample_std (downsample (pivot scenario))
                [("vehicleId", KStr "v1")]
              = Ok [("rows", KInt 1); ("start", KInt 1000); ("end", KInt 1000);
        ("signals", KStrs ["rpm"]); ("duration_seconds", KInt 0);
        ("rpm_mean", KFloat (2925#1)); ("rpm_max", KFloat (2925#1));
        ("rpm_min", KFloat (2925#1)); ("sessionName", KStr "");
        ("dtcCodes", KStrs []); ("vehicleId", KStr "v1")])
    by (vm_compute; reflexivity).
  split; [exact H|].
  exact (proj1 (proj2 (proj2 (kpi_summary_families sample_std _ _ _ H)))).
Defined.



End WorkerExtra.

(** * Further properties of the research server *)
Module ServerExtra.
Import Server ServerFacts ServerMore.

(** ** The completed-research store *)

Section StoreMore.
Context {V : Type}.
Implicit Types (d : list (nat * V)) (k j : nat).

Lemma dict_keys_set_nat d k v j :
  In j (dict_keys (dict_set d k v)) <-> j = k \/ In j (dict_keys d).
Proof.
  unfold dict_keys. induction d as [|[k' v'] d IH]; simpl.
  - intuition congruence.
  - destruct (decide (k' = k)) as [->|Hne]; simpl.
    + intuition congruence.
    + rewrite IH. tauto.
Qed.

Lemma dict_set_NoDup d k v :
  List.NoDup (dict_keys d) -> List.NoDup (dict_keys (dict_set d k v)).
Proof.
  unfold dict_keys. induction d as [|[k' v'] d IH]; simpl; intros H.
  - constructor; [intros []|constructor].
  - inversion H as [|? ? Hn Hd]; subst.
    destruct (decide (k' = k)) as [->|Hne]; simpl.
    + constructor; assumption.
    + constructor; [|apply IH, Hd].
      intros Hin. apply (dict_keys_set_nat d k v k') in Hin.
      destruct Hin as [E|Hin]; [congruence|]. apply Hn, Hin.
Qed.

Lemma dict_keys_del d k j :
  In j (dict_keys (dict_del d k)) -> In j (dict_keys d).
Proof.
  unfold dict_keys. induction d as [|[k' v'] d IH]; simpl; [tauto|].
  destruct (decide (k' = k)); simpl; [tauto|].
  intros [E|H]; [left; exact E|right; apply IH, H].
Qed.

Lemma dict_del_NoDup d k :
  List.NoDup (dict_keys d) -> List.NoDup (dict_keys (dict_del d k)).
Proof.
  unfold dict_keys. induction d as [|[k' v'] d IH]; simpl; intros H;
    [constructor|].
  inversion H as [|? ? Hn Hd]; subst.
  destruct (decide (k' = k)); simpl; [exact Hd|].
  constructor; [|apply IH, Hd]. intros Hin. apply Hn, (dict_keys_del d k), Hin.
Qed.

Lemma dict_get_absent d j : ~ In j (dict_keys d) -> dict_get d j = None.
Proof.
  unfold dict_keys. induction d as [|[k' v'] d IH]; simpl; [reflexivity|].
  intros H. destruct (decide (k' = j)); [tauto|]. apply IH. tauto.
Qed.

Lemma dict_get_del_same d k :
  List.NoDup (dict_keys d) -> dict_get (dict_del d k) k = None.
Proof.
  unfold dict_keys. induction d as [|[k' v'] d IH]; simpl; intros H;
    [reflexivity|].
  inversion H as [|? ? Hn Hd]; subst.
  destruct (decide (k' = k)) as [->|Hne]; simpl.
  - apply dict_get_absent, Hn.
  - destruct (decide (k' = k)); [congruence|]. apply IH, Hd.
Qed.

Lemma dict_get_del_other d k j :
  j <> k -> dict_get (dict_del d k) j = dict_get d j.
Proof.
  intros Hne. induction d as [|[k' v'] d IH]; simpl; [reflexivity|].
  destruct (decide (k' = k)) as [->|Hk]; simpl.
  - destruct (decide (k = j)); [congruence|reflexivity].
  - destruct (decide (k' = j)); [reflexivity|exact IH].
Qed.

End StoreMore.

Lemma store_completed_keys store job_id c j :
  In j (dict_keys (store_completed_research store job_id c)) ->
  j = job_id \/ In j (dict_keys store).
Proof.
  unfold store_completed_research. intros H.
  apply (dict_keys_set_nat store job_id c j).
  destruct (_ <? _)%nat; [|exact H].
  destruct (dict_set store job_id c) as [|x items] eqn:E; [exact H|].
  apply (dict_keys_del _ _ _ H).
Qed.

Lemma store_completed_NoDup store job_id c :
  List.NoDup (dict_keys store) ->
  List.NoDup (dict_keys (store_completed_research store job_id c)).
Proof.
  intros H. unfold store_completed_research.
  pose proof (dict_set_NoDup store job_id c H) as H'.
  destruct (_ <? _)%nat; [|exact H'].
  destruct (dict_set store job_id c) as [|x items] eqn:E; [exact H'|].
  apply dict_del_NoDup, H'.
Qed.

(** X12.  Recording a completed research job: the store never holds
    more than 100 entries and never two under one job id; while there is
    room every entry stays and the new one is found under its id; when the
    store would hold 101, exactly the entry with the least completion time
    is dropped, which can be the new one, and every other entry is still
    found. *)
Theorem store_completed_research_lookup store job_id c :
  List.NoDup (dict_keys store) ->
  (length store <= 100)%nat ->
  let recorded := dict_set store job_id c in
  let store' := store_completed_research store job_id c in
  List.NoDup (dict_keys store') /\ (length store' <= 100)%nat
  /\ dict_get recorded job_id = Some c
  /\ (forall j, j <> job_id -> dict_get recorded j = dict_get store j)
  /\ ((length recorded <= 100)%nat -> store' = recorded)
  /\ ((100 < length recorded)%nat ->
      exists victim,
        In victim recorded
        /\ (forall e, In e recorded ->
              (completion_time (snd victim) <= completion_time (snd e))%Q)
        /\ dict_get store' (fst victim) = None
        /\ forall j, j <> fst victim -> dict_get store' j = dict_get recorded j).
Proof.
  intros Hnd Hlen recorded store'.
  destruct (completed_research_cap store job_id c Hlen) as (Hcap & Hroom & Hfull).
  split; [apply store_completed_NoDup, Hnd|].
  split; [exact Hcap|].
  split; [apply dict_get_set_eq|].
  split; [intros j Hj; apply dict_get_set_ne; congruence|].
  split; [exact Hroom|].
  intros Hover. destruct (Hfull Hover) as (victim & Hin & Hs & _ & Hleast).
  exists victim. split; [exact Hin|]. split; [exact Hleast|].
  fold store' in Hs. fold recorded in Hs. rewrite Hs.
  split; [apply dict_get_del_same, dict_set_NoDup, Hnd|].
  intros j Hj. apply dict_get_del_other, Hj.
Qed.

(** ** The progress ticker *)

Lemma ticker_loop_wf jobs k k' :
  ticker_loop jobs k = Some k' ->
  ticker_wf k' /\ t_cfg k' = t_cfg k /\ t_current k' = t_current k
  /\ t_pc k' = TSleeping.
Proof.
  unfold ticker_loop, ticker_continues.
  destruct (jobs !! t_job k) as [j|]; [|discriminate].
  destruct (is_processing j); [|discriminate]. simpl.
  destruct (Z.ltb_spec (t_current k) (max_progress (t_cfg k))); [|discriminate].
  intros [= <-]. unfold ticker_wf. simpl. auto.
Qed.

Lemma ticker_resume_next is_live o k jobs k' jobs' :
  ticker_wf k ->
  ticker_resume is_live o k jobs = (Some k', jobs') ->
  t_cfg k' = t_cfg k /\ ticker_wf k'
  /\ ((t_pc k <> TSleeping /\ t_pc k' = TSleeping /\ t_current k' = t_current k)
      \/ (t_pc k = TSleeping /\ t_current k < max_progress (t_cfg k)
          /\ t_current k' = t_current k + increment (t_cfg k))).
Proof.
  intros Hwf. unfold ticker_resume. destruct (t_pc k) eqn:Hpc.
  - intros [= E <-]. destruct (ticker_loop_wf _ _ _ E) as (H1 & H2 & H3 & H4).
    split; [exact H2|]. split; [exact H1|]. left. repeat split; [discriminate|..]; assumption.
  - destruct (raised o); [discriminate|].
    destruct (jobs !! t_job k) as [j|]; [|discriminate].
    destruct (is_processing j); [|discriminate].
    destruct is_live.
    + intros [= <- <-]. simpl. split; [reflexivity|].
      split; [unfold ticker_wf; simpl; discriminate|].
      right. repeat split. apply Hwf, Hpc.
    + intros [= E <-]. destruct (ticker_loop_wf _ _ _ E) as (H1 & H2 & H3 & H4).
      simpl in *. split; [exact H2|]. split; [exact H1|].
      right. repeat split; [apply Hwf, Hpc|exact H3].
  - destruct (raised o); [discriminate|].
    intros [= E <-]. destruct (ticker_loop_wf _ _ _ E) as (H1 & H2 & H3 & H4).
    split; [exact H2|]. split; [exact H1|]. left. repeat split; [discriminate|..]; assumption.
Qed.

(** X13.  The progress a ticker writes stays below its ceiling plus one
    increment: a write happens only after the loop test
    [current_progress < max_progress] has held, and it writes
    [current_progress + increment].  So the ticker of a research job never
    writes more than 67, and the one of an analysis job never more than 94. *)
Theorem ticker_progress_bounded is_live o k jobs k' jobs' :
  ticker_wf k ->
  ticker_resume is_live o k jobs = (k', jobs') ->
  (forall j jb', jobs' !! j = Some jb' ->
     jobs !! j = Some jb'
     \/ (j = t_job k
         /\ progress jb' = t_current k + increment (t_cfg k)
         /\ progress jb' < max_progress (t_cfg k) + increment (t_cfg k)))
  /\ (forall k'', k' = Some k'' -> ticker_wf k'' /\ t_cfg k'' = t_cfg k)
  /\ (t_cfg k = research_ticker ->
      forall j jb', jobs' !! j = Some jb' ->
        jobs !! j = Some jb' \/ progress jb' <= 67)
  /\ (t_cfg k = analysis_ticker ->
      forall j jb', jobs' !! j = Some jb' ->
        jobs !! j = Some jb' \/ progress jb' <= 94).
Proof.
  intros Hwf E.
  assert (Hw : forall j jb', jobs' !! j = Some jb' ->
     jobs !! j = Some jb'
     \/ (j = t_job k
         /\ progress jb' = t_current k + increment (t_cfg k)
         /\ progress jb' < max_progress (t_cfg k) + increment (t_cfg k))).
  { intros j jb' Hj. unfold ticker_resume in E. destruct (t_pc k) eqn:Hpc.
    - injection E as _ <-. left. exact Hj.
    - destruct (raised o); [injection E as _ <-; left; exact Hj|].
      destruct (jobs !! t_job k) as [j0|] eqn:Hj0;
        [|injection E as _ <-; left; exact Hj].
      destruct (is_processing j0); [|injection E as _ <-; left; exact Hj].
      assert (Ej : jobs' = <[t_job k := set_progress
                     (t_current k + increment (t_cfg k)) j0]> jobs)
        by (destruct is_live; injection E as _ <-; reflexivity).
      subst jobs'. destruct (decide (j = t_job k)) as [->|Hne].
      + rewrite lookup_insert_eq in Hj. injection Hj as <-. right.
        split; [reflexivity|]. simpl. split; [reflexivity|].
        pose proof (Hwf Hpc). lia.
      + rewrite lookup_insert_ne in Hj by congruence. left. exact Hj.
    - destruct (raised o); injection E as _ <-; left; exact Hj. }
  split; [exact Hw|]. split.
  - intros k'' ->. destruct (ticker_resume_next _ _ _ _ _ _ Hwf E) as (H1 & H2 & _).
    split; assumption.
  - split; intros Hcfg j jb' Hj; destruct (Hw j jb' Hj) as [H|(_ & _ & H)];
      try (left; exact H); right; rewrite Hcfg in H; simpl in H; lia.
Qed.

Lemma ticker_rank_decreases is_live o k jobs k' jobs' :
  ticker_wf k -> 0 < increment (t_cfg k) ->
  ticker_resume is_live o k jobs = (Some k', jobs') ->
  0 <= ticker_rank k' < ticker_rank k.
Proof.
  intros Hwf Hinc E.
  destruct (ticker_resume_next _ _ _ _ _ _ Hwf E) as (Hcfg & Hwf' & Hcase).
  unfold ticker_rank. rewrite Hcfg.
  destruct Hcase as [(Hpc & Hpc' & Hcur)|(Hpc & Hlt & Hcur)].
  - rewrite Hpc', Hcur. destruct (t_pc k); [|congruence|]; lia.
  - rewrite Hpc, Hcur. destruct (t_pc k'); lia.
Qed.

(** X14.  The ticker always returns.  Whatever the other tasks do to the
    registry between its resumptions, and whether or not its client is
    connected, a ticker with a positive increment has returned after at
    most [ticker_rank] resumptions: 52 for the ticker of a research job
    and 162 for the one of an analysis job, counted from their start. *)
Theorem ticker_terminates env k jobs :
  ticker_wf k -> 0 < increment (t_cfg k) ->
  (Z.to_nat (ticker_rank k) <= length env)%nat ->
  fst (ticker_runs env k jobs) = None.
Proof.
  revert k jobs. induction env as [|[[is_live o] others] env IH];
    intros k jobs Hwf Hinc Hlen.
  - simpl in Hlen. exfalso. unfold ticker_rank in Hlen.
    destruct (t_pc k); lia.
  - simpl. destruct (ticker_resume is_live o k jobs) as [[k'|] jobs'] eqn:E;
      [|reflexivity].
    destruct (ticker_resume_next _ _ _ _ _ _ Hwf E) as (Hcfg & Hwf' & _).
    pose proof (ticker_rank_decreases _ _ _ _ _ _ Hwf Hinc E) as Hr.
    apply IH; [exact Hwf'|rewrite Hcfg; exact Hinc|]. simpl in Hlen. lia.
Qed.


(** ** The runner *)

Section RunnerMore.
Variable py_str : pyval -> string.
Variable blank : string -> bool.
Variable abspath : string -> string.
Variable report_name : Q -> string.
Variable exn_text : exn -> string.

Local Abbreviation resume := (resume py_str blank abspath report_name exn_text).
Local Abbreviation runner_resume := (runner_resume py_str blank abspath report_name exn_text).
Local Abbreviation step := (step py_str blank abspath report_name exn_text).
Local Abbreviation run := (run py_str blank abspath report_name exn_text).

Lemma update_job_lookup f r st j jb :
  r_job r = Some j -> research_jobs st !! j = Some jb ->
  research_jobs (update_job f r st) !! j = Some (f jb).
Proof.
  intros Hr Hj. unfold update_job. rewrite Hr. simpl.
  rewrite lookup_alter_eq, Hj. reflexivity.
Qed.

(** X15.  A reply that is not a text fails the job.  When nothing was
    streamed and the extraction yields a value that is no string (the
    value under [response], say, is a number or a list), the check
    [response_text.strip()], or the [len] before it, raises; the runner
    returns, and the handlers mark the job failed with that exception's
    text and the time of the failure. *)
Theorem nonstring_reply_fails_job o r st j jb v :
  r_pc r = RCollected -> r_job r = Some j -> raised o = None ->
  r_full_content r = [] ->
  extract_response py_str (r_responses r) = Ok v ->
  (forall s, v <> PStr s) ->
  research_jobs st !! j = Some jb ->
  exists e,
    (e = TypeError \/ e = AttributeError)
    /\ fst (runner_resume o r st) = None
    /\ research_jobs (snd (runner_resume o r st)) !! j
       = Some (failed_job (exn_text e) (now o) jb)
    /\ completed_research (snd (runner_resume o r st)) = completed_research st
    /\ files (snd (runner_resume o r st)) = files st.
Proof.
  intros Hpc Hr Ho Hfc Hv Hns Hj.
  assert (Hc : exists e, (e = TypeError \/ e = AttributeError)
                         /\ checked_text blank true v = Raise e).
  { destruct v; simpl; eauto. exfalso. eapply Hns. reflexivity. }
  destruct Hc as (e & He & Hc). exists e. split; [exact He|].
  unfold Server.runner_resume. rewrite Hpc, Ho, Hr, Hfc.
  unfold final_response. rewrite Hv. cbn [bind]. rewrite Hc.
  unfold runner_fails. cbn [fst snd].
  destruct (update_job_fields
              (fun j0 => set_end_time (now o)
                           (set_error (exn_text e) (set_status "failed" j0))) r st)
    as (_ & Hcr & _ & Hf & _).
  split; [reflexivity|]. split; [|split; [exact Hcr|exact Hf]].
  apply (update_job_lookup _ r st j jb Hr Hj).
Qed.


(** X17.  A completion notice that cannot be sent fails a job that has
    completed.  The report is written and recorded before the client is
    notified; when a send of the notice raises, the handlers mark the job
    failed, but the record and the file stay, so the lookup goes on
    returning the result of a job that the registry calls failed. *)
Theorem failed_notice_keeps_result o r st j jb msg :
  r_pc r = RNotifying -> r_job r = Some j -> raised o = Some msg ->
  research_jobs st !! j = Some jb ->
  let st' := snd (runner_resume o r st) in
  fst (runner_resume o r st) = None
  /\ research_jobs st' !! j = Some (failed_job msg (now o) jb)
  /\ status (failed_job msg (now o) jb) = "failed"
  /\ completed_research st' = completed_research st
  /\ files st' = files st
  /\ (forall cj, dict_get (completed_research st) j = Some cj ->
        get_research_results st' j = get_research_results st j
        /\ ws_get_result st' (Some j) = ws_get_result st (Some j)).
Proof.
  intros Hpc Hr Ho Hj st'.
  assert (E : runner_resume o r st = runner_fails msg o r st).
  { unfold Server.runner_resume. rewrite Hpc, Ho. reflexivity. }
  unfold st'. rewrite E. unfold runner_fails. cbn [fst snd].
  destruct (update_job_fields
              (fun j0 => set_end_time (now o)
                           (set_error msg (set_status "failed" j0))) r st)
    as (_ & Hcr & _ & Hf & _).
  split; [reflexivity|].
  split; [apply (update_job_lookup _ r st j jb Hr Hj)|].
  split; [reflexivity|]. split; [exact Hcr|]. split; [exact Hf|].
  intros cj Hcj. unfold get_research_results, ws_get_result.
  rewrite Hcr, Hf, Hcj. split; reflexivity.
Qed.

(** ** The reachable states

    The states reached from [init] by the events of [step]: connections
    and their close, research requests over the socket and over REST, the
    resumptions of the runners, tickers and ping tasks, and the removal of
    files.  The jobs of [run_analysis] are not among them. *)

Lemma good_update_progress p : 0 <= p <= 100 -> good_update (set_progress p).
Proof.
  intros Hp jb. unfold job_ok, same_origin. simpl.
  split; [intros (H1 & H2 & H3 & H4 & H5 & H6 & H7)|split; [|intros H; exact H]].
  - split; [exact H1|]. split; [exact Hp|]. split; [exact H3|].
    split; [exact H4|]. split; [exact H5|]. split; [exact H6|exact H7].
  - split; [reflexivity|]. split; [reflexivity|]. split; reflexivity.
Qed.

Lemma good_update_streaming b : good_update (set_streaming_enabled b).
Proof.
  intros jb. unfold job_ok, same_origin. simpl.
  split; [intros H; exact H|split; [|intros H; exact H]].
  split; [reflexivity|]. split; [reflexivity|]. split; reflexivity.
Qed.

Lemma good_update_failed msg t : good_update (failed_job msg t).
Proof.
  intros jb. unfold failed_job, job_ok, same_origin. simpl.
  split; [intros (H1 & H2 & H3 & H4 & H5 & H6 & H7)|split; [|intros _; discriminate]].
  - split; [right; right; reflexivity|]. split; [exact H2|].
    split; [discriminate|]. split; [discriminate|].
    split; [intros _; split; eexists; reflexivity|]. split; [exact H6|exact H7].
  - split; [reflexivity|]. split; [reflexivity|]. split; reflexivity.
Qed.

Lemma good_update_completed t :
  good_update (fun j => set_end_time t (set_status "completed" (set_progress 100 j))).
Proof.
  intros jb. unfold job_ok, same_origin. simpl.
  split; [intros (H1 & H2 & H3 & H4 & H5 & H6 & H7)|split; [|intros _; discriminate]].
  - split; [right; left; reflexivity|]. split; [lia|].
    split; [discriminate|]. split; [intros _; eexists; reflexivity|].
    split; [discriminate|]. split; [exact H6|exact H7].
  - split; [reflexivity|]. split; [reflexivity|]. split; reflexivity.
Qed.

Lemma good_update_compose f g :
  good_update f -> good_update g -> good_update (fun j => g (f j)).
Proof.
  intros Hf Hg jb. destruct (Hf jb) as (F1 & F2 & F3).
  destruct (Hg (f jb)) as (G1 & G2 & G3).
  split; [intros H; apply G1, F1, H|]. split; [|intros H; apply G3, F3, H].
  unfold same_origin in *. destruct F2 as (A1 & A2 & A3 & A4).
  destruct G2 as (B1 & B2 & B3 & B4).
  split; [congruence|]. split; [congruence|]. split; congruence.
Qed.

Lemma new_job_ok out t c :
  job_ok (mkJob "processing" 0 (Some out) None t None None c false).
Proof.
  unfold job_ok. simpl. split; [left; reflexivity|]. split; [lia|].
  split; [intros _; split; reflexivity|]. split; [discriminate|].
  split; [discriminate|]. split; [eexists; reflexivity|reflexivity].
Qed.

Lemma first_ticker_ok j c :
  ticker_ok (mkTicker TStart j c (first_progress research_ticker) research_ticker).
Proof.
  unfold ticker_ok, ticker_wf. simpl. split; [reflexivity|].
  split; [lia|discriminate].
Qed.

Lemma update_job_effect f r st r' :
  good_update f ->
  (forall r'', r' = Some r'' -> r_job r'' = r_job r) ->
  runner_effect r st r' (update_job f r st).
Proof.
  intros Hf Hr'. unfold runner_effect.
  destruct (update_job_fields f r st) as (Ht & Hc & Hn & _).
  split; [exists []; rewrite Ht, app_nil_r; split; [reflexivity|constructor]|].
  right. split; [exact Hn|]. split; [exact Hr'|].
  unfold update_job in *. destruct (r_job r) as [jr|] eqn:Hjr.
  - right. exists jr, f. split; [reflexivity|]. split; [reflexivity|].
    split; [exact Hf|]. left. reflexivity.
  - left. split; reflexivity.
Qed.

Lemma runner_effect_refl r st r' :
  (forall r'', r' = Some r'' -> r_job r'' = r_job r) ->
  runner_effect r st r' st.
Proof.
  intros Hr'. unfold runner_effect.
  split; [exists []; rewrite app_nil_r; split; [reflexivity|constructor]|].
  right. split; [reflexivity|]. split; [exact Hr'|]. left. split; reflexivity.
Qed.

Lemma runner_resume_effect o r st :
  runner_effect r st (fst (runner_resume o r st)) (snd (runner_resume o r st)).
Proof.
  unfold Server.runner_resume.
  assert (Hfail : forall msg,
            runner_effect r st (fst (runner_fails msg o r st))
                          (snd (runner_fails msg o r st))).
  { intros msg. unfold runner_fails. cbn [fst snd].
    apply (update_job_effect (failed_job msg (now o))).
    - apply good_update_failed.
    - discriminate. }
  destruct (r_pc r) eqn:Hpc.
  - (* RNew *)
    cbn [fst snd]. unfold runner_effect. simpl.
    split; [exists []; rewrite app_nil_r; split; [reflexivity|constructor]|].
    left. eexists. split; [reflexivity|]. split; [apply new_job_ok|].
    split; [reflexivity|]. split; [|reflexivity].
    intros r'' [= <-]. reflexivity.
  - (* RStarted *)
    destruct (raised o) as [msg|]; [apply Hfail|].
    destruct (r_job r) as [jr|] eqn:Hjr; [|apply runner_effect_refl; discriminate].
    cbn [fst snd]. unfold runner_effect.
    destruct (track_tasks (r_client r) (length (tasks st))
                (create_task (ProgressUpdates
                   (mkTicker TStart jr (r_client r) (first_progress research_ticker)
                             research_ticker)) st)) as (Ht & Hj & Hc & Hn & _).
    rewrite Ht, Hj, Hc, Hn. simpl.
    split.
    { eexists. split; [reflexivity|]. constructor; [|constructor].
      eexists. split; [reflexivity|apply first_ticker_ok]. }
    right. split; [reflexivity|]. split; [intros r'' [= <-]; simpl; congruence|].
    left. split; reflexivity.
  - (* REntered *)
    destruct (raised o) as [msg|]; [apply Hfail|].
    destruct (r_job r) as [jr|] eqn:Hjr; [|apply runner_effect_refl; discriminate].
    cbn [fst snd]. apply update_job_effect; [apply good_update_progress; lia|].
    intros r'' [= <-]. reflexivity.
  - (* RPrompting *)
    destruct (raised o) as [msg|]; [apply Hfail|].
    destruct (r_job r) as [jr|] eqn:Hjr; [|apply runner_effect_refl; discriminate].
    cbn [fst snd].
    assert (Hr' : forall r'' : runner,
              Some (mkRunner RCollected (r_client r) (r_prompt r) (r_requested r)
                      (r_output_file r) (Some jr) (chunks o) (responses o) "")
              = Some r'' -> r_job r'' = r_job r).
    { intros r'' [= <-]. simpl. congruence. }
    assert (Hplain : runner_effect r st
              (Some (mkRunner RCollected (r_client r) (r_prompt r) (r_requested r)
                      (r_output_file r) (Some jr) (chunks o) (responses o) ""))
              (update_job (set_progress 70) r st)).
    { apply update_job_effect; [apply good_update_progress; lia|exact Hr']. }
    destruct (chunks o) as [|ch chs] eqn:Hch; [exact Hplain|].
    destruct (live st o (r_client r)); [|exact Hplain].
    unfold runner_effect, update_job. rewrite Hjr. simpl.
    split; [exists []; rewrite app_nil_r; split; [reflexivity|constructor]|].
    right. split; [reflexivity|]. split; [intros r'' [= <-]; reflexivity|].
    right. exists jr, (fun j => set_progress 70 (set_streaming_enabled true j)).
    split; [reflexivity|]. split; [apply alter_alter_eq|].
    split; [|left; reflexivity].
    apply good_update_compose;
      [apply good_update_streaming|apply good_update_progress; lia].
  - (* RCollected *)
    destruct (raised o) as [msg|]; [apply Hfail|].
    destruct (r_job r) as [jr|] eqn:Hjr; [|apply runner_effect_refl; discriminate].
    destruct (bind _ _) as [text|e]; [|apply Hfail].
    cbn [fst snd]. rewrite <- Hjr.
    apply update_job_effect; [apply good_update_progress; lia|].
    intros r'' [= <-]. reflexivity.
  - (* RFormatting *)
    destruct (raised o) as [msg|]; [apply Hfail|].
    destruct (r_job r) as [jr|] eqn:Hjr; [|apply runner_effect_refl; discriminate].
    cbn [fst snd]. unfold runner_effect, update_job. rewrite Hjr. simpl.
    split; [exists []; rewrite app_nil_r; split; [reflexivity|constructor]|].
    right. split; [reflexivity|]. split; [intros r'' [= <-]; simpl; congruence|].
    right. eexists jr, _. split; [reflexivity|]. split; [reflexivity|].
    split; [apply (good_update_completed (now o))|].
    right. eexists. split; [reflexivity|]. intros jb. reflexivity.
  - (* RNotifying *)
    destruct (raised o) as [msg|]; [apply Hfail|].
    destruct (r_job r) as [jr|] eqn:Hjr; apply runner_effect_refl; discriminate.
Qed.

Lemma ticker_resume_effect is_live o k jobs k' jobs' :
  ticker_ok k ->
  ticker_resume is_live o k jobs = (k', jobs') ->
  (jobs' = jobs
   \/ exists j0 p, jobs !! t_job k = Some j0
        /\ jobs' = <[t_job k := set_progress p j0]> jobs /\ 0 <= p <= 100)
  /\ (forall k'', k' = Some k'' -> ticker_ok k'').
Proof.
  intros (Hcfg & Hcur & Hwf) E. split.
  - unfold ticker_resume in E. destruct (t_pc k) eqn:Hpc.
    + injection E as _ <-. left. reflexivity.
    + destruct (raised o); [injection E as _ <-; left; reflexivity|].
      destruct (jobs !! t_job k) as [j0|] eqn:Hj0;
        [|injection E as _ <-; left; reflexivity].
      destruct (is_processing j0); [|injection E as _ <-; left; reflexivity].
      right. exists j0, (t_current k + increment (t_cfg k)).
      split; [reflexivity|].
      split; [destruct is_live; injection E as _ <-; reflexivity|].
      pose proof (Hwf Hpc) as Hlt. rewrite Hcfg in *. simpl in *. lia.
    + destruct (raised o); injection E as _ <-; left; reflexivity.
  - intros k'' ->.
    destruct (ticker_resume_next _ _ _ _ _ _ Hwf E) as (H1 & H2 & Hcase).
    unfold ticker_ok. rewrite H1. split; [exact Hcfg|]. split; [|exact H2].
    destruct Hcase as [(_ & _ & ->)|(_ & Hlt & ->)]; [exact Hcur|].
    rewrite Hcfg in *. simpl in *. lia.
Qed.

Lemma job_change_dom st st' :
  (forall j, job_change st st' j) ->
  forall j, is_Some (research_jobs st !! j) -> is_Some (research_jobs st' !! j).
Proof.
  intros H j Hj. destruct (H j) as [E|[(_ & _ & jb & E & _)|(jb & jb' & _ & E & _)]].
  - rewrite E. exact Hj.
  - rewrite E. eexists. reflexivity.
  - rewrite E. eexists. reflexivity.
Qed.

Lemma task_ok_mono jobs jobs' tk :
  (forall j, is_Some (jobs !! j) -> is_Some (jobs' !! j)) ->
  task_ok jobs tk -> task_ok jobs' tk.
Proof.
  intros H. unfold task_ok. destruct (co tk); [|tauto..].
  intros Hr j Hj. apply H, Hr, Hj.
Qed.

Lemma task_ok_state jobs c s s' :
  task_ok jobs (mkTask c s) -> task_ok jobs (mkTask c s').
Proof. unfold task_ok. simpl. tauto. Qed.

Lemma server_ok_step st st' :
  server_ok st ->
  (forall j, job_change st st' j) ->
  (next_job st <= next_job st')%nat ->
  Forall (task_ok (research_jobs st')) (tasks st') ->
  (completed_research st' = completed_research st
   \/ exists jr c jb,
        completed_research st'
        = store_completed_research (completed_research st) jr c
        /\ research_jobs st' !! jr = Some jb /\ status jb <> "processing") ->
  server_ok st' /\ forall j, job_change st st' j.
Proof.
  intros (A & B & C & D & E) Hch Hnext Htasks Hstore. split; [|exact Hch].
  assert (A' : forall j jb, research_jobs st' !! j = Some jb ->
                 (j < next_job st')%nat /\ job_ok jb).
  { intros j jb Hj.
    destruct (Hch j) as [Eq|[(-> & Hlt & jb0 & Eq & Hok)|(jb0 & jb1 & H0 & H1 & Hok & _)]].
    - rewrite Eq in Hj. destruct (A j jb Hj) as [Hlt Hok]. split; [lia|exact Hok].
    - rewrite Eq in Hj. injection Hj as <-. split; [exact Hlt|exact Hok].
    - rewrite H1 in Hj. injection Hj as <-. destruct (A j jb0 H0) as [Hlt Hok0].
      split; [lia|apply Hok, Hok0]. }
  assert (E' : forall j, In j (dict_keys (completed_research st)) ->
                 exists jb, research_jobs st' !! j = Some jb
                            /\ status jb <> "processing").
  { intros j Hin. destruct (E j Hin) as (jb & Hj & Hs).
    destruct (Hch j) as [Eq|[(-> & _)|(jb0 & jb1 & H0 & H1 & _ & _ & Hst)]].
    - exists jb. rewrite Eq. split; assumption.
    - destruct (A _ _ Hj) as [Hlt _]. lia.
    - exists jb1. split; [exact H1|]. apply Hst. congruence. }
  split; [exact A'|]. split; [exact Htasks|].
  destruct Hstore as [->|(jr & c & jb & -> & Hjr & Hs)].
  - split; [exact C|]. split; [exact D|exact E'].
  - split; [apply (completed_research_cap _ jr c C)|].
    split; [apply store_completed_NoDup, D|].
    intros j Hin. apply store_completed_keys in Hin.
    destruct Hin as [->|Hin]; [exists jb; split; assumption|apply E', Hin].
Qed.

Lemma server_ok_same st st' :
  server_ok st ->
  research_jobs st' = research_jobs st -> next_job st' = next_job st ->
  completed_research st' = completed_research st ->
  Forall (task_ok (research_jobs st)) (tasks st') ->
  server_ok st' /\ forall j, job_change st st' j.
Proof.
  intros Hok Hj Hn Hc Ht. apply (server_ok_step st st' Hok).
  - intros j. left. rewrite Hj. reflexivity.
  - lia.
  - rewrite Hj. exact Ht.
  - left. exact Hc.
Qed.

Lemma alter_job_change st st' f jr :
  research_jobs st' = alter f jr (research_jobs st) ->
  good_update f -> forall j, job_change st st' j.
Proof.
  intros E Hf j. unfold job_change. rewrite E.
  destruct (decide (j = jr)) as [->|Hne].
  - rewrite lookup_alter_eq. destruct (research_jobs st !! jr) as [jb|] eqn:Hj.
    + right. right. exists jb, (f jb). destruct (Hf jb) as (F1 & F2 & F3).
      split; [reflexivity|]. split; [reflexivity|].
      split; [exact F1|]. split; [exact F2|exact F3].
    + left. reflexivity.
  - left. apply lookup_alter_ne. congruence.
Qed.

Lemma step_ok_change st ev :
  server_ok st ->
  server_ok (step st ev) /\ forall j, job_change st (step st ev) j.
Proof.
  intros Hok0. pose proof Hok0 as (A & B & C & D & E).
  assert (Hsame : forall st', research_jobs st' = research_jobs st ->
            next_job st' = next_job st ->
            completed_research st' = completed_research st ->
            Forall (task_ok (research_jobs st)) (tasks st') ->
            server_ok st' /\ forall j, job_change st st' j)
    by (intros st'; apply server_ok_same, Hok0).
  assert (Hok : server_ok st /\ forall j, job_change st st j).
  { split; [exact Hok0|]. intros j. left. reflexivity. }
  assert (Hadd : forall co, task_ok (research_jobs st) (mkTask co Pending) ->
            Forall (task_ok (research_jobs st)) (tasks st ++ [mkTask co Pending])).
  { intros co0 H0. apply Forall_app. split; [exact B|].
    constructor; [exact H0|constructor]. }
  destruct ev as [c|c ws|c prompt out|c prompt out|c|t o|path]; simpl.
  - unfold ws_connect. destruct (websocket_tasks st !! c);
      [exact Hok|apply Hsame; try reflexivity; exact B].
  - unfold ws_accepted.
    destruct (track_tasks c (length (tasks st)) (create_task (SendPing c) st))
      as (H1 & H2 & H3 & H4 & _).
    apply Hsame; [exact H2|exact H4|exact H3|].
    cbn [tasks with_connections]. rewrite H1. apply Hadd. exact I.
  - unfold ws_research_request.
    match goal with |- server_ok (track _ _ (create_task ?co _)) /\ _ =>
      destruct (track_tasks c (length (tasks st)) (create_task co st))
        as (H1 & H2 & H3 & H4 & _)
    end.
    apply Hsame; [exact H2|exact H4|exact H3|].
    rewrite H1. apply Hadd. unfold task_ok. simpl. discriminate.
  - unfold create_research.
    apply Hsame; [reflexivity..|].
    apply Hadd. unfold task_ok. simpl. discriminate.
  - unfold ws_close. simpl.
    destruct (websocket_tasks st !! c) as [owned|];
      [|apply Hsame; try reflexivity; exact B].
    apply Hsame; [reflexivity..|]. simpl.
    apply Forall_lookup. intros i tk Hi. rewrite list_lookup_imap in Hi.
    destruct (tasks st !! i) as [tk0|] eqn:Ei; [|discriminate].
    injection Hi as <-. pose proof (proj1 (Forall_lookup _ _) B i tk0 Ei) as H0.
    simpl in H0. destruct (bool_decide _); [|exact H0].
    unfold cancel. destruct tk0 as [c0 s0]. destruct s0; simpl;
      try exact H0; apply (task_ok_state _ _ _ _ H0).
  - unfold Server.resume.
    destruct (tasks st !! t) as [[c s]|] eqn:Ht; [|exact Hok].
    destruct s; try exact Hok.
    pose proof (proj1 (Forall_lookup _ _) B t _ Ht) as Hc.
    destruct c as [r|k|c].
    + pose proof (runner_resume_effect o r st) as Heff.
      destruct (runner_resume o r st) as [r' st'] eqn:Er. cbn [fst snd] in Heff.
      destruct Heff as ((extra & Hextra & Hx) & Hjobs).
      assert (Hch : forall j, job_change st st' j).
      { destruct Hjobs as [(jb & Ej & Hjb & Hn & _ & _)
                          |(Hn & _ & [(Ej & _)|(jr & f & _ & Ej & Hf & _)])].
        - intros j. unfold job_change. rewrite Ej.
          destruct (decide (j = next_job st)) as [->|Hne].
          + right. left. split; [reflexivity|]. split; [lia|].
            exists jb. split; [apply lookup_insert_eq|exact Hjb].
          + left. apply lookup_insert_ne. congruence.
        - intros j. left. rewrite Ej. reflexivity.
        - apply (alter_job_change st st' f jr Ej Hf). }
      assert (Hdom := job_change_dom st st' Hch).
      assert (Hold : Forall (task_ok (research_jobs st')) (tasks st ++ extra)).
      { apply Forall_app. split.
        - eapply List.Forall_impl; [|exact B]. intros tk. apply task_ok_mono, Hdom.
        - eapply List.Forall_impl; [|exact Hx].
          intros tk (k & -> & Hk). exact Hk. }
      assert (Hnew : forall s',
                task_ok (research_jobs st')
                  (match r' with
                   | Some r'' => mkTask (RunResearch r'') Pending
                   | None => mkTask (RunResearch r) s'
                   end)).
      { intros s'. destruct r' as [r''|].
        - unfold task_ok. simpl. intros j Hj.
          destruct Hjobs as [(jb & Ej & _ & _ & Hr'' & _)|(_ & Hr'' & _)].
          + rewrite (Hr'' _ eq_refl) in Hj. injection Hj as <-.
            rewrite Ej, lookup_insert_eq. eexists. reflexivity.
          + rewrite (Hr'' _ eq_refl) in Hj. apply Hdom, Hc, Hj.
        - apply (task_ok_mono (research_jobs st)); [exact Hdom|].
          apply (task_ok_state _ _ _ _ Hc). }
      apply (server_ok_step st); simpl.
      * exact Hok0.
      * exact Hch.
      * destruct Hjobs as [(_ & _ & _ & Hn & _)|(Hn & _)]; lia.
      * rewrite Hextra. apply Forall_insert; [exact Hold|].
        destruct r'; apply (Hnew Finished).
      * destruct Hjobs as [(_ & _ & _ & _ & _ & Hcr)
                          |(_ & _ & [(_ & Hcr)|(jr & f & Hjr & Ej & _ & [Hcr|(c0 & Hcr & Hst)])])];
          try (left; exact Hcr).
        right. destruct (Hc jr Hjr) as [jb0 Hjb0].
        exists jr, c0, (f jb0). split; [exact Hcr|].
        split; [rewrite Ej, lookup_alter_eq, Hjb0; reflexivity|].
        rewrite Hst. discriminate.
    + destruct (ticker_resume (live st o (t_client k)) o k (research_jobs st))
        as [k' jobs'] eqn:Ek.
      destruct (ticker_resume_effect _ _ _ _ _ _ Hc Ek) as [Hjobs Hk'].
      assert (Hch : forall j, job_change st (with_jobs jobs' st) j).
      { intros j. unfold job_change. simpl.
        destruct Hjobs as [->|(j0 & p & Hj0 & -> & Hp)]; [left; reflexivity|].
        destruct (decide (j = t_job k)) as [->|Hne].
        - right. right. exists j0, (set_progress p j0).
          destruct (good_update_progress p Hp j0) as (F1 & F2 & F3).
          split; [exact Hj0|]. split; [apply lookup_insert_eq|].
          split; [exact F1|]. split; [exact F2|exact F3].
        - left. apply lookup_insert_ne. congruence. }
      assert (Hdom := job_change_dom st _ Hch). simpl in Hdom.
      apply (server_ok_step st); simpl.
      * exact Hok0.
      * exact Hch.
      * lia.
      * apply Forall_insert.
        -- eapply List.Forall_impl; [|exact B]. intros tk. apply task_ok_mono, Hdom.
        -- destruct k' as [k''|]; [exact (Hk' _ eq_refl)|exact Hc].
      * left. reflexivity.
    + assert (K : server_ok (with_tasks (<[t := mkTask (SendPing c) Finished]> (tasks st)) st)
                  /\ forall j, job_change st
                       (with_tasks (<[t := mkTask (SendPing c) Finished]> (tasks st)) st) j).
      { apply Hsame; [reflexivity..|]. simpl.
        apply Forall_insert; [exact B|exact I]. }
      destruct (raised o); [exact K|].
      destruct (connected o); [exact Hok|exact K].
  - apply Hsame; [reflexivity..|]. exact B.
Qed.

Lemma step_next_job st ev : (next_job st <= next_job (step st ev))%nat.
Proof.
  destruct ev as [c|c ws|c prompt out|c prompt out|c|t o|path]; simpl.
  - unfold ws_connect. destruct (websocket_tasks st !! c); reflexivity.
  - unfold ws_accepted.
    destruct (track_tasks c (length (tasks st)) (create_task (SendPing c) st))
      as (_ & _ & _ & H4 & _). simpl. rewrite H4. reflexivity.
  - unfold ws_research_request.
    match goal with |- (_ <= next_job (track _ _ (create_task ?co _)))%nat =>
      destruct (track_tasks c (length (tasks st)) (create_task co st))
        as (_ & _ & _ & H4 & _)
    end. rewrite H4. reflexivity.
  - reflexivity.
  - unfold ws_close. simpl. destruct (websocket_tasks st !! c); reflexivity.
  - unfold Server.resume.
    destruct (tasks st !! t) as [[c s]|]; [|reflexivity].
    destruct s; try reflexivity. destruct c as [r|k|c].
    + pose proof (runner_resume_effect o r st) as Heff.
      destruct (runner_resume o r st) as [r' st']. cbn [fst snd] in Heff.
      destruct Heff as (_ & [(_ & _ & _ & Hn & _)|(Hn & _)]); simpl; lia.
    + destruct (ticker_resume _ _ _ _) as [k' jobs']. reflexivity.
    + destruct (raised o); [reflexivity|]. destruct (connected o); reflexivity.
  - reflexivity.
Qed.

Lemma init_ok : server_ok init.
Proof.
  unfold server_ok, init. simpl.
  split; [intros j jb H; rewrite lookup_empty in H; discriminate|].
  split; [constructor|]. split; [lia|]. split; [constructor|]. intros j [].
Qed.

Lemma run_ok evs st : server_ok st -> server_ok (run evs st).
Proof.
  revert st. induction evs as [|ev evs IH]; intros st Hok; [exact Hok|].
  change (server_ok (run evs (step st ev))). apply IH, step_ok_change, Hok.
Qed.

(** An entry of the registry stays, with the fields written at its
    creation, and does not go back to [processing]. *)
Lemma run_entry_stays evs st j jb :
  server_ok st -> research_jobs st !! j = Some jb ->
  exists jb', research_jobs (run evs st) !! j = Some jb'
    /\ same_origin jb jb'
    /\ (status jb <> "processing" -> status jb' <> "processing").
Proof.
  revert st jb. induction evs as [|ev evs IH]; intros st jb Hok Hj.
  - exists jb. split; [exact Hj|]. split; [|tauto].
    split; [reflexivity|]. split; [reflexivity|]. split; reflexivity.
  - change (run (ev :: evs) st) with (run evs (step st ev)).
    destruct (step_ok_change st ev Hok) as [Hok' Hch].
    assert (Hstep : exists jb1, research_jobs (step st ev) !! j = Some jb1
              /\ same_origin jb jb1
              /\ (status jb <> "processing" -> status jb1 <> "processing")).
    { destruct (Hch j) as [Eq|[(-> & _)|(jb0 & jb1 & H0 & H1 & _ & Hso & Hst)]].
      - exists jb. rewrite Eq. split; [exact Hj|]. split; [|tauto].
        split; [reflexivity|]. split; [reflexivity|]. split; reflexivity.
      - destruct Hok as (A & _). destruct (A _ _ Hj) as [Hlt _]. lia.
      - rewrite Hj in H0. injection H0 as <-. exists jb1.
        split; [exact H1|]. split; [exact Hso|exact Hst]. }
    destruct Hstep as (jb1 & Hj1 & Hso1 & Hst1).
    destruct (IH _ _ Hok' Hj1) as (jb' & Hj' & Hso' & Hst').
    exists jb'. split; [exact Hj'|]. split; [|tauto].
    unfold same_origin in *. destruct Hso1 as (A1 & A2 & A3 & A4).
    destruct Hso' as (B1 & B2 & B3 & B4).
    split; [congruence|]. split; [congruence|]. split; congruence.
Qed.

(** X18.  Every entry of the job registry is well formed, in every state
    the server can reach: its id is below the counter of job ids; its
    status is [processing], [completed] or [failed]; its progress lies
    between 0 and 100; while it is processing it has neither an end time
    nor an error; once completed it has an end time; once failed it has an
    error and an end time; and it names an output file. *)
Theorem registry_entries_well_formed evs j jb :
  research_jobs (run evs init) !! j = Some jb ->
  (j < next_job (run evs init))%nat
  /\ (status jb = "processing" \/ status jb = "completed" \/ status jb = "failed")
  /\ 0 <= progress jb <= 100
  /\ (status jb = "processing" -> end_time jb = None /\ error jb = None)
  /\ (status jb = "completed" -> is_Some (end_time jb))
  /\ (status jb = "failed" -> is_Some (error jb) /\ is_Some (end_time jb))
  /\ is_Some (output_file jb) /\ output_dir jb = None.
Proof.
  intros Hj. destruct (run_ok evs init init_ok) as (A & _).
  destruct (A j jb Hj) as [Hlt Hok]. split; [exact Hlt|exact Hok].
Qed.

(** X19.  In every state the server can reach, the store of completed
    research holds at most 100 entries, no two under one job id, and every
    job it holds has an entry in the registry whose status is [completed]
    or [failed], never [processing]. *)
Theorem completed_store_bounded evs :
  let st := run evs init in
  (length (completed_research st) <= 100)%nat
  /\ List.NoDup (dict_keys (completed_research st))
  /\ forall j, In j (dict_keys (completed_research st)) ->
       exists jb, research_jobs st !! j = Some jb
                  /\ (status jb = "completed" \/ status jb = "failed").
Proof.
  intros st. destruct (run_ok evs init init_ok) as (A & _ & C & D & E).
  split; [exact C|]. split; [exact D|].
  intros j Hin. destruct (E j Hin) as (jb & Hj & Hs). exists jb.
  split; [exact Hj|]. destruct (A j jb Hj) as (_ & [H|H] & _); [contradiction|exact H].
Qed.

(** X20.  The registry only grows.  An entry, once made, is there in
    every later state: no event removes it or gives its id to another job;
    its client, start time and output file never change; and a job that
    has left [processing] never returns to it. *)
Theorem registry_entry_stays evs evs' j jb :
  research_jobs (run evs init) !! j = Some jb ->
  exists jb',
    research_jobs (run evs' (run evs init)) !! j = Some jb'
    /\ client_id jb' = client_id jb /\ start_time jb' = start_time jb
    /\ output_file jb' = output_file jb
    /\ (status jb <> "processing" -> status jb' <> "processing")
    /\ (next_job (run evs init) <= next_job (run evs' (run evs init)))%nat.
Proof.
  intros Hj.
  destruct (run_entry_stays evs' _ j jb (run_ok evs init init_ok) Hj)
    as (jb' & Hj' & (H1 & H2 & H3 & _) & Hst).
  exists jb'. split; [exact Hj'|]. split; [exact H1|]. split; [exact H2|].
  split; [exact H3|]. split; [exact Hst|].
  generalize (run evs init). clear. intros st. revert st.
  induction evs' as [|ev evs' IH]; intros st; [reflexivity|].
  change (run (ev :: evs') st) with (run evs' (step st ev)).
  etransitivity; [|apply IH]. apply step_next_job.
Qed.

(** ** Runners and their jobs *)

Lemma track_fail msg o r st :
  track_effect r st (fst (runner_fails msg o r st)) (snd (runner_fails msg o r st)).
Proof.
  unfold runner_fails, update_job. cbn [fst snd].
  destruct (r_job r) as [jr|] eqn:Hjr.
  - right. right. eexists jr, _. split; [exact Hjr|].
    split; [reflexivity|]. split; [discriminate|].
    left. split; [reflexivity|]. intros jb. reflexivity.
  - right. left. split; [reflexivity|]. discriminate.
Qed.

Lemma track_quiet r st : track_effect r st None st.
Proof. right. left. split; [reflexivity|]. discriminate. Qed.

Lemma track_keep f r r'' st jr :
  active (r_pc r) = true -> (forall jb, status (f jb) = status jb) ->
  r_job r'' = r_job r -> r_job r = Some jr ->
  track_effect r st (Some r'') (update_job f r st).
Proof.
  intros Ha Hf Hj Hjr. unfold update_job. rewrite Hjr.
  right. right. exists jr, f. split; [exact Hjr|].
  split; [reflexivity|]. split; [intros r0 [= <-]; exact Hj|].
  right. left. split; [exact Ha|exact Hf].
Qed.

Lemma runner_resume_track o r st :
  track_effect r st (fst (runner_resume o r st)) (snd (runner_resume o r st)).
Proof.
  unfold Server.runner_resume.
  destruct (r_pc r) eqn:Hpc.
  - cbn [fst snd]. left. eexists _, _. simpl.
    split; [reflexivity|]. split; [reflexivity|]. split; reflexivity.
  - destruct (raised o) as [msg|]; [apply track_fail|].
    destruct (r_job r) as [jr|] eqn:Hjr; [|apply track_quiet].
    cbn [fst snd]. right. left.
    destruct (track_tasks (r_client r) (length (tasks st))
                (create_task (ProgressUpdates
                   (mkTicker TStart jr (r_client r) (first_progress research_ticker)
                             research_ticker)) st)) as (_ & Hj & _).
    split; [exact Hj|]. intros r'' [= <-] _. rewrite Hpc.
    split; reflexivity.
  - destruct (raised o) as [msg|]; [apply track_fail|].
    destruct (r_job r) as [jr|] eqn:Hjr; [|apply track_quiet].
    cbn [fst snd].
    apply (track_keep _ r _ st jr); [rewrite Hpc; reflexivity| |reflexivity|exact Hjr].
    intros jb. reflexivity.
  - destruct (raised o) as [msg|]; [apply track_fail|].
    destruct (r_job r) as [jr|] eqn:Hjr; [|apply track_quiet].
    cbn [fst snd].
    assert (Hplain : track_effect r st
              (Some (mkRunner RCollected (r_client r) (r_prompt r) (r_requested r)
                      (r_output_file r) (Some jr) (chunks o) (responses o) ""))
              (update_job (set_progress 70) r st)).
    { apply (track_keep _ r _ st jr);
        [rewrite Hpc; reflexivity| |simpl; congruence|exact Hjr].
      intros jb. reflexivity. }
    destruct (chunks o) as [|ch chs]; [exact Hplain|].
    destruct (live st o (r_client r)); [|exact Hplain].
    unfold update_job. rewrite Hjr. simpl.
    right. right. exists jr, (fun j => set_progress 70 (set_streaming_enabled true j)).
    split; [exact Hjr|]. split; [apply alter_alter_eq|].
    split; [intros r'' [= <-]; simpl; congruence|].
    right. left. split; [rewrite Hpc; reflexivity|]. intros jb. reflexivity.
  - destruct (raised o) as [msg|]; [apply track_fail|].
    destruct (r_job r) as [jr|] eqn:Hjr; [|apply track_quiet].
    destruct (bind _ _) as [text|e]; [|apply track_fail].
    cbn [fst snd].
    apply (track_keep _ r _ st jr); [rewrite Hpc; reflexivity| |simpl; congruence|exact Hjr].
    intros jb. reflexivity.
  - destruct (raised o) as [msg|]; [apply track_fail|].
    destruct (r_job r) as [jr|] eqn:Hjr; [|apply track_quiet].
    cbn [fst snd]. unfold update_job. rewrite Hjr. simpl.
    right. right. eexists jr, _. split; [exact Hjr|]. split; [reflexivity|].
    split; [intros r'' [= <-]; simpl; congruence|].
    right. right. split; [intros jb; split; reflexivity|].
    intros r'' [= <-]. reflexivity.
  - destruct (raised o) as [msg|]; [apply track_fail|].
    destruct (r_job r) as [jr|] eqn:Hjr; apply track_quiet.
Qed.

Lemma runner_job_below st t r s j :
  server_ok st -> tasks st !! t = Some (mkTask (RunResearch r) s) ->
  r_job r = Some j -> (j < next_job st)%nat.
Proof.
  intros (A & B & _) Ht Hj.
  pose proof (proj1 (Forall_lookup _ _) B t _ Ht) as Hok. unfold task_ok in Hok.
  simpl in Hok. destruct (Hok j Hj) as [jb Hjb]. exact (proj1 (A j jb Hjb)).
Qed.

Lemma track_ok_same st st' :
  track_ok st -> tasks st' = tasks st -> research_jobs st' = research_jobs st ->
  track_ok st'.
Proof. intros H Ht Hj. unfold track_ok. rewrite Ht, Hj. exact H. Qed.

Lemma track_ok_add st st' c :
  track_ok st -> tasks st' = tasks st ++ [mkTask c Pending] ->
  research_jobs st' = research_jobs st ->
  (forall r, c = RunResearch r -> r_job r = None) ->
  track_ok st'.
Proof.
  intros (U & P & C) Ht Hj Hc. unfold track_ok. rewrite Ht, Hj.
  assert (Hold : forall i r s, (tasks st ++ [mkTask c Pending]) !! i
                   = Some (mkTask (RunResearch r) s) ->
                 tasks st !! i = Some (mkTask (RunResearch r) s) \/ r_job r = None).
  { intros i r s Hi. apply lookup_app_Some in Hi. destruct Hi as [Hi|[_ Hi]];
      [left; exact Hi|right].
    destruct (i - length (tasks st))%nat; [|discriminate Hi].
    injection Hi as -> _. apply Hc. reflexivity. }
  split; [|split; [|exact C]].
  - intros t1 t2 r1 r2 s1 s2 j H1 H2 J1 J2.
    destruct (Hold _ _ _ H1) as [H1'|E]; [|congruence].
    destruct (Hold _ _ _ H2) as [H2'|E]; [|congruence].
    exact (U _ _ _ _ _ _ _ H1' H2' J1 J2).
  - intros t r j H1 Ha J1. destruct (Hold _ _ _ H1) as [H1'|E]; [|congruence].
    exact (P _ _ _ H1' Ha J1).
Qed.

Lemma cancel_runner tk r s :
  cancel tk = mkTask (RunResearch r) s ->
  exists s0, tk = mkTask (RunResearch r) s0 /\ (s = Pending -> False).
Proof.
  unfold cancel. destruct tk as [c s0]. destruct s0; simpl; intros [= -> <-];
    eexists; split; try reflexivity; discriminate.
Qed.

Lemma track_ok_close st (owned : list nat) st' :
  track_ok st ->
  tasks st' = imap (fun t tk => if bool_decide (t ∈ owned) then cancel tk else tk)
                   (tasks st) ->
  research_jobs st' = research_jobs st -> track_ok st'.
Proof.
  intros (U & P & C) Ht Hj. unfold track_ok. rewrite Ht, Hj.
  assert (Hold : forall i r s,
            imap (fun t tk => if bool_decide (t ∈ owned) then cancel tk else tk)
                 (tasks st) !! i = Some (mkTask (RunResearch r) s) ->
            exists s0, tasks st !! i = Some (mkTask (RunResearch r) s0)
                       /\ (s = Pending -> s0 = Pending)).
  { intros i r s Hi. rewrite list_lookup_imap in Hi.
    destruct (tasks st !! i) as [tk|] eqn:E; [|discriminate]. simpl in Hi.
    injection Hi as Hi. destruct (bool_decide _).
    - destruct (cancel_runner _ _ _ Hi) as (s0 & -> & Hs). exists s0.
      split; [reflexivity|]. intros Hp. destruct (Hs Hp).
    - subst tk. exists s. split; [reflexivity|tauto]. }
  split; [|split; [|exact C]].
  - intros t1 t2 r1 r2 s1 s2 j H1 H2 J1 J2.
    destruct (Hold _ _ _ H1) as (s1' & H1' & _).
    destruct (Hold _ _ _ H2) as (s2' & H2' & _).
    exact (U _ _ _ _ _ _ _ H1' H2' J1 J2).
  - intros t r j H1 Ha J1. destruct (Hold _ _ _ H1) as (s0 & H1' & Hs).
    rewrite (Hs eq_refl) in H1'. exact (P _ _ _ H1' Ha J1).
Qed.

Lemma track_ok_runner st t r r' st' :
  server_ok st -> track_ok st ->
  tasks st !! t = Some (mkTask (RunResearch r) Pending) ->
  runner_effect r st r' st' -> track_effect r st r' st' ->
  track_ok (with_tasks
              (<[t := match r' with
                      | Some r'' => mkTask (RunResearch r'') Pending
                      | None => mkTask (RunResearch r) Finished
                      end]> (tasks st')) st').
Proof.
  intros Hok (U & P & C) Ht ((extra & Hextra & Hx) & Hjobs) Htr.
  set (new := match r' with
              | Some r'' => mkTask (RunResearch r'') Pending
              | None => mkTask (RunResearch r) Finished
              end).
  assert (Hold : forall i rr s,
            <[t := new]> (tasks st ++ extra) !! i = Some (mkTask (RunResearch rr) s) ->
            (i = t /\ new = mkTask (RunResearch rr) s)
            \/ (i <> t /\ tasks st !! i = Some (mkTask (RunResearch rr) s))).
  { intros i rr s Hi. apply list_lookup_insert_Some in Hi.
    destruct Hi as [(-> & Hn & _)|(Hne & Hi)]; [left; split; [reflexivity|exact Hn]|].
    right. split; [congruence|]. apply lookup_app_Some in Hi.
    destruct Hi as [Hi|[_ Hi]]; [exact Hi|].
    pose proof (proj1 (Forall_lookup _ _) Hx _ _ Hi) as (k & Hk & _).
    discriminate Hk. }
  assert (Hnew : forall rr s, new = mkTask (RunResearch rr) s ->
            r_job rr = r_job r
            \/ (r_job rr = Some (next_job st) /\ r' = Some rr)).
  { intros rr s Hn. unfold new in Hn. destruct r' as [r''|].
    - injection Hn as -> _.
      destruct Hjobs as [(_ & _ & _ & _ & Hr'' & _)|(_ & Hr'' & _)].
      + right. split; [exact (Hr'' _ eq_refl)|reflexivity].
      + left. exact (Hr'' _ eq_refl).
    - injection Hn as -> _. left. reflexivity. }
  assert (Hbelow : forall i rr s j, tasks st !! i = Some (mkTask (RunResearch rr) s) ->
            r_job rr = Some j -> (j < next_job st)%nat)
    by (intros i rr s j; apply runner_job_below, Hok).
  unfold track_ok. cbn [tasks research_jobs with_tasks]. rewrite Hextra.
  split; [|split].
  - intros t1 t2 r1 r2 s1 s2 j H1 H2 J1 J2.
    destruct (Hold _ _ _ H1) as [(-> & N1)|(Ne1 & O1)];
      destruct (Hold _ _ _ H2) as [(-> & N2)|(Ne2 & O2)].
    + reflexivity.
    + destruct (Hnew _ _ N1) as [E|(E & _)].
      * apply (U _ _ _ _ _ _ j Ht O2); congruence.
      * pose proof (Hbelow _ _ _ _ O2 J2). rewrite J1 in E. injection E as ->. lia.
    + destruct (Hnew _ _ N2) as [E|(E & _)].
      * symmetry. apply (U _ _ _ _ _ _ j Ht O1); congruence.
      * pose proof (Hbelow _ _ _ _ O1 J1). rewrite J2 in E. injection E as ->. lia.
    + exact (U _ _ _ _ _ _ _ O1 O2 J1 J2).
  - intros i rr j Hi Ha Jr.
    destruct (Hold _ _ _ Hi) as [(-> & N)|(Ne & O)].
    + unfold new in N. destruct r' as [r''|]; [|discriminate N].
      injection N as ->.
      destruct Htr as [(jb & r0 & Ej & Hs & [= <-] & Hr0)
                      |[(Ej & Hq)|(jr & f & Hjr & Ej & Hr'' & Hcase)]].
      * rewrite Hr0 in Jr. injection Jr as <-. exists jb.
        rewrite Ej, lookup_insert_eq. split; [reflexivity|exact Hs].
      * destruct (Hq _ eq_refl Ha) as [Har Hjj]. rewrite Ej.
        apply (P t r j Ht Har). congruence.
      * rewrite (Hr'' _ eq_refl), Hjr in Jr. injection Jr as <-.
        destruct Hcase as [(Hn & _)|[(Har & Hf)|(_ & Hin)]].
        -- discriminate Hn.
        -- destruct (P t r jr Ht Har Hjr) as (jb & Hjb & Hs).
           exists (f jb). rewrite Ej, lookup_alter_eq, Hjb.
           split; [reflexivity|]. rewrite Hf. exact Hs.
        -- rewrite (Hin _ eq_refl) in Ha. discriminate Ha.
    + destruct (P i rr j O Ha Jr) as (jb & Hjb & Hs).
      destruct Htr as [(jb0 & r0 & Ej & _)
                      |[(Ej & _)|(jr & f & Hjr & Ej & _)]].
      * exists jb. rewrite Ej, lookup_insert_ne; [split; assumption|].
        pose proof (Hbelow _ _ _ _ O Jr). lia.
      * exists jb. rewrite Ej. split; assumption.
      * destruct (decide (jr = j)) as [->|Hne].
        -- exfalso. apply Ne. symmetry. exact (U _ _ _ _ _ _ _ Ht O Hjr Jr).
        -- exists jb. rewrite Ej, lookup_alter_ne by exact Hne. split; assumption.
  - intros j jb Hj Hc.
    destruct Htr as [(jb0 & r0 & Ej & Hs & _)
                    |[(Ej & _)|(jr & f & Hjr & Ej & _ & Hcase)]].
    + rewrite Ej in Hj. destruct (decide (next_job st = j)) as [<-|Hne].
      * rewrite lookup_insert_eq in Hj. injection Hj as <-. congruence.
      * rewrite lookup_insert_ne in Hj by exact Hne. exact (C _ _ Hj Hc).
    + rewrite Ej in Hj. exact (C _ _ Hj Hc).
    + rewrite Ej in Hj. destruct (decide (jr = j)) as [->|Hne].
      * rewrite lookup_alter_eq in Hj.
        destruct (research_jobs st !! j) as [jb0|] eqn:Hj0; [|discriminate].
        injection Hj as <-.
        destruct Hcase as [(_ & Hf)|[(Har & Hf)|(Hf & _)]].
        -- rewrite Hf in Hc. discriminate Hc.
        -- destruct (P t r j Ht Har Hjr) as (jb1 & Hjb1 & Hs1).
           rewrite Hf in Hc. congruence.
        -- exact (proj2 (Hf jb0)).
      * rewrite lookup_alter_ne in Hj by exact Hne. exact (C _ _ Hj Hc).
Qed.

Lemma track_ok_other st t c c' s' jobs' :
  track_ok st ->
  tasks st !! t = Some (mkTask c Pending) ->
  (forall r, c <> RunResearch r) -> (forall r, c' <> RunResearch r) ->
  (jobs' = research_jobs st
   \/ exists j0 jb0 p, research_jobs st !! j0 = Some jb0
        /\ status jb0 = "processing"
        /\ jobs' = <[j0 := set_progress p jb0]> (research_jobs st)) ->
  track_ok (with_tasks (<[t := mkTask c' s']> (tasks st)) (with_jobs jobs' st)).
Proof.
  intros (U & P & C) Ht Hc Hc' Hjobs.
  assert (Hold : forall i rr s,
            <[t := mkTask c' s']> (tasks st) !! i = Some (mkTask (RunResearch rr) s) ->
            tasks st !! i = Some (mkTask (RunResearch rr) s)).
  { intros i rr s Hi. apply list_lookup_insert_Some in Hi.
    destruct Hi as [(_ & Hn & _)|(_ & Hi)]; [|exact Hi].
    injection Hn as Hn _. destruct (Hc' _ Hn). }
  unfold track_ok. cbn [tasks research_jobs with_tasks with_jobs].
  split; [|split].
  - intros t1 t2 r1 r2 s1 s2 j H1 H2.
    exact (U _ _ _ _ _ _ _ (Hold _ _ _ H1) (Hold _ _ _ H2)).
  - intros i rr j Hi Ha Jr.
    destruct (P _ _ _ (Hold _ _ _ Hi) Ha Jr) as (jb & Hjb & Hs).
    destruct Hjobs as [->|(j0 & jb0 & p & Hj0 & Hs0 & ->)]; [exists jb; split; assumption|].
    destruct (decide (j0 = j)) as [->|Hne].
    + exists (set_progress p jb0). rewrite lookup_insert_eq.
      split; [reflexivity|exact Hs0].
    + exists jb. rewrite lookup_insert_ne by exact Hne. split; assumption.
  - intros j jb Hj Hcm.
    destruct Hjobs as [->|(j0 & jb0 & p & Hj0 & Hs0 & ->)]; [exact (C _ _ Hj Hcm)|].
    destruct (decide (j0 = j)) as [->|Hne].
    + rewrite lookup_insert_eq in Hj. injection Hj as <-. simpl in Hcm. congruence.
    + rewrite lookup_insert_ne in Hj by exact Hne. exact (C _ _ Hj Hcm).
Qed.

Lemma step_track st ev : server_ok st -> track_ok st -> track_ok (step st ev).
Proof.
  intros Hok Htr.
  destruct ev as [c|c ws|c prompt out|c prompt out|c|t o|path]; simpl.
  - unfold ws_connect. destruct (websocket_tasks st !! c); [exact Htr|].
    apply (track_ok_same st); [exact Htr|reflexivity..].
  - unfold ws_accepted.
    destruct (track_tasks c (length (tasks st)) (create_task (SendPing c) st))
      as (H1 & H2 & _).
    apply (track_ok_add st _ (SendPing c) Htr); [exact H1|exact H2|discriminate].
  - unfold ws_research_request.
    match goal with |- track_ok (track _ _ (create_task ?co _)) =>
      destruct (track_tasks c (length (tasks st)) (create_task co st))
        as (H1 & H2 & _);
      apply (track_ok_add st _ co Htr); [exact H1|exact H2|]
    end.
    intros r [= <-]. reflexivity.
  - unfold create_research.
    match goal with |- track_ok (create_task ?co _) =>
      apply (track_ok_add st _ co Htr); [reflexivity|reflexivity|]
    end.
    intros r [= <-]. reflexivity.
  - unfold ws_close. simpl.
    destruct (websocket_tasks st !! c) as [owned|];
      [|apply (track_ok_same st); [exact Htr|reflexivity..]].
    apply (track_ok_close st owned); [exact Htr|reflexivity..].
  - unfold Server.resume.
    destruct (tasks st !! t) as [[c s]|] eqn:Ht; [|exact Htr].
    destruct s; try exact Htr.
    destruct c as [r|k|c].
    + pose proof (runner_resume_effect o r st) as Heff.
      pose proof (runner_resume_track o r st) as Htk.
      destruct (runner_resume o r st) as [r' st']. cbn [fst snd] in Heff, Htk.
      exact (track_ok_runner st t r r' st' Hok Htr Ht Heff Htk).
    + destruct (ticker_resume (live st o (t_client k)) o k (research_jobs st))
        as [k' jobs'] eqn:Ek.
      assert (Hjobs : jobs' = research_jobs st
                \/ exists j0 jb0 p, research_jobs st !! j0 = Some jb0
                     /\ status jb0 = "processing"
                     /\ jobs' = <[j0 := set_progress p jb0]> (research_jobs st)).
      { destruct (ticker_resume_guarded _ _ _ _ _ _ Ek) as [->|(j0 & Hj0 & Hs & ->)];
          [left; reflexivity|].
        right. exists (t_job k), j0, (t_current k + increment (t_cfg k)).
        split; [exact Hj0|]. split; [exact Hs|reflexivity]. }
      destruct k' as [k''|];
        apply (track_ok_other st t (ProgressUpdates k) _ _ jobs' Htr Ht);
        try discriminate; exact Hjobs.
    + assert (K : forall s', track_ok
                    (with_tasks (<[t := mkTask (SendPing c) s']> (tasks st)) st)).
      { intros s'.
        apply (track_ok_other st t (SendPing c) (SendPing c) s' (research_jobs st)
                 Htr Ht); try discriminate. left. reflexivity. }
      destruct (raised o); [apply K|].
      destruct (connected o); [exact Htr|apply K].
  - apply (track_ok_same st); [exact Htr|reflexivity..].
Qed.

Lemma init_track : track_ok init.
Proof.
  unfold track_ok, init. simpl.
  split; [intros t1 t2 r1 r2 s1 s2 j H; discriminate H|].
  split; [intros t r j H; discriminate H|].
  intros j jb H. rewrite lookup_empty in H. discriminate H.
Qed.

Lemma run_track evs st :
  server_ok st -> track_ok st -> track_ok (run evs st).
Proof.
  revert st. induction evs as [|ev evs IH]; intros st Hok Htr; [exact Htr|].
  change (track_ok (run evs (step st ev))).
  apply IH; [apply step_ok_change, Hok|apply step_track; assumption].
Qed.

(** X26.  A completed job is at 100.  In every state the server can
    reach, an entry of the registry whose status is [completed] has the
    progress 100: the ticker writes a progress only to a job that is
    processing, and the runner of a job writes nothing but a failure once
    it has completed it. *)
Theorem completed_job_at_100 evs j jb :
  research_jobs (run evs init) !! j = Some jb ->
  status jb = "completed" ->
  progress jb = 100 /\ is_Some (end_time jb) /\ is_Some (output_file jb).
Proof.
  intros Hj Hc.
  destruct (run_track evs init init_ok init_track) as (_ & _ & C).
  destruct (run_ok evs init init_ok) as (A & _).
  destruct (A j jb Hj) as (_ & _ & _ & _ & Hend & _ & Hout & _).
  split; [exact (C j jb Hj Hc)|]. split; [exact (Hend Hc)|exact Hout].
Qed.

(** X27.  One runner per job, and the job of a runner at work is
    processing.  In every state the server can reach, no two tasks run the
    same job; and while the runner of a job is pending between the
    registration of the job and the write of its report, the job has an
    entry in the registry whose status is [processing]: no other task
    completes or fails it. *)
Theorem runner_owns_job evs :
  let st := run evs init in
  (forall t1 t2 r1 r2 s1 s2 j,
     tasks st !! t1 = Some (mkTask (RunResearch r1) s1) ->
     tasks st !! t2 = Some (mkTask (RunResearch r2) s2) ->
     r_job r1 = Some j -> r_job r2 = Some j -> t1 = t2)
  /\ (forall t r j,
        tasks st !! t = Some (mkTask (RunResearch r) Pending) ->
        active (r_pc r) = true -> r_job r = Some j ->
        exists jb, research_jobs st !! j = Some jb /\ status jb = "processing").
Proof.
  intros st. destruct (run_track evs init init_ok init_track) as (U & P & _).
  split; [exact U|exact P].
Qed.

End RunnerMore.

(** ** The message loop *)

Section DispatchMore.
Variable strip : string -> string.
Variable py_str : pyval -> string.
Variable data_analysis_available : bool.
Variable path_exists : string -> bool.
Variable unavailable_message : string.
Variable not_found_message : pyval -> string.

Local Abbreviation dispatch :=
  (dispatch strip py_str data_analysis_available path_exists
            unavailable_message not_found_message).

Lemma generic_request_cases d :
  generic_request d = Pong
  \/ generic_request d
     = SendError "Could not find a valid research prompt in the message"
  \/ exists prompt, generic_request d = StartResearch prompt PNone
                    /\ py_truthy prompt = true.
Proof.
  unfold generic_request.
  destruct (_ || _); [left; reflexivity|].
  destruct (py_truthy (default (PStr "") (dict_get d "prompt"))) eqn:E1.
  - rewrite E1. right. right. eexists. split; [reflexivity|exact E1].
  - destruct (py_truthy (default (default (PStr "") (dict_get d "prompt"))
                                 (first_long d))) eqn:E2.
    + right. right. eexists. split; [reflexivity|exact E2].
    + right. left. reflexivity.
Qed.

(** X21.  Two branches of the message loop are never taken.  A message
    of type [heartbeat] is answered by the first test of the loop, so the
    second heartbeat branch is dead; and every dictionary is taken by the
    branch for other dictionaries, which stands before the one for
    [analysis_request]: no message starts an analysis. *)
Theorem dispatch_dead_branches message :
  dispatch message <> HeartbeatResponseLate
  /\ forall file_path analysis_type options,
       dispatch message <> StartAnalysis file_path analysis_type options.
Proof.
  assert (G : forall d, generic_request d <> HeartbeatResponseLate
                /\ forall f a o, generic_request d <> StartAnalysis f a o).
  { intros d. destruct (generic_request_cases d) as [->|[->|(p & -> & _)]];
      split; intros; discriminate. }
  unfold ServerMore.dispatch.
  destruct message as [| | | |s|l|d]; cbn [is_dict items andb stripped].
  1-4,6: split; intros; discriminate.
  - destruct (py_truthy (PStr (strip s))); split; intros; discriminate.
  - destruct (typed d "heartbeat") eqn:Hh; cbn [orb];
      [split; intros; discriminate|].
    destruct (typed d "ping"); [split; intros; discriminate|].
    destruct (typed d "research_request").
    { destruct (negb _); split; intros; discriminate. }
    destruct (typed d "get_result").
    { destruct (negb _); split; intros; discriminate. }
    destruct (typed d "list_jobs"); [split; intros; discriminate|].
    destruct (typed d "enable_terminal_view"); [split; intros; discriminate|].
    destruct (typed d "message" || dict_mem d "content").
    { destruct (negb _); split; intros; discriminate. }
    apply G.
Qed.

(** X22.  No research is started on an empty prompt: whenever the loop
    starts [run_research], the prompt it passes is a true value, that is,
    not null, not zero, and not an empty string, list or dictionary.  It
    need not be a string: the prompt of a [research_request] is passed as
    it was decoded. *)
Theorem dispatch_prompt_truthy message prompt output_file :
  dispatch message = StartResearch prompt output_file ->
  py_truthy prompt = true.
Proof.
  unfold ServerMore.dispatch.
  destruct message as [| | | |s|l|d]; cbn [is_dict items andb stripped];
    try discriminate.
  - destruct (py_truthy (PStr (strip s))) eqn:E; [|discriminate].
    intros [= <- _]. exact E.
  - destruct (typed d "heartbeat"); cbn [orb]; [discriminate|].
    destruct (typed d "ping"); [discriminate|].
    destruct (typed d "research_request").
    { destruct (py_truthy (default (PStr "") (dict_get d "prompt"))) eqn:E;
        cbn [negb]; [|discriminate]. intros [= <- _]. exact E. }
    destruct (typed d "get_result"); [destruct (negb _); discriminate|].
    destruct (typed d "list_jobs"); [discriminate|].
    destruct (typed d "enable_terminal_view"); [discriminate|].
    destruct (typed d "message" || dict_mem d "content").
    { destruct (py_truthy (default (default (PStr "") (dict_get d "text"))
                                   (dict_get d "content"))) eqn:E;
        cbn [negb]; [|discriminate]. intros [= <- _]. exact E. }
    destruct (generic_request_cases d) as [->|[->|(p & -> & Hp)]];
      try discriminate.
    intros [= <- _]. exact Hp.
Qed.

Lemma dict_get_item (d : list (string * pyval)) k v :
  dict_get d k = Some v -> exists v', In (k, v') d.
Proof.
  induction d as [|[k' v'] d IH]; simpl; [discriminate|].
  destruct (decide (k' = k)) as [->|Hne].
  - intros _. exists v'. left. reflexivity.
  - intros H. destruct (IH H) as [v0 H0]. exists v0. right. exact H0.
Qed.

Lemma head_filter_some {A} (f : A -> bool) l x :
  In x l -> f x = true ->
  exists y, head (List.filter f l) = Some y /\ f y = true.
Proof.
  intros Hin Hx.
  assert (Hf : In x (List.filter f l)) by (apply filter_In; split; assumption).
  destruct (List.filter f l) as [|y l'] eqn:E; [destruct Hf|].
  exists y. split; [reflexivity|].
  assert (Hy : In y (List.filter f l)) by (rewrite E; left; reflexivity).
  apply filter_In in Hy. exact (proj2 Hy).
Qed.

Lemma long_text_truthy v : long_text v = true -> py_truthy v = true.
Proof.
  destruct v as [| | | |s| |]; simpl; try discriminate.
  destruct s; [discriminate|reflexivity].
Qed.

Lemma typed_exclusive d t t' :
  typed d t = true -> t <> t' -> typed d t' = false.
Proof.
  unfold typed, is_str. destruct (dict_get d "type") as [[| | | |s| |]|];
    try discriminate.
  intros H Hne. apply String.eqb_eq in H. subst s.
  apply String.eqb_neq. exact Hne.
Qed.


End DispatchMore.

(** ** The watcher of the output directory *)

Section WatcherMore.
Variable path_join : string -> string.

Local Abbreviation png_paths := (png_paths path_join).
Local Abbreviation scan := (scan path_join).
Local Abbreviation watch := (watch path_join).

Lemma png_paths_incl l l' : incl l l' -> incl (png_paths l) (png_paths l').
Proof.
  intros H p Hp. unfold ServerMore.png_paths in *. apply in_map_iff in Hp.
  destruct Hp as (f & <- & Hf). apply filter_In in Hf. destruct Hf as [Hf Hpng].
  apply in_map, filter_In. split; [apply H, Hf|exact Hpng].
Qed.

Lemma scan_In known l p :
  In p (scan known l) <-> In p (png_paths l) /\ ~ In p known.
Proof.
  unfold ServerMore.scan. rewrite filter_In, negb_true_iff, bool_decide_eq_false.
  rewrite list_elem_of_In. reflexivity.
Qed.

Lemma last_cons {A} (l : A) ls d : List.last (l :: ls) d = List.last ls l.
Proof.
  revert l d. induction ls as [|l' ls IH]; intros l d; [reflexivity|].
  change (List.last (l :: l' :: ls) d) with (List.last (l' :: ls) d).
  rewrite (IH l' d), (IH l' l). reflexivity.
Qed.

Lemma grows_last prev listings :
  grows prev listings -> incl prev (List.last listings prev).
Proof.
  revert prev. induction listings as [|l ls IH]; intros prev.
  - intros _ x Hx. exact Hx.
  - intros [Hi Hg]. rewrite last_cons. intros x Hx. apply (IH l Hg), Hi, Hx.
Qed.

Lemma watch_from prev listings :
  grows prev listings ->
  Forall (fun l => List.NoDup (png_paths l)) listings ->
  List.NoDup (watch (png_paths prev) listings)
  /\ forall p, In p (watch (png_paths prev) listings) <->
       In p (png_paths (List.last listings prev)) /\ ~ In p (png_paths prev).
Proof.
  revert prev. induction listings as [|l ls IH]; intros prev Hg Hnd.
  - simpl. split; [constructor|]. intros p. tauto.
  - destruct Hg as [Hi Hg]. inversion Hnd as [|? ? Hl Hls]; subst.
    destruct (IH l Hg Hls) as [IHn IHi].
    change (watch (png_paths prev) (l :: ls))
      with (scan (png_paths prev) l ++ watch (png_paths l) ls).
    rewrite last_cons.
    pose proof (png_paths_incl _ _ Hi) as Hpi.
    pose proof (png_paths_incl _ _ (grows_last _ _ Hg)) as Hpl.
    split.
    + apply List.NoDup_app.
      * unfold ServerMore.scan. apply List.NoDup_filter, Hl.
      * exact IHn.
      * intros x Hx Hx'. apply scan_In in Hx. apply IHi in Hx'. tauto.
    + intros p. rewrite in_app_iff, scan_In, IHi. split.
      * intros [[H1 H2]|[H1 H2]].
        -- split; [apply Hpl, H1|exact H2].
        -- split; [exact H1|]. intros H3. apply H2, Hpi, H3.
      * intros [H1 H2].
        destruct (in_dec String.string_dec p (png_paths l)) as [Hin|Hout].
        -- left. split; assumption.
        -- right. split; assumption.
Qed.

(** X24.  While files are only added to the output directory, every
    image is announced once: over any number of passes the watcher hands
    each [.png] path to [send_visualization] and records it exactly once,
    and what it has recorded in the end are the images of the last
    listing. *)
Theorem watch_growing_once listings :
  grows [] listings ->
  Forall (fun l => List.NoDup (png_paths l)) listings ->
  List.NoDup (watch [] listings)
  /\ forall p, In p (watch [] listings) <-> In p (png_paths (List.last listings [])).
Proof.
  intros Hg Hnd. destruct (watch_from [] listings Hg Hnd) as [H1 H2].
  split; [exact H1|]. intros p. rewrite (H2 p). simpl. tauto.
Qed.

(** X25.  An image that leaves the directory and comes back is
    announced again.  The watcher remembers only the listing of the pass
    before, so a path that is listed, then missing, then listed again is
    handed to [send_visualization] and recorded in [visualizations] at
    least twice. *)
Theorem watch_reannounces known l1 l2 l3 rest p :
  In p (png_paths l1) -> ~ In p known ->
  ~ In p (png_paths l2) -> In p (png_paths l3) ->
  (2 <= count_occ String.string_dec (watch known (l1 :: l2 :: l3 :: rest)) p)%nat.
Proof.
  intros H1 Hk H2 H3.
  change (watch known (l1 :: l2 :: l3 :: rest))
    with (scan known l1 ++ scan (png_paths l1) l2
          ++ scan (png_paths l2) l3 ++ watch (png_paths l3) rest).
  rewrite !count_occ_app.
  assert (A : (0 < count_occ String.string_dec (scan known l1) p)%nat).
  { apply count_occ_In, scan_In. split; assumption. }
  assert (B : (0 < count_occ String.string_dec (scan (png_paths l2) l3) p)%nat).
  { apply count_occ_In, scan_In. split; assumption. }
  lia.
Qed.

End WatcherMore.

(** ** Worked instances *)

Lemma store_completed_research_lookup_witness :
  List.NoDup (dict_keys full_research_store)
  /\ (length full_research_store <= 100)%nat
  /\ (length (store_completed_research full_research_store 100%nat (research_entry 100))
      <= 100)%nat
  /\ dict_get (dict_set full_research_store 100%nat (research_entry 100)) 100%nat
     = Some (research_entry 100%nat).
Proof.
  assert (H1 : List.NoDup (dict_keys full_research_store)).
  { change (List.NoDup (List.seq 0%nat 100%nat)). apply List.seq_NoDup. }
  assert (H2 : (length full_research_store <= 100)%nat)
    by (vm_compute; lia).
  split; [exact H1|]. split; [exact H2|].
  pose proof (store_completed_research_lookup full_research_store 100%nat
                (research_entry 100) H1 H2) as W.
  split; [exact (proj1 (proj2 W))|exact (proj1 (proj2 (proj2 W)))].
Defined.

Lemma ticker_progress_bounded_witness :
  ticker_wf sleeping_ticker
  /\ forall j jb',
       snd (ticker_resume true calm sleeping_ticker one_job) !! j = Some jb' ->
       one_job !! j = Some jb' \/ progress jb' <= 67.
Proof.
  assert (H1 : ticker_wf sleeping_ticker).
  { unfold ticker_wf. intros _. simpl. lia. }
  split; [exact H1|].
  exact (proj1 (proj2 (proj2
    (ticker_progress_bounded true calm sleeping_ticker one_job _ _ H1 eq_refl)))
    eq_refl).
Defined.

Lemma ticker_terminates_witness :
  ticker_wf idle_ticker
  /\ fst (ticker_runs (repeat (true, calm, fun jobs => jobs) 52) idle_ticker one_job)
     = None.
Proof.
  assert (H1 : ticker_wf idle_ticker).
  { unfold ticker_wf. intros H. discriminate H. }
  assert (H2 : 0 < increment (t_cfg idle_ticker)) by (simpl; lia).
  assert (H3 : (Z.to_nat (ticker_rank idle_ticker)
                <= length (repeat (true, calm, fun jobs : gmap nat job => jobs) 52))%nat)
    by (vm_compute; lia).
  split; [exact H1|].
  exact (ticker_terminates _ idle_ticker one_job H1 H2 H3).
Defined.

Lemma nonstring_reply_fails_job_witness :
  extract_response sample_str (PDict [("response", PInt 42)]) = Ok (PInt 42)
  /\ exists e, (e = TypeError \/ e = AttributeError)
       /\ fst (runner_resume sample_str sample_blank (fun p => p)
                 sample_report_name sample_exn_text calm
                 (collected_runner (PDict [("response", PInt 42)])) busy_state)
          = None.
Proof.
  assert (H1 : extract_response sample_str
                 (r_responses (collected_runner (PDict [("response", PInt 42)])))
               = Ok (PInt 42)) by reflexivity.
  assert (H2 : forall s, PInt 42 <> PStr s) by (intros s; discriminate).
  assert (H3 : research_jobs busy_state !! 0%nat
               = Some (mkJob "processing" 40 (Some "research_report.md") None
                             (10#1)%Q None None "A" false))
    by (vm_compute; reflexivity).
  split; [exact H1|].
  destruct (nonstring_reply_fails_job sample_str sample_blank (fun p => p)
              sample_report_name sample_exn_text calm
              (collected_runner (PDict [("response", PInt 42)])) busy_state
              0%nat _ (PInt 42) eq_refl eq_refl eq_refl eq_refl H1 H2 H3)
    as (e & He & Hf & _).
  exists e. split; [exact He|exact Hf].
Defined.


Lemma failed_notice_keeps_result_witness :
  research_jobs done_state !! 0%nat = Some done_job
  /\ research_jobs
       (snd (runner_resume sample_str sample_blank (fun p => p)
               sample_report_name sample_exn_text broken notifying_runner
               done_state)) !! 0%nat
     = Some (failed_job "connection lost" (11#1)%Q done_job)
  /\ completed_research
       (snd (runner_resume sample_str sample_blank (fun p => p)
               sample_report_name sample_exn_text broken notifying_runner
               done_state))
     = completed_research done_state.
Proof.
  assert (H1 : research_jobs done_state !! 0%nat = Some done_job)
    by (vm_compute; reflexivity).
  split; [exact H1|].
  pose proof (failed_notice_keeps_result sample_str sample_blank (fun p => p)
                sample_report_name sample_exn_text broken notifying_runner
                done_state 0%nat done_job "connection lost"
                eq_refl eq_refl eq_refl H1) as W.
  split; [exact (proj1 (proj2 W))|exact (proj1 (proj2 (proj2 (proj2 W))))].
Defined.

Lemma registry_entries_well_formed_witness :
  research_jobs (run sample_str sample_blank (fun p => p) sample_report_name
       sample_exn_text (busy_events ++ done_events) init) !! 0%nat
  = Some done_job
  /\ 0 <= progress done_job <= 100.
Proof.
  assert (H1 : research_jobs (run sample_str sample_blank (fun p => p) sample_report_name
       sample_exn_text (busy_events ++ done_events) init) !! 0%nat
               = Some done_job) by (vm_compute; reflexivity).
  split; [exact H1|].
  exact (proj1 (proj2 (proj2
    (registry_entries_well_formed sample_str sample_blank (fun p => p)
       sample_report_name sample_exn_text (busy_events ++ done_events)
       0%nat done_job H1)))).
Defined.

Lemma completed_job_at_100_witness :
  research_jobs (run sample_str sample_blank (fun p => p) sample_report_name
       sample_exn_text (busy_events ++ done_events) init) !! 0%nat
  = Some done_job
  /\ status done_job = "completed"
  /\ progress done_job = 100.
Proof.
  assert (H1 : research_jobs (run sample_str sample_blank (fun p => p)
                 sample_report_name sample_exn_text
                 (busy_events ++ done_events) init) !! 0%nat
               = Some done_job) by (vm_compute; reflexivity).
  assert (H2 : status done_job = "completed") by reflexivity.
  split; [exact H1|]. split; [exact H2|].
  exact (proj1 (completed_job_at_100 sample_str sample_blank (fun p => p)
                  sample_report_name sample_exn_text (busy_events ++ done_events)
                  0%nat done_job H1 H2)).
Defined.

Lemma registry_entry_stays_witness :
  research_jobs (run sample_str sample_blank (fun p => p) sample_report_name
       sample_exn_text busy_events init) !! 0%nat
  = Some (mkJob "processing" 40 (Some "research_report.md") None (10#1)%Q
                None None "A" false)
  /\ exists jb',
       research_jobs (run sample_str sample_blank (fun p => p) sample_report_name
       sample_exn_text done_events
          (run sample_str sample_blank (fun p => p) sample_report_name
       sample_exn_text busy_events init)) !! 0%nat
       = Some jb'
       /\ client_id jb' = "A".
Proof.
  assert (H1 : research_jobs (run sample_str sample_blank (fun p => p) sample_report_name
       sample_exn_text busy_events init) !! 0%nat
               = Some (mkJob "processing" 40 (Some "research_report.md") None
                             (10#1)%Q None None "A" false))
    by (vm_compute; reflexivity).
  split; [exact H1|].
  destruct (registry_entry_stays sample_str sample_blank (fun p => p)
              sample_report_name sample_exn_text busy_events done_events
              0%nat _ H1) as (jb' & Hj & Hc & _).
  exists jb'. split; [exact Hj|exact Hc].
Defined.

Lemma dispatch_prompt_truthy_witness :
  sample_dispatch (PStr "why is the sky blue")
  = StartResearch (PStr "why is the sky blue") PNone
  /\ py_truthy (PStr "why is the sky blue") = true.
Proof.
  assert (H1 : sample_dispatch (PStr "why is the sky blue")
               = StartResearch (PStr "why is the sky blue") PNone)
    by reflexivity.
  split; [exact H1|].
  exact (dispatch_prompt_truthy sample_strip sample_str true (fun _ => true)
           "unavailable" (fun _ => "not found") _ _ _ H1).
Defined.


Lemma watch_growing_once_witness :
  grows [] [["a.png"]; ["a.png"; "notes.txt"; "b.png"]]
  /\ List.NoDup (watch sample_join [] [["a.png"]; ["a.png"; "notes.txt"; "b.png"]]).
Proof.
  assert (H1 : grows [] [["a.png"]; ["a.png"; "notes.txt"; "b.png"]]).
  { simpl. split; [intros x []|]. split; [|exact I].
    intros x [<-|[]]. left. reflexivity. }
  assert (H2 : Forall (fun l => List.NoDup (png_paths sample_join l))
                      [["a.png"]; ["a.png"; "notes.txt"; "b.png"]]).
  { constructor; [|constructor; [|constructor]].
    - constructor; [intros []|constructor].
    - constructor; [|constructor; [intros []|constructor]].
      intros [H|[]]. discriminate H. }
  split; [exact H1|].
  exact (proj1 (watch_growing_once sample_join _ H1 H2)).
Defined.

Lemma watch_reannounces_witness :
  In "/tmp/output/job/a.png" (png_paths sample_join ["a.png"])
  /\ (2 <= count_occ String.string_dec
             (watch sample_join [] [["a.png"]; []; ["a.png"]])
             "/tmp/output/job/a.png")%nat.
Proof.
  assert (H1 : In "/tmp/output/job/a.png" (png_paths sample_join ["a.png"])).
  { left. reflexivity. }
  assert (H2 : ~ In "/tmp/output/job/a.png" []) by (intros []).
  assert (H3 : ~ In "/tmp/output/job/a.png" (png_paths sample_join []))
    by (intros []).
  split; [exact H1|].
  exact (watch_reannounces sample_join [] ["a.png"] [] ["a.png"] []
           "/tmp/output/job/a.png" H1 H2 H3 H1).
Defined.

End ServerExtra.
